(** * CPP_Basic: the standard-library demonstration programs

    A shallow embedding of the demonstration programs of the repository (one
    [main] per standard-library header) and the properties stated about
    them.  Every program writes to [std::cout] and [std::cerr]; the file-I/O
    demonstration also reads and writes scratch files.

    Conventions of the embedding:
    - a C++ [int] is a [Z] inside the 32-bit range; signed overflow is
      undefined behaviour and is modelled by [None];
    - a [std::vector<int>] is a [list Z], iterators are indices;
    - the text a program prints is the sequence of operands of [operator<<],
      kept as values ([item]) instead of formatted characters;
    - an exception is a value of [exn] carried by the [Thrown] outcome, and an
      unchecked access out of bounds ends the run as [Undefined];
    - the files of the working directory are a finite map from names to
      contents;
    - the library functions the programs call are modelled by the behaviour
      the C++ standard documents for them; what the standard leaves open is a
      parameter ([Implementation], [Library]);
    - the threads of a program run one insertion or one access to shared
      data at a time, in the order the scheduler of the run picks;
    - what a run receives from its platform (clock readings, random-device
      values, scheduling decisions, thread identifiers, addresses, the time
      of day and the locales installed) is an [environment].

    The first part holds the definitions, program by program; the second part
    the lemmas and the theorems, one per property (C1 to C10, X1 to X16). *)

From Stdlib Require Import ZArith Ascii String DecimalString.
From Stdlib Require SpecFloat DecimalPos.
From stdpp Require Import base option list sorting strings functions gmap.

Local Open Scope Z_scope.

(** ** The C++ [int] *)

Module Int.

Definition INT_MIN : Z := -2147483648.
Definition INT_MAX : Z := 2147483647.

(** [z] is representable in an [int]. *)
Definition in_range (z : Z) : bool := (INT_MIN <=? z) && (z <=? INT_MAX).

(** The result of an [int] operation whose mathematical value is [z]:
    undefined ([None]) when it does not fit. *)
Definition checked (z : Z) : option Z :=
  if in_range z then Some z else None.

(** [a + b] on [int]. *)
Definition add (a b : Z) : option Z := checked (a + b).

(** [a - b] on [int]. *)
Definition sub (a b : Z) : option Z := checked (a - b).

(** [a * b] on [int]. *)
Definition mul (a b : Z) : option Z := checked (a * b).

End Int.

(** ** The C++ [double] *)

Module Double.

(** A [double] is an IEEE 754 binary64 number, here by its sign, mantissa and
    exponent. *)
Definition t : Type := SpecFloat.spec_float.

(** The [double] nearest to the literal [3.14], the only one the programs
    format or parse: 7070651414971679 / 2^51. *)
Definition literal_3_14 : t := SpecFloat.S754_finite false 7070651414971679 (-51).

(** [0.0], stored by an extraction that could not read a number. *)
Definition zero : t := SpecFloat.S754_zero false.

(** The [double] that holds the integer [z] (rounded to nearest when [z]
    needs more than 53 bits), as the conversion from [int] gives it. *)
Definition of_Z (z : Z) : t := SpecFloat.binary_normalize 53 1024 z 0 false.

(** [a / b] on [double]. *)
Definition div (a b : t) : t := SpecFloat.SFdiv 53 1024 a b.

(** The [double] nearest to a decimal literal with the digits [digits] and
    [places] of them after the point, for literals whose digits and scale
    are both exact in a [double] (one correctly rounded division). *)
Definition literal (digits : Z) (places : nat) : t :=
  div (of_Z digits) (of_Z (10 ^ Z.of_nat places)).

End Double.

(** A [float] and a [long double], by the same description: sign, mantissa
    and exponent. *)
Module Float.
Definition t : Type := SpecFloat.spec_float.
End Float.

Module LongDouble.
Definition t : Type := SpecFloat.spec_float.
End LongDouble.

(** The calendar time [std::localtime] hands back ([std::tm]). *)
Record tm : Type := {
  tm_sec : Z; tm_min : Z; tm_hour : Z; tm_mday : Z; tm_mon : Z; tm_year : Z;
  tm_wday : Z; tm_yday : Z; tm_isdst : Z;
}.

(** ** Output *)

(** The exceptions the demonstrations deal with; [runtime_error] carries the
    message given to its constructor, [broken_promise] is the
    [std::future_error] a promise destroyed without a result leaves behind. *)
Inductive exn : Type :=
  | out_of_range
  | bad_optional_access
  | runtime_error (msg : string)
  | broken_promise.

(** The manipulators of iomanip.cpp, and the locale it imbues [std::cout]
    with (recorded with the operands because it changes how the later ones
    are formatted). *)
Inductive manipulator : Type :=
  | Setw (n : Z)                         (* [std::setw(n)] *)
  | Setfill (c : ascii)                  (* [std::setfill(c)] *)
  | Left                                 (* [std::left] *)
  | Right                                (* [std::right] *)
  | Setprecision (n : Z)                 (* [std::setprecision(n)] *)
  | Fixed                                (* [std::fixed] *)
  | Scientific                           (* [std::scientific] *)
  | Noboolalpha                          (* [std::noboolalpha] *)
  | Setbase (n : Z)                      (* [std::setbase(n)] *)
  | PutMoney (amount : LongDouble.t)     (* [std::put_money(amount)] *)
  | PutTime (t : tm) (fmt : string)      (* [std::put_time(&t, fmt)] *)
  | Imbue (name : string).               (* [std::cout.imbue(std::locale(name))] *)

(** An operand of [operator<<]. *)
Inductive item : Type :=
  | OStr (s : string)          (* a string literal, [std::string] or view *)
  | OChar (c : ascii)          (* a [char] *)
  | OInt (z : Z)               (* an [int], [long], [size_t], stream position *)
  | OBool (b : bool)           (* a [bool] *)
  | ODouble (d : Double.t)      (* a [double] *)
  | OWhat (e : exn)            (* [e.what()] *)
  | OThread (id : nat)         (* a [std::thread::id] *)
  | Boolalpha                  (* [std::boolalpha] *)
  | Endl                       (* [std::endl] *)
  | OFloat (f : Float.t)       (* a [float] *)
  | OPointer (a : Z)           (* a pointer, by its address; 0 is null *)
  | OManip (m : manipulator).  (* a manipulator of iomanip.cpp *)

(** One insertion into [std::cout] or [std::cerr]. *)
Inductive event : Type :=
  | Cout (x : item)
  | Cerr (x : item).

Definition cout (xs : list item) : list event := Cout <$> xs.
Definition cerr (xs : list item) : list event := Cerr <$> xs.

(** What reaches standard output, and what reaches standard error. *)
Definition stdout_of (t : list event) : list item :=
  omap (λ e, match e with Cout x => Some x | Cerr _ => None end) t.
Definition stderr_of (t : list event) : list item :=
  omap (λ e, match e with Cerr x => Some x | Cout _ => None end) t.

(** The newline character, and a literal that ends in it. *)
Definition nl : string := String (ascii_of_nat 10) EmptyString.
Definition line (s : string) : string := s +:+ nl.

(** [printVector] of algorithm.cpp and numeric.cpp. *)
Definition printVector (label : string) (vec : list Z) : list event :=
  cout [OStr label; OStr ": "]
  ++ (vec ≫= λ val, cout [OInt val; OStr " "])
  ++ cout [OStr nl].

(** ** The standard algorithms the demonstrations call *)

Module std.

(** Modelled from the spec: [std::accumulate] is the C++ standard library's
    (header <numeric>), not part of the repository.  The standard defines it
    as [for (; first != last; ++first) init = init + *first; return init;],
    here with [T = int]. *)
Fixpoint accumulate (range : list Z) (init : Z) : option Z :=
  match range with
  | [] => Some init
  | x :: range' => init' ← Int.add init x; accumulate range' init'
  end.

(** Modelled from the spec: [std::accumulate] with a binary operation,
    [init = op(init, *first)]. *)
Fixpoint accumulate_op (op : Z → Z → option Z) (range : list Z) (init : Z)
    : option Z :=
  match range with
  | [] => Some init
  | x :: range' => init' ← op init x; accumulate_op op range' init'
  end.

(** The loop of [partial_sum]: [value] is the running total, [i] the index
    [result] points at; each round does [value = value + *first;
    *++result = value]. *)
Fixpoint partial_sum_loop (rest : list Z) (value : Z) (out : list Z) (i : nat)
    : option (list Z) :=
  match rest with
  | [] => Some out
  | x :: rest' =>
      value' ← Int.add value x;
      partial_sum_loop rest' value' (<[S i := value']> out) (S i)
  end.

(** Modelled from the spec: [std::partial_sum(first, last, result)] of the
    C++ standard library, writing through [result] into the vector [out]:
    nothing for an empty range, otherwise [*result = *first] followed by the
    running totals. *)
Definition partial_sum (range out : list Z) : option (list Z) :=
  match range with
  | [] => Some out
  | x :: rest => partial_sum_loop rest x (<[0%nat := x]> out) 0
  end.

(** Modelled from the spec: [std::find(first, last, value)], as the index of
    the first element equal to [value], or the length ([last]). *)
Fixpoint find (range : list Z) (value : Z) : nat :=
  match range with
  | [] => 0
  | x :: range' => if bool_decide (x = value) then 0 else S (find range' value)
  end.

(** The loop of [remove]: [for (i = first; ++i != last;)] copying [*i] to
    [*first++] when it differs from [value], with [n] the number of rounds
    left and [i] already advanced. *)
Fixpoint remove_loop (n : nat) (i : nat) (value : Z) (vec : list Z) (first : nat)
    : list Z * nat :=
  match n with
  | O => (vec, first)
  | S n' =>
      match vec !! i with
      | Some x =>
          if bool_decide (x = value)
          then remove_loop n' (S i) value vec first
          else remove_loop n' (S i) value (<[first := x]> vec) (S first)
      | None => (vec, first)
      end
  end.

(** Modelled from the spec: [std::remove(first, last, value)] of the C++
    standard library over the whole vector: the vector after the shifts and
    the returned iterator, the new logical end. *)
Definition remove (vec : list Z) (value : Z) : list Z * nat :=
  let first := find vec value in
  if bool_decide (first ≠ length vec)
  then remove_loop (length vec - S first) (S first) value vec first
  else (vec, first).

(** [vec.erase(first, last)] of [std::vector]. *)
Definition erase (vec : list Z) (first last : nat) : list Z :=
  take first vec ++ drop last vec.

(** One round of insertion sort: [val] goes in front of the first element
    it is less than ([operator<]). *)
Fixpoint linear_insert (val : Z) (sorted : list Z) : list Z :=
  match sorted with
  | [] => [val]
  | x :: sorted' =>
      if bool_decide (val < x) then val :: x :: sorted'
      else x :: linear_insert val sorted'
  end.

(** Modelled from the spec: [std::sort(first, last)] of the C++ standard
    library, which the standard specifies by its result only (the range in
    non-descending order of [operator<]).  The model is insertion sort,
    which is also what libstdc++ runs on ranges of at most 16 elements;
    [sort_unique] below shows that on [int] every implementation returns
    the same vector. *)
Definition sort (vec : list Z) : list Z :=
  foldl (λ sorted val, linear_insert val sorted) [] vec.

(** Modelled from the spec: [std::iota(first, last, value)] over the whole
    vector [out]: [*first = value; ++value] for every element. *)
Fixpoint iota (out : list Z) (value : Z) : option (list Z) :=
  match out with
  | [] => Some []
  | _ :: out' =>
      value' ← Int.add value 1;
      rest ← iota out' value';
      Some (value :: rest)
  end.

(** The loop of [adjacent_difference]: [acc] is the previous element. *)
Fixpoint adjacent_difference_loop (rest : list Z) (acc : Z) (out : list Z)
    (i : nat) : option (list Z) :=
  match rest with
  | [] => Some out
  | val :: rest' =>
      d ← Int.sub val acc;
      adjacent_difference_loop rest' val (<[S i := d]> out) (S i)
  end.

(** Modelled from the spec: [std::adjacent_difference(first, last, result)]:
    the first element, then the difference of each element and the one
    before it. *)
Definition adjacent_difference (range out : list Z) : option (list Z) :=
  match range with
  | [] => Some out
  | x :: rest => adjacent_difference_loop rest x (<[0%nat := x]> out) 0
  end.

(** Modelled from the spec: [std::inner_product(first1, last1, first2,
    init)]: [init = init + *first1 * *first2]; the second range must not be
    the shorter one. *)
Fixpoint inner_product (range1 range2 : list Z) (init : Z) : option Z :=
  match range1, range2 with
  | [], _ => Some init
  | x :: range1', y :: range2' =>
      p ← Int.mul x y;
      init' ← Int.add init p;
      inner_product range1' range2' init'
  | _ :: _, [] => None
  end.

(** Modelled from the spec: [std::gcd] and [std::lcm] on [int]. *)
Definition gcd (m n : Z) : option Z := Int.checked (Z.gcd m n).
Definition lcm (m n : Z) : option Z := Int.checked (Z.lcm m n).

End std.

(** The mathematical sum of a vector. *)
Definition math_sum (v : list Z) : Z := foldr Z.add 0 v.

(** Every element is an [int]: what the type [std::vector<int>] guarantees. *)
Definition ints (v : list Z) : Prop := Forall (λ x, Int.in_range x = true) v.

(** The running totals of [v], taken left to right from 0, all fit in an
    [int]. *)
Definition totals_in_range (v : list Z) : Prop :=
  ∀ k : nat, (k ≤ length v)%nat → Int.in_range (math_sum (take k v)) = true.

(** ** Console programs: output, exceptions, undefined behaviour *)

(** How a computation ends: normally with a value, by an exception that is
    propagating, or in undefined behaviour (an unchecked access out of
    bounds). *)
Inductive outcome (A : Type) : Type :=
  | Normal (a : A)
  | Thrown (e : exn)
  | Undefined.
Arguments Normal {A} a.
Arguments Thrown {A} e.
Arguments Undefined {A}.

(** A computation of a console program: how it ends and what it has printed. *)
Definition M (A : Type) : Type := outcome A * list event.

#[global] Instance M_ret : MRet M := λ A a, (Normal a, []).

#[global] Instance M_bind : MBind M := λ A B f m,
  match m with
  | (Normal a, t) => let '(r, t') := f a in (r, t ++ t')
  | (Thrown e, t) => (Thrown e, t)
  | (Undefined, t) => (Undefined, t)
  end.

(** [std::cout << ...] and [std::cerr << ...]. *)
Definition print (t : list event) : M unit := (Normal (), t).

(** [throw e]. *)
Definition throw {A : Type} (e : exn) : M A := (Thrown e, []).

Definition undefined {A : Type} : M A := (Undefined, []).

(** The value of an unchecked operation: undefined when there is none. *)
Definition unchecked {A : Type} (o : option A) : M A :=
  match o with Some a => mret a | None => undefined end.

(** [try { body } catch (const E& e) { handler }], where [catches] tells which
    exceptions the handler's parameter type [E] matches. *)
Definition try_catch {A : Type} (body : M A) (catches : exn → bool)
    (handler : exn → M A) : M A :=
  match body with
  | (Thrown e, t) =>
      if catches e then let '(r, t') := handler e in (r, t ++ t')
      else (Thrown e, t)
  | done => done
  end.

(** The exception a [try] block hands to its handler, if any. *)
Definition caught {A : Type} (body : M A) (catches : exn → bool) : option exn :=
  match body with
  | (Thrown e, _) => if catches e then Some e else None
  | _ => None
  end.

(** The handler parameter types of the demonstrations.  All three exception
    classes derive from [std::exception]. *)
Definition is_out_of_range (e : exn) : bool :=
  match e with out_of_range => true | _ => false end.
Definition is_bad_optional_access (e : exn) : bool :=
  match e with bad_optional_access => true | _ => false end.
Definition is_std_exception (e : exn) : bool := true.

(** A [size_t] operand. *)
Definition OSize (n : nat) : item := OInt (Z.of_nat n).

(** A counted or range-based [for] loop over [xs] that updates [s]. *)
Fixpoint for_each {A S : Type} (xs : list A) (body : A → S → M S) (s : S) : M S :=
  match xs with
  | [] => mret s
  | x :: xs' => s' ← body x s; for_each xs' body s'
  end.

(** [main] ran to its [return 0;]: no exception escaped, nothing undefined
    happened. *)
Definition completes_normally (m : M Z) : Prop := m.1 = Normal 0.

(** The choices the C++ standard leaves to the implementation: how a
    vector's capacity evolves, the largest size it supports, the order in
    which an unordered container is traversed, the byte order of an [int] and
    the text form of a [double]. *)
Class Implementation : Type := {
  (* the capacity chosen when an insertion finds a vector of capacity [c] full *)
  vector_growth : nat → nat;
  (* the capacity [reserve(n)] allocates when [n] exceeds the current one *)
  vector_reserve : nat → nat;
  (* the capacity after [shrink_to_fit()], from the size and the capacity *)
  vector_shrink : nat → nat → nat;
  (* [max_size()] of [std::vector<int>] *)
  vector_max_size : Z;
  (* the traversal order of an unordered container that holds these entries,
     listed in order of insertion *)
  unordered_order : list (string * Z) → list (string * Z);
  (* the arrangement [std::partition] leaves (the standard fixes only which
     elements come first) and the one [std::nth_element] leaves *)
  partition_arrangement : (Z → bool) → list Z → list Z;
  nth_element_arrangement : nat → list Z → list Z;
  (* whether the most significant byte of an [int] comes first in memory *)
  big_endian : bool;
  (* the characters [operator<<] writes for a [double] *)
  double_to_chars : Double.t → string;
  (* [operator>>] for a [double]: the value read from the head of the
     characters, and the characters left *)
  double_from_chars : string → option (Double.t * string);
}.

(** One admissible implementation: capacity doubling, exact [reserve] and
    [shrink_to_fit], traversal in reverse order of insertion, a partition
    that keeps the relative order, an [nth_element] that sorts, little-endian
    [int]s, and the text form of the one [double] the programs use. *)
Definition reference_implementation : Implementation := {|
  vector_growth c := Nat.max 1 (2 * c);
  vector_reserve n := n;
  vector_shrink size c := size;
  vector_max_size := 2305843009213693951;
  unordered_order entries := reverse entries;
  partition_arrangement pred v :=
    List.filter pred v ++ List.filter (λ x, negb (pred x)) v;
  nth_element_arrangement n v := std.sort v;
  big_endian := false;
  double_to_chars d := "3.14";
  double_from_chars s :=
    if String.prefix "3.14" s
    then Some (Double.literal_3_14, substring 4 (String.length s - 4) s)
    else None;
|}.

(** ** vector.cpp *)

Module vector.
Section main.
Context {impl : Implementation}.

(** A [std::vector<int>]: its elements and its capacity. *)
Record vec : Type := { elems : list Z; capacity : nat }.

Definition size (v : vec) : nat := length (elems v).
Definition empty (v : vec) : bool := bool_decide (size v = 0%nat).

(** Room for one more element, reallocating when the vector is full. *)
Definition grown (v : vec) : nat :=
  if bool_decide (size v < capacity v)%nat then capacity v
  else vector_growth (capacity v).

Definition push_back (v : vec) (x : Z) : vec :=
  {| elems := elems v ++ [x]; capacity := grown v |}.

Definition reserve (v : vec) (n : nat) : vec :=
  {| elems := elems v;
     capacity := if bool_decide (capacity v < n)%nat then vector_reserve n
                 else capacity v |}.

Definition shrink_to_fit (v : vec) : vec :=
  {| elems := elems v; capacity := vector_shrink (size v) (capacity v) |}.

(** [v.at(i)]: bounds-checked. *)
Definition at_ (v : vec) (i : nat) : M Z :=
  match elems v !! i with
  | Some x => mret x
  | None => throw out_of_range
  end.

(** [v[i]], [v.front()], [v.back()], [*(v.data() + i)]: unchecked. *)
Definition subscript (v : vec) (i : nat) : M Z := unchecked (elems v !! i).
Definition front (v : vec) : M Z := unchecked (head (elems v)).
Definition back (v : vec) : M Z := unchecked (last (elems v)).
Definition data_at (v : vec) (i : nat) : M Z := unchecked (elems v !! i).

Definition pop_back (v : vec) : M vec :=
  match elems v with
  | [] => undefined
  | _ => mret {| elems := removelast (elems v); capacity := capacity v |}
  end.

Definition clear (v : vec) : vec := {| elems := []; capacity := capacity v |}.

(** [v.insert(v.begin() + pos, x)] *)
Definition insert (v : vec) (pos : nat) (x : Z) : vec :=
  {| elems := take pos (elems v) ++ x :: drop pos (elems v);
     capacity := grown v |}.

(** [v.erase(v.begin() + pos)] *)
Definition erase (v : vec) (pos : nat) : vec :=
  {| elems := take pos (elems v) ++ drop (S pos) (elems v);
     capacity := capacity v |}.

(** [a.swap(b)]: the two vectors, exchanged. *)
Definition swap (a b : vec) : vec * vec := (b, a).

(** [for (int val : v) { std::cout << val << " "; }] *)
Definition print_elements (v : vec) : M unit :=
  print (elems v ≫= λ val, cout [OInt val; OStr " "]).

(** Part 1 of [main]: capacity and size. *)
Definition part1 : M vec :=
  print (cout [OStr (line "--- Part 1: Capacity and Size ---")]);;
  let myVector := {| elems := []; capacity := 0 |} in
  print (cout [OStr "Initially, myVector is empty. Size: "; OSize (size myVector);
               OStr ", Capacity: "; OSize (capacity myVector); OStr nl]);;
  myVector ← for_each [0; 1; 2; 3; 4] (λ i myVector,
    let myVector := push_back myVector (i * 10) in
    print (cout [OStr "After adding "; OInt (i * 10); OStr ": Size = ";
                 OSize (size myVector); OStr ", Capacity = ";
                 OSize (capacity myVector); OStr nl]);;
    mret myVector) myVector;
  print (cout [OStr nl]);;
  print (cout [OStr "The current number of elements in myVector is: ";
               OSize (size myVector); OStr nl]);;
  print (cout [OStr "The current allocated memory can hold up to ";
               OSize (capacity myVector); OStr (line " elements.")]);;
  (if negb (empty myVector)
   then print (cout [OStr (line "myVector is not empty.")])
   else mret ());;
  let myVector := reserve myVector 20 in
  print (cout [OStr "After reserving space for 20 elements, Capacity is now: ";
               OSize (capacity myVector); OStr nl]);;
  print (cout [OStr nl]);;
  let myVector := shrink_to_fit myVector in
  print (cout [OStr "After shrinking to fit, Capacity is now: ";
               OSize (capacity myVector); OStr nl]);;
  print (cout [OStr nl]);;
  print (cout [OStr "The maximum size myVector could ever have is: ";
               OInt vector_max_size; OStr nl]);;
  print (cout [OStr (line (line "--------------------------------"))]);;
  mret myVector.

(** The [try] block of Part 2 with its handler (lines 65-71): the access at
    index 10 is commented out in the source. *)
Definition try_block (myVector : vec) : M unit :=
  print (cout [OStr "Element at index 2 (using at()): "]);;
  x ← at_ myVector 2;
  print (cout [OInt x; OStr nl]).

Definition handler (e : exn) : M unit :=
  print (cerr [OStr "Caught exception: "; OWhat e; OStr nl]).

Definition checked_access (myVector : vec) : M unit :=
  try_catch (try_block myVector) is_out_of_range handler.

(** Part 2 of [main]: element access. *)
Definition part2 (myVector : vec) : M unit :=
  print (cout [OStr (line "--- Part 2: Element Access ---")]);;
  checked_access myVector;;
  print (cout [OStr "Element at index 2 (using []): "]);;
  x ← subscript myVector 2; print (cout [OInt x; OStr nl]);;
  print (cout [OStr "First element (using front()): "]);;
  x ← front myVector; print (cout [OInt x; OStr nl]);;
  print (cout [OStr "Last element (using back()): "]);;
  x ← back myVector; print (cout [OInt x; OStr nl]);;
  let dataPtr := myVector in
  print (cout [OStr "Element at index 2 using pointer: "]);;
  x ← data_at dataPtr 2; print (cout [OInt x; OStr nl]);;
  print (cout [OStr (line (line "--------------------------------"))]).

(** Part 3 of [main]: modifiers and iterators. *)
Definition part3 (myVector : vec) : M unit :=
  print (cout [OStr (line "--- Part 3: Modifiers and Iterators ---")]);;
  myVector ← pop_back myVector;
  print (cout [OStr "After pop_back(), the vector has "; OSize (size myVector);
               OStr (line " elements.")]);;
  let myVector := clear myVector in
  print (cout [OStr "After clear(), the vector has "; OSize (size myVector);
               OStr (line " elements.")]);;
  let myVector := push_back myVector 100 in
  let myVector := push_back myVector 200 in
  let myVector := push_back myVector 300 in
  print (cout [OStr "Vector before insert: "]);;
  print_elements myVector;;
  let myVector := insert myVector 1 150 in
  print (cout [OStr (nl +:+ "Vector after insert at index 1: ")]);;
  print_elements myVector;;
  print (cout [OStr nl]);;
  print (cout [OStr "Vector before erase: "]);;
  print_elements myVector;;
  let myVector := erase myVector 2 in
  print (cout [OStr (nl +:+ "Vector after erase at index 2: ")]);;
  print_elements myVector;;
  print (cout [OStr nl]);;
  let otherVector := {| elems := [900; 800; 700]; capacity := 3 |} in
  let '(myVector, otherVector) := swap myVector otherVector in
  print (cout [OStr "After swapping, myVector now contains: "]);;
  print_elements myVector;;
  print (cout [OStr (nl +:+ "And otherVector now contains: ")]);;
  print_elements otherVector;;
  print (cout [OStr nl]);;
  print (cout [OStr "Printing myVector using iterators: "]);;
  print_elements myVector;;
  print (cout [OStr nl]);;
  print (cout [OStr (line "--------------------------------")]).

Definition main : M Z :=
  myVector ← part1;
  part2 myVector;;
  part3 myVector;;
  mret 0.

End main.
End vector.

(** ** Conversions between integer types *)

Module Convert.

(** The conversion of an integer to [size_t] (64 bits) and to [int]: the
    value modulo 2^64, and the [int] congruent to it modulo 2^32. *)
Definition to_size_t (z : Z) : Z := z `mod` 2 ^ 64.
Definition to_int (z : Z) : Z := (z + 2 ^ 31) `mod` 2 ^ 32 - 2 ^ 31.

End Convert.

(** ** What the standard library leaves to the implementation, continued *)

(** The library code that the remaining demonstrations call and that is
    taken as it comes with the implementation: the layout of an unordered
    set, the state a string is left in by a move, the text form of a
    [float], the functions of <cmath>, the random number engines and
    distributions, [long double] arithmetic, and the launch policy
    [std::async] picks when it is given none. *)
Class Library : Type := {
  (* the traversal order of an unordered set that holds these elements,
     listed in order of insertion *)
  unordered_set_order : list Z → list Z;
  (* [bucket_count()] of a default-constructed set; after an insertion of
     one element, from the size after it and the bucket count before; and
     after the insertion of a list of [n] values, from [n], the size after
     it and the bucket count before *)
  unordered_set_initial_buckets : nat;
  unordered_set_insert_buckets : nat → nat → nat;
  unordered_set_insert_list_buckets : nat → nat → nat → nat;
  (* [bucket_count()] after [rehash(n)] and after [reserve(n)], from [n],
     the size and the bucket count before *)
  unordered_set_rehash : nat → nat → nat → nat;
  unordered_set_reserve : nat → nat → nat → nat;
  (* the contents of a [std::string] that has been moved from *)
  moved_from_string : string → string;
  (* [operator>>] for a [float]: the value read from the head of the
     characters, and the characters left *)
  float_from_chars : string → option (Float.t * string);
  (* <cmath> *)
  sin : Double.t → Double.t;
  cos : Double.t → Double.t;
  tan : Double.t → Double.t;
  asin : Double.t → Double.t;
  acos : Double.t → Double.t;
  atan : Double.t → Double.t;
  atan2 : Double.t → Double.t → Double.t;
  sinh : Double.t → Double.t;
  cosh : Double.t → Double.t;
  tanh : Double.t → Double.t;
  asinh : Double.t → Double.t;
  exp : Double.t → Double.t;
  log : Double.t → Double.t;
  log10 : Double.t → Double.t;
  log2 : Double.t → Double.t;
  pow : Double.t → Double.t → Double.t;
  sqrt : Double.t → Double.t;
  cbrt : Double.t → Double.t;
  hypot : Double.t → Double.t → Double.t;
  ceil : Double.t → Double.t;
  floor : Double.t → Double.t;
  trunc : Double.t → Double.t;
  round : Double.t → Double.t;
  fmod : Double.t → Double.t → Double.t;
  remainder : Double.t → Double.t → Double.t;
  (* [modf(x, &i)]: the fractional part returned and the integral part
     stored in [i] *)
  modf : Double.t → Double.t * Double.t;
  (* <random>: the state of a [std::mt19937] and of a
     [std::default_random_engine], seeding from a value and from a
     [std::seed_seq], and one call of each distribution object (its
     parameters, its own state, the engine it draws from) *)
  mt19937 : Type;
  mt19937_seed : Z → mt19937;
  mt19937_seed_seq : list Z → mt19937;
  default_random_engine : Type;
  default_random_engine_seed : Z → default_random_engine;
  uniform_int_distribution : Type;
  uniform_int_init : Z → Z → uniform_int_distribution;
  uniform_int_call : uniform_int_distribution → mt19937
                     → Z * uniform_int_distribution * mt19937;
  uniform_real_distribution : Type;
  uniform_real_init : Double.t → Double.t → uniform_real_distribution;
  uniform_real_call : uniform_real_distribution → mt19937
                      → Double.t * uniform_real_distribution * mt19937;
  bernoulli_distribution : Type;
  bernoulli_init : Double.t → bernoulli_distribution;
  bernoulli_call : bernoulli_distribution → mt19937
                   → bool * bernoulli_distribution * mt19937;
  normal_distribution : Type;
  normal_init : Double.t → Double.t → normal_distribution;
  normal_call : normal_distribution → mt19937
                → Double.t * normal_distribution * mt19937;
  (* [std::shuffle] of a vector with an engine: a permutation of it *)
  shuffle : list Z → mt19937 → list Z * mt19937;
  (* [a * b] on [long double] *)
  long_double_mul : LongDouble.t → LongDouble.t → LongDouble.t;
  (* [what()] of the [std::runtime_error] that the constructor of
     [std::locale] throws for a name it does not know *)
  locale_failure : string → string;
  (* whether [std::async] without a launch policy defers the task to the
     first [wait] or [get] instead of starting a thread *)
  async_deferred : bool;
}.

(** One library, for running the programs: an unordered set that is
    traversed in reverse order of insertion and keeps 13 buckets or as many
    as it is asked for; a moved-from string that is empty; the [float]
    nearest to 3.14; the results of the functions of <cmath> for the
    arguments cmath.cpp passes, to the last bit as a common C library
    returns them (and a NaN for any other argument);
    [long double] as the 80-bit extended format; threads for [std::async].
    The random number engine is a stand-in, a linear congruential generator,
    and every distribution takes one number from it. *)
Definition reference_library : Library := {|
  unordered_set_order elements := reverse elements;
  unordered_set_initial_buckets := 1;
  unordered_set_insert_buckets size before := Nat.max before 13;
  unordered_set_insert_list_buckets n size before := Nat.max before 13;
  unordered_set_rehash n size before := Nat.max n size;
  unordered_set_reserve n size before := Nat.max n size;
  moved_from_string s := EmptyString;
  float_from_chars s :=
    if String.prefix "3.14" s
    then Some (SpecFloat.S754_finite false 13170115 (-22),
               substring 4 (String.length s - 4) s)
    else None;
  sin x := if SpecFloat.SFeqb x (SpecFloat.S754_finite false 4716158501352293 (-53))
    then (SpecFloat.S754_finite false 9007199254740991 (-54)) else SpecFloat.S754_nan;
  cos x := if SpecFloat.SFeqb x (SpecFloat.S754_finite false 4716158501352293 (-53))
    then (SpecFloat.S754_finite false 7800463371553963 (-53)) else SpecFloat.S754_nan;
  tan x := if SpecFloat.SFeqb x (SpecFloat.S754_finite false 4716158501352293 (-53))
    then (SpecFloat.S754_finite false 5200308914369308 (-53)) else SpecFloat.S754_nan;
  asin x := if SpecFloat.SFeqb x (SpecFloat.S754_finite false 4503599627370496 (-53))
    then (SpecFloat.S754_finite false 4716158501352294 (-53)) else SpecFloat.S754_nan;
  acos x := if SpecFloat.SFeqb x (SpecFloat.S754_finite false 4503599627370496 (-53))
    then (SpecFloat.S754_finite false 4716158501352294 (-52)) else SpecFloat.S754_nan;
  atan x := if SpecFloat.SFeqb x (SpecFloat.S754_finite false 4503599627370496 (-53))
    then (SpecFloat.S754_finite false 8352332796509007 (-54)) else SpecFloat.S754_nan;
  sinh x := if SpecFloat.SFeqb x (SpecFloat.S754_finite false 4503599627370496 (-53))
    then (SpecFloat.S754_finite false 4693609247292311 (-53)) else SpecFloat.S754_nan;
  cosh x := if SpecFloat.SFeqb x (SpecFloat.S754_finite false 4503599627370496 (-53))
    then (SpecFloat.S754_finite false 5078375876716752 (-52)) else SpecFloat.S754_nan;
  tanh x := if SpecFloat.SFeqb x (SpecFloat.S754_finite false 4503599627370496 (-53))
    then (SpecFloat.S754_finite false 8324762628950771 (-54)) else SpecFloat.S754_nan;
  asinh x := if SpecFloat.SFeqb x (SpecFloat.S754_finite false 4503599627370496 (-53))
    then (SpecFloat.S754_finite false 8668741584098826 (-54)) else SpecFloat.S754_nan;
  exp x := if SpecFloat.SFeqb x (SpecFloat.S754_finite false 4503599627370496 (-53))
    then (SpecFloat.S754_finite false 7425180500362908 (-52)) else SpecFloat.S754_nan;
  log x := if SpecFloat.SFeqb x (SpecFloat.S754_finite false 4503599627370496 (-53))
    then (SpecFloat.S754_finite true 6243314768165359 (-53)) else SpecFloat.S754_nan;
  log10 x := if SpecFloat.SFeqb x (SpecFloat.S754_finite false 7036874417766400 (-46))
    then (SpecFloat.S754_finite false 4503599627370496 (-51)) else SpecFloat.S754_nan;
  log2 x := if SpecFloat.SFeqb x (SpecFloat.S754_finite false 4503599627370496 (-49))
    then (SpecFloat.S754_finite false 6755399441055744 (-51)) else SpecFloat.S754_nan;
  sqrt x := if SpecFloat.SFeqb x (SpecFloat.S754_finite false 5066549580791808 (-49))
    then (SpecFloat.S754_finite false 6755399441055744 (-51)) else SpecFloat.S754_nan;
  cbrt x := if SpecFloat.SFeqb x (SpecFloat.S754_finite false 7599824371187712 (-48))
    then (SpecFloat.S754_finite false 6755399441055744 (-51)) else SpecFloat.S754_nan;
  ceil x := if SpecFloat.SFeqb x (SpecFloat.S754_finite false 6417629469002957 (-50))
    then (SpecFloat.S754_finite false 6755399441055744 (-50)) else SpecFloat.S754_nan;
  floor x := if SpecFloat.SFeqb x (SpecFloat.S754_finite false 6417629469002957 (-50))
    then (SpecFloat.S754_finite false 5629499534213120 (-50)) else SpecFloat.S754_nan;
  trunc x := if SpecFloat.SFeqb x (SpecFloat.S754_finite true 6417629469002957 (-50))
    then (SpecFloat.S754_finite true 5629499534213120 (-50)) else SpecFloat.S754_nan;
  round x := if SpecFloat.SFeqb x (SpecFloat.S754_finite false 6417629469002957 (-50))
    then (SpecFloat.S754_finite false 6755399441055744 (-50)) else SpecFloat.S754_nan;
  atan2 x y :=
    if SpecFloat.SFeqb x (SpecFloat.S754_finite false 4503599627370496 (-52)) && SpecFloat.SFeqb y (SpecFloat.S754_finite false 4503599627370496 (-53))
    then (SpecFloat.S754_finite false 4986154552901188 (-52)) else SpecFloat.S754_nan;
  pow x y :=
    if SpecFloat.SFeqb x (SpecFloat.S754_finite false 4503599627370496 (-51)) && SpecFloat.SFeqb y (SpecFloat.S754_finite false 6755399441055744 (-51))
    then (SpecFloat.S754_finite false 4503599627370496 (-49)) else SpecFloat.S754_nan;
  hypot x y :=
    if SpecFloat.SFeqb x (SpecFloat.S754_finite false 6755399441055744 (-51)) && SpecFloat.SFeqb y (SpecFloat.S754_finite false 4503599627370496 (-50))
    then (SpecFloat.S754_finite false 5629499534213120 (-50)) else SpecFloat.S754_nan;
  fmod x y :=
    if SpecFloat.SFeqb x (SpecFloat.S754_finite false 5910974510923776 (-49)) && SpecFloat.SFeqb y (SpecFloat.S754_finite false 7205759403792794 (-51))
    then (SpecFloat.S754_finite false 8106479329266888 (-53)) else SpecFloat.S754_nan;
  remainder x y :=
    if SpecFloat.SFeqb x (SpecFloat.S754_finite false 5910974510923776 (-49)) && SpecFloat.SFeqb y (SpecFloat.S754_finite false 7205759403792794 (-51))
    then (SpecFloat.S754_finite false 8106479329266888 (-53)) else SpecFloat.S754_nan;
  modf x := if SpecFloat.SFeqb x (SpecFloat.S754_finite false 7070651414971679 (-51))
    then ((SpecFloat.S754_finite false 5044031582654960 (-55)), (SpecFloat.S754_finite false 6755399441055744 (-51)))
    else (SpecFloat.S754_nan, SpecFloat.S754_nan);
  mt19937 := Z;
  mt19937_seed seed := seed `mod` 2 ^ 32;
  mt19937_seed_seq seeds := foldr Z.add 0 seeds `mod` 2 ^ 32;
  default_random_engine := Z;
  default_random_engine_seed seed := seed `mod` 2 ^ 32;
  uniform_int_distribution := Z * Z;
  uniform_int_init a b := (a, b);
  uniform_int_call d g :=
    let g' := (1664525 * g + 1013904223) `mod` 2 ^ 32 in
    (d.1 + g' `mod` (d.2 - d.1 + 1), d, g');
  uniform_real_distribution := Double.t * Double.t;
  uniform_real_init a b := (a, b);
  uniform_real_call d g :=
    let g' := (1664525 * g + 1013904223) `mod` 2 ^ 32 in
    (Double.of_Z (g' `mod` 100), d, g');
  bernoulli_distribution := Double.t;
  bernoulli_init p := p;
  bernoulli_call d g :=
    let g' := (1664525 * g + 1013904223) `mod` 2 ^ 32 in
    (bool_decide (g' `mod` 10 < 7), d, g');
  normal_distribution := Double.t * Double.t;
  normal_init mean stddev := (mean, stddev);
  normal_call d g :=
    let g' := (1664525 * g + 1013904223) `mod` 2 ^ 32 in
    (Double.of_Z (65 + g' `mod` 21), d, g');
  shuffle v g :=
    let g' := (1664525 * g + 1013904223) `mod` 2 ^ 32 in
    (rotate (Z.to_nat (g' `mod` 7)) v, g');
  long_double_mul a b := SpecFloat.SFmul 64 16384 a b;
  locale_failure name := "locale::facet::_S_create_c_locale name not valid";
  async_deferred := false;
|}.

(** ** numeric.cpp *)

Module numeric.

Definition myVec : list Z := [1; 2; 3; 4; 5].

(** [int sum = std::accumulate(myVec.begin(), myVec.end(), 0);] *)
Definition sum (v : list Z) : option Z := std.accumulate v 0.

(** [std::vector<int> partialSumVec(myVec.size());
    std::partial_sum(myVec.begin(), myVec.end(), partialSumVec.begin());] *)
Definition partialSumVec (v : list Z) : option (list Z) :=
  std.partial_sum v (replicate (length v) 0).

(** [main]; an [int] operation that overflows makes the run undefined. *)
Definition main : M Z :=
  print (cout [OStr (line "--- Part 1: Accumulation and Reduction ---")]);;
  print (printVector "Original Vector" myVec);;
  sum ← unchecked (sum myVec);
  print (cout [OStr "accumulate: The sum of elements is "; OInt sum;
               OStr (line ".")]);;
  product ← unchecked (std.accumulate_op Int.mul myVec 1);
  print (cout [OStr "accumulate (with multiplication): The product of elements is ";
               OInt product; OStr (line ("." +:+ nl))]);;
  print (cout [OStr (line
    "--- Part 2: Sequence Generation and Transformation ---")]);;
  iotaVec ← unchecked (std.iota (replicate 5 0) 10);
  print (printVector "iota: Vector filled with sequence starting at 10" iotaVec);;
  partialSumVec ← unchecked (partialSumVec myVec);
  print (printVector "partial_sum: Running totals" partialSumVec);;
  diffVec ← unchecked
    (std.adjacent_difference myVec (replicate (length myVec) 0));
  print (printVector "adjacent_difference: Differences between elements" diffVec);;
  print (cout [OStr nl]);;
  print (cout [OStr (line
    "--- Part 3: Inner Products and Other Operations ---")]);;
  let vec1 := [1; 2; 3] in
  let vec2 := [4; 5; 6] in
  innerProduct ← unchecked (std.inner_product vec1 vec2 0);
  print (cout [OStr "inner_product: "; OInt innerProduct;
               OStr (line " (which is 1*4 + 2*5 + 3*6)")]);;
  print (cout [OStr "gcd: The greatest common divisor of 12 and 18 is "]);;
  g ← unchecked (std.gcd 12 18); print (cout [OInt g; OStr nl]);;
  print (cout [OStr "lcm: The least common multiple of 12 and 18 is "]);;
  l ← unchecked (std.lcm 12 18); print (cout [OInt l; OStr nl]);;
  mret 0.

End numeric.

(** ** algorithm.cpp *)

Module algorithm.
Section main.
Context {impl : Implementation}.

(** [isEven]: [n % 2 == 0], with the remainder of the truncating division. *)
Definition isEven (n : Z) : bool := bool_decide (Z.rem n 2 = 0).

(** [std::find_if] and [std::find], as the index of the first match or the
    length; [std::count] and [std::count_if]. *)
Fixpoint find_if (range : list Z) (pred : Z → bool) : nat :=
  match range with
  | [] => 0
  | x :: range' => if pred x then 0 else S (find_if range' pred)
  end.
Definition count_if (range : list Z) (pred : Z → bool) : nat :=
  length (List.filter pred range).
Definition count (range : list Z) (value : Z) : nat :=
  count_if range (λ x, bool_decide (x = value)).

(** [std::replace], [std::transform] with [i * 2], [std::reverse],
    [std::rotate] about the element at index [n]. *)
Definition replace (range : list Z) (old_value new_value : Z) : list Z :=
  (λ x, if bool_decide (x = old_value) then new_value else x) <$> range.
Definition transform_double (range : list Z) : option (list Z) :=
  mapM (λ i, Int.mul i 2) range.
Definition rotate (range : list Z) (n : nat) : list Z :=
  drop n range ++ take n range.

(** [std::min_element] and [std::max_element]: the first smallest and the
    first largest element, [None] for an empty range. *)
Fixpoint min_element (range : list Z) : option Z :=
  match range with
  | [] => None
  | x :: range' =>
      match min_element range' with
      | Some m => Some (if bool_decide (m < x) then m else x)
      | None => Some x
      end
  end.
Fixpoint max_element (range : list Z) : option Z :=
  match range with
  | [] => None
  | x :: range' =>
      match max_element range' with
      | Some m => Some (if bool_decide (x < m) then m else x)
      | None => Some x
      end
  end.

(** [std::min(a, b)] and [std::max(a, b)]. *)
Definition min (a b : Z) : Z := if bool_decide (b < a) then b else a.
Definition max (a b : Z) : Z := if bool_decide (a < b) then b else a.



Definition removeVec : list Z := [1; 2; 3; 2; 4; 5; 2].
Definition sortVec : list Z := [8; 1; 4; 3; 7; 2; 5; 6].

(** [auto new_end_it = std::remove(removeVec.begin(), removeVec.end(), v);
    removeVec.erase(new_end_it, removeVec.end());] *)
Definition remove_erase (vec : list Z) (v : Z) : list Z :=
  let '(vec', new_end_it) := std.remove vec v in
  std.erase vec' new_end_it (length vec').

(** Lines 92-97 of [main]. *)
Definition remove_section : list event :=
  printVector "Original removeVec" removeVec
  ++ printVector "After remove(2) and erase" (remove_erase removeVec 2).

(** Lines 115-120 of [main]. *)
Definition sort_section : list event :=
  printVector "Original" sortVec
  ++ printVector "After sort" (std.sort sortVec).

Definition separator : M unit :=
  print (cout [OStr (line "-----------------------------------------")]).

Definition part1 : M unit :=
  print (cout [OStr (line "--- Part 1: Non-Modifying Sequence Operations ---")]);;
  let myVec := [1; 2; 3; 4; 5; 6] in
  print (printVector "Original Vector" myVec);;
  (if forallb (λ i, bool_decide (0 < i)) myVec
   then print (cout [OStr (line "all_of: All elements are positive.")])
   else mret ());;
  (if existsb (λ i, bool_decide (i = 6)) myVec
   then print (cout [OStr (line "any_of: At least one element is 6.")])
   else mret ());;
  (if negb (existsb (λ i, bool_decide (i = 100)) myVec)
   then print (cout [OStr (line "none_of: No elements are 100.")])
   else mret ());;
  let find_it := std.find myVec 4 in
  (if bool_decide (find_it ≠ length myVec)
   then print (cout [OStr "find: Found element 4 at position "; OSize find_it;
                     OStr (line ".")])
   else mret ());;
  let find_if_it := find_if myVec isEven in
  (if bool_decide (find_if_it ≠ length myVec)
   then print (cout [OStr "find_if: Found first even number: "]);;
        x ← unchecked (myVec !! find_if_it); print (cout [OInt x; OStr nl])
   else mret ());;
  let countVec := [1; 2; 2; 3; 4; 2] in
  print (cout [OStr "count: The number 2 appears "; OSize (count countVec 2);
               OStr (line " times.")]);;
  print (cout [OStr "count_if: There are "; OSize (count_if countVec isEven);
               OStr (line " even numbers.")]);;
  separator.

Definition part2 : M unit :=
  print (cout [OStr (line "--- Part 2: Modifying Sequence Operations ---")]);;
  let modifyVec := [10; 20; 30; 40; 50] in
  print (printVector "Original" modifyVec);;
  let modifyVec := replace modifyVec 30 99 in
  print (printVector "After replace(30, 99)" modifyVec);;
  transformedVec ← unchecked (transform_double modifyVec);
  print (printVector "After transform (doubling)" transformedVec);;
  let modifyVec := reverse modifyVec in
  print (printVector "After reverse" modifyVec);;
  let modifyVec := rotate modifyVec 2 in
  print (printVector "After rotate (by 2)" modifyVec);;
  print remove_section;;
  separator.

Definition part3 : M unit :=
  print (cout [OStr (line "--- Part 3: Partitioning Operations ---")]);;
  let partitionVec := [1; 6; 2; 7; 3; 8; 4; 9; 5] in
  print (printVector "Original" partitionVec);;
  let partitionVec := partition_arrangement isEven partitionVec in
  print (printVector "After partition (even numbers first)" partitionVec);;
  separator.

Definition part4 : M unit :=
  print (cout [OStr (line "--- Part 4: Sorting and Related Operations ---")]);;
  print sort_section;;
  let nthVec := [9; 1; 8; 2; 7; 3; 6; 4; 5] in
  let nthVec := nth_element_arrangement 4 nthVec in
  print (cout [OStr "nth_element: The element at index 4 is "]);;
  x ← unchecked (nthVec !! 4%nat); print (cout [OInt x; OStr (line ".")]);;
  print (printVector "After nth_element(index 4)" nthVec);;
  let vec1 := [1; 3; 5] in
  let vec2 := [2; 4; 6] in
  let mergedVec := list_merge Z.le vec1 vec2 in
  print (printVector "Merged two sorted vectors" mergedVec);;
  separator.

Definition part5 : M unit :=
  print (cout [OStr (line "--- Part 5: Min/Max Operations ---")]);;
  let minMaxVec := [5; 2; 8; 1; 9; 4] in
  print (printVector "Original" minMaxVec);;
  print (cout [OStr "min_element: Smallest element is "]);;
  m ← unchecked (min_element minMaxVec); print (cout [OInt m; OStr nl]);;
  print (cout [OStr "max_element: Largest element is "]);;
  m ← unchecked (max_element minMaxVec); print (cout [OInt m; OStr nl]);;
  let x := 10 in
  let y := 20 in
  print (cout [OStr "min(10, 20) is: "; OInt (min x y); OStr nl]);;
  print (cout [OStr "max(10, 20) is: "; OInt (max x y); OStr nl]).

Definition main : M Z :=
  part1;; part2;; part3;; part4;; part5;; mret 0.

End main.
End algorithm.


(** ** array.cpp *)

Module array.

(** A [std::array<int, 5>] is the list of its five elements. *)
Definition size (a : list Z) : nat := length a.
Definition max_size (a : list Z) : nat := length a.
Definition empty (a : list Z) : bool := bool_decide (size a = 0%nat).

(** [a.at(i)]: bounds-checked. *)
Definition at_ (a : list Z) (i : nat) : M Z :=
  match a !! i with
  | Some x => mret x
  | None => throw out_of_range
  end.

(** [a[i]], [a.front()], [a.back()], [*(a.data() + i)]: unchecked. *)
Definition subscript (a : list Z) (i : nat) : M Z := unchecked (a !! i).
Definition front (a : list Z) : M Z := unchecked (head a).
Definition back (a : list Z) : M Z := unchecked (last a).
Definition data_at (a : list Z) (i : nat) : M Z := unchecked (a !! i).

Definition fill (a : list Z) (value : Z) : list Z := replicate (length a) value.
Definition swap (a b : list Z) : list Z * list Z := (b, a).

Definition print_elements (a : list Z) : M unit :=
  print (a ≫= λ val, cout [OInt val; OStr " "]).

(** The [try] block of Part 2 with its handler (lines 33-39): the access at
    index 10 is commented out in the source. *)
Definition try_block (myArray : list Z) : M unit :=
  print (cout [OStr "Element at index 2 (using at()): "]);;
  x ← at_ myArray 2;
  print (cout [OInt x; OStr nl]).

Definition handler (e : exn) : M unit :=
  print (cerr [OStr "Caught exception: "; OWhat e; OStr nl]).

Definition checked_access (myArray : list Z) : M unit :=
  try_catch (try_block myArray) is_out_of_range handler.

Definition main : M Z :=
  print (cout [OStr (line "--- Part 1: Constructors and Capacity ---")]);;
  let myArray := [10; 20; 30; 40; 50] in
  print (cout [OStr "The size of myArray is: "; OSize (size myArray); OStr nl]);;
  print (cout [OStr "The maximum size of myArray is: ";
               OSize (max_size myArray); OStr nl]);;
  (if negb (empty myArray)
   then print (cout [OStr (line (line "myArray is not empty."))])
   else mret ());;
  checked_access myArray;;
  print (cout [OStr "Element at index 2 (using []): "]);;
  x ← subscript myArray 2; print (cout [OInt x; OStr nl]);;
  print (cout [OStr "First element (using front()): "]);;
  x ← front myArray; print (cout [OInt x; OStr nl]);;
  print (cout [OStr "Last element (using back()): "]);;
  x ← back myArray; print (cout [OInt x; OStr nl]);;
  let dataPtr := myArray in
  print (cout [OStr "Element at index 2 using data() pointer: "]);;
  x ← data_at dataPtr 2; print (cout [OInt x; OStr (line nl)]);;
  let myArray := fill myArray 0 in
  print (cout [OStr "After fill(0), myArray contains: "]);;
  print_elements myArray;;
  print (cout [OStr nl]);;
  let myArray := [1; 2; 3; 4; 5] in
  let otherArray := [100; 200; 300; 400; 500] in
  let '(myArray, otherArray) := swap myArray otherArray in
  print (cout [OStr "After swapping, myArray now contains: "]);;
  print_elements myArray;;
  print (cout [OStr (nl +:+ "And otherArray now contains: ")]);;
  print_elements otherArray;;
  print (cout [OStr (line nl)]);;
  print (cout [OStr "Printing myArray using const iterators: "]);;
  print_elements myArray;;
  print (cout [OStr nl]);;
  mret 0.

End array.

(** ** map.cpp *)

Module map.

(** A [std::map<std::string, int>]: its entries in ascending key order. *)
Definition size (m : list (string * Z)) : nat := length m.
Definition empty (m : list (string * Z)) : bool := bool_decide (size m = 0%nat).

(** [m.find(key)]: the entry, or [None] for [m.end()]. *)
Fixpoint find (m : list (string * Z)) (key : string) : option (string * Z) :=
  match m with
  | [] => None
  | (k, v) :: m' => if String.eqb k key then Some (k, v) else find m' key
  end.

(** [m.insert({key, value})]: nothing happens when the key is present. *)
Fixpoint insert (m : list (string * Z)) (key : string) (value : Z)
    : list (string * Z) :=
  match m with
  | [] => [(key, value)]
  | (k, v) :: m' =>
      if String.ltb key k then (key, value) :: (k, v) :: m'
      else if String.eqb k key then (k, v) :: m'
      else (k, v) :: insert m' key value
  end.

(** [m[key] = value]: inserts the key or overwrites its value. *)
Fixpoint assign (m : list (string * Z)) (key : string) (value : Z)
    : list (string * Z) :=
  match m with
  | [] => [(key, value)]
  | (k, v) :: m' =>
      if String.ltb key k then (key, value) :: (k, v) :: m'
      else if String.eqb k key then (k, value) :: m'
      else (k, v) :: assign m' key value
  end.

(** [m.at(key)]: throws when the key is absent. *)
Definition at_ (m : list (string * Z)) (key : string) : M Z :=
  match find m key with
  | Some (_, v) => mret v
  | None => throw out_of_range
  end.

Definition count (m : list (string * Z)) (key : string) : nat :=
  match find m key with Some _ => 1 | None => 0 end.

Definition erase (m : list (string * Z)) (key : string) : list (string * Z) :=
  filter (λ kv, kv.1 ≠ key) m.

Definition swap (a b : list (string * Z)) : list (string * Z) * list (string * Z) :=
  (b, a).

(** [for (const auto& pair : m) std::cout << "{" << pair.first << ": "
    << pair.second << "} ";] *)
Definition print_entries (m : list (string * Z)) : M unit :=
  print (m ≫= λ pair, cout [OStr "{"; OStr pair.1; OStr ": "; OInt pair.2; OStr "} "]).

(** The [try] block of Part 2 with its handler (lines 35-41): the access to
    'grape' is commented out in the source. *)
Definition try_block (myMap : list (string * Z)) : M unit :=
  print (cout [OStr "Value for 'apple' (using at()): "]);;
  x ← at_ myMap "apple";
  print (cout [OInt x; OStr nl]).

Definition handler (e : exn) : M unit :=
  print (cerr [OStr "Caught exception: "; OWhat e; OStr nl]).

Definition checked_access (myMap : list (string * Z)) : M unit :=
  try_catch (try_block myMap) is_out_of_range handler.

Definition main : M Z :=
  print (cout [OStr (line "--- Part 1: Modifiers (insert, operator[]) ---")]);;
  let myMap := [] in
  let myMap := insert myMap "apple" 1 in
  let myMap := insert myMap "banana" 2 in
  let myMap := insert myMap "cherry" 3 in
  print (cout [OStr "Initial map size after inserts: "; OSize (size myMap); OStr nl]);;
  let myMap := assign myMap "durian" 4 in
  let myMap := assign myMap "apple" 5 in
  print (cout [OStr "Map after using operator[]: "]);;
  print_entries myMap;;
  print (cout [OStr (line nl)]);;
  checked_access myMap;;
  (if negb (empty myMap)
   then print (cout [OStr (line "The map is not empty.")])
   else mret ());;
  print (cout [OStr "The current number of elements in the map is: ";
               OSize (size myMap); OStr (line nl)]);;
  (match find myMap "banana" with
   | Some it => print (cout [OStr "Found 'banana' with value: "; OInt it.2; OStr nl])
   | None => print (cout [OStr (line "'banana' was not found.")])
   end);;
  (if bool_decide (count myMap "cherry" ≠ 0%nat)
   then print (cout [OStr (line "'cherry' is present in the map.")])
   else print (cout [OStr (line "'cherry' is not present in the map.")]));;
  let myMap := erase myMap "banana" in
  print (cout [OStr "Map size after erasing 'banana': "; OSize (size myMap);
               OStr (line nl)]);;
  print (cout [OStr (line "Iterating through the map with begin() and end():")]);;
  print_entries myMap;;
  print (cout [OStr nl]);;
  let otherMap := [] in
  let otherMap := assign otherMap "grape" 10 in
  let otherMap := assign otherMap "kiwi" 20 in
  print (cout [OStr "Before swap, myMap size: "; OSize (size myMap);
               OStr ", otherMap size: "; OSize (size otherMap); OStr nl]);;
  let '(myMap, otherMap) := swap myMap otherMap in
  print (cout [OStr "After swap, myMap size: "; OSize (size myMap);
               OStr ", otherMap size: "; OSize (size otherMap); OStr nl]);;
  print (cout [OStr "myMap now contains: "]);;
  print_entries myMap;;
  print (cout [OStr (line nl)]);;
  let myMap : list (string * Z) := [] in
  print (cout [OStr "Map size after clear(): "; OSize (size myMap); OStr nl]);;
  mret 0.

End map.

(** ** unordered_map.cpp *)

Module unordered_map.
Section main.
Context {impl : Implementation}.

(** A [std::unordered_map<std::string, int>]: its entries in order of
    insertion; the implementation decides the order of traversal. *)
Definition size (m : list (string * Z)) : nat := length m.
Definition empty (m : list (string * Z)) : bool := bool_decide (size m = 0%nat).

Fixpoint find (m : list (string * Z)) (key : string) : option (string * Z) :=
  match m with
  | [] => None
  | (k, v) :: m' => if String.eqb k key then Some (k, v) else find m' key
  end.

(** [m.insert({key, value})] and [m.emplace(key, value)]: nothing happens
    when the key is present. *)
Definition insert (m : list (string * Z)) (key : string) (value : Z)
    : list (string * Z) :=
  match find m key with
  | Some _ => m
  | None => m ++ [(key, value)]
  end.
Definition emplace := insert.

(** [m[key] = value]: inserts the key or overwrites its value. *)
Definition assign (m : list (string * Z)) (key : string) (value : Z)
    : list (string * Z) :=
  match find m key with
  | Some _ => (λ kv, if String.eqb kv.1 key then (kv.1, value) else kv) <$> m
  | None => m ++ [(key, value)]
  end.

(** [m.at(key)]: throws when the key is absent. *)
Definition at_ (m : list (string * Z)) (key : string) : M Z :=
  match find m key with
  | Some (_, v) => mret v
  | None => throw out_of_range
  end.

Definition count (m : list (string * Z)) (key : string) : nat :=
  match find m key with Some _ => 1 | None => 0 end.

Definition erase (m : list (string * Z)) (key : string) : list (string * Z) :=
  filter (λ kv, kv.1 ≠ key) m.

Definition swap (a b : list (string * Z)) : list (string * Z) * list (string * Z) :=
  (b, a).

(** Traversal, in the implementation's order. *)
Definition print_entries (m : list (string * Z)) : M unit :=
  print (unordered_order m ≫= λ pair,
           cout [OStr "{"; OStr pair.1; OStr ": "; OInt pair.2; OStr "} "]).

(** The [try] block of Part 2 with its handler (lines 45-51): the access to
    'grape' is commented out in the source. *)
Definition try_block (myMap : list (string * Z)) : M unit :=
  print (cout [OStr "Value for 'apple' (using at()): "]);;
  x ← at_ myMap "apple";
  print (cout [OInt x; OStr nl]).

Definition handler (e : exn) : M unit :=
  print (cerr [OStr "Caught exception: "; OWhat e; OStr nl]).

Definition checked_access (myMap : list (string * Z)) : M unit :=
  try_catch (try_block myMap) is_out_of_range handler.

Definition main : M Z :=
  print (cout [OStr (line
    "--- Part 1: Constructors and Modifiers (insert, operator[]) ---")]);;
  let myMap := [] in
  let myMap := insert myMap "apple" 1 in
  let myMap := insert myMap "banana" 2 in
  let myMap := insert myMap "cherry" 3 in
  print (cout [OStr "Initial map size after inserts: "; OSize (size myMap); OStr nl]);;
  let myMap := assign myMap "durian" 4 in
  let myMap := assign myMap "apple" 5 in
  print (cout [OStr "Map after using operator[]: "]);;
  print_entries myMap;;
  print (cout [OStr (line nl)]);;
  let myMap := emplace myMap "elderberry" 6 in
  print (cout [OStr "Map after emplace: "]);;
  print_entries myMap;;
  print (cout [OStr (line nl)]);;
  print (cout [OStr (line "--- Part 2: Element Access and Capacity ---")]);;
  checked_access myMap;;
  (if negb (empty myMap)
   then print (cout [OStr (line "The map is not empty.")])
   else mret ());;
  print (cout [OStr "The current number of elements in the map is: ";
               OSize (size myMap); OStr (line nl)]);;
  (match find myMap "banana" with
   | Some it => print (cout [OStr "Found 'banana' with value: "; OInt it.2; OStr nl])
   | None => print (cout [OStr (line "'banana' was not found.")])
   end);;
  (if bool_decide (count myMap "cherry" ≠ 0%nat)
   then print (cout [OStr (line "'cherry' is present in the map.")])
   else print (cout [OStr (line "'cherry' is not present in the map.")]));;
  let myMap := erase myMap "banana" in
  print (cout [OStr "Map size after erasing 'banana': "; OSize (size myMap);
               OStr (line nl)]);;
  print (cout [OStr (line "Iterating through the map with begin() and end():")]);;
  print_entries myMap;;
  print (cout [OStr nl]);;
  let otherMap := [] in
  let otherMap := assign otherMap "grape" 10 in
  let otherMap := assign otherMap "kiwi" 20 in
  print (cout [OStr "Before swap, myMap size: "; OSize (size myMap);
               OStr ", otherMap size: "; OSize (size otherMap); OStr nl]);;
  let '(myMap, otherMap) := swap myMap otherMap in
  print (cout [OStr "After swap, myMap size: "; OSize (size myMap);
               OStr ", otherMap size: "; OSize (size otherMap); OStr nl]);;
  print (cout [OStr "myMap now contains: "]);;
  print_entries myMap;;
  print (cout [OStr (line nl)]);;
  let myMap : list (string * Z) := [] in
  print (cout [OStr "Map size after clear(): "; OSize (size myMap); OStr nl]);;
  mret 0.

End main.
End unordered_map.

(** ** string_view.cpp *)

Module string_view.

(** A [std::string_view]: the character array it points into (a literal or
    the buffer of a [std::string], without its terminating NUL), where the
    view starts in it and how many characters it spans. *)
Record view : Type := { buffer : string; start : nat; size : nat }.

(** A view of a whole literal or [std::string]. *)
Definition of_string (s : string) : view :=
  {| buffer := s; start := 0; size := String.length s |}.

(** The default-constructed, empty view. *)
Definition empty_view : view := {| buffer := EmptyString; start := 0; size := 0 |}.

(** The characters of the view, as [operator<<] prints them. *)
Definition chars (v : view) : string := substring (start v) (size v) (buffer v).

Definition length (v : view) : nat := size v.
Definition empty (v : view) : bool := bool_decide (size v = 0%nat).

(** [v.at(pos)]: throws [std::out_of_range] when [pos >= size()]. *)
Definition at_ (v : view) (pos : nat) : M ascii :=
  if bool_decide (size v ≤ pos)%nat then throw out_of_range
  else unchecked (String.get (start v + pos) (buffer v)).

(** [v[pos]], [v.front()], [v.back()]: unchecked. *)
Definition subscript (v : view) (pos : nat) : M ascii :=
  if bool_decide (size v ≤ pos)%nat then undefined
  else unchecked (String.get (start v + pos) (buffer v)).
Definition front (v : view) : M ascii := subscript v 0.
Definition back (v : view) : M ascii :=
  if empty v then undefined else subscript v (size v - 1).

(** [std::cout << v.data()]: the characters from the start of the view up to
    the terminating NUL of the array. *)
Definition data (v : view) : string :=
  substring (start v) (String.length (buffer v) - start v) (buffer v).

Definition remove_prefix (v : view) (n : nat) : M view :=
  if bool_decide (size v < n)%nat then undefined
  else mret {| buffer := buffer v; start := start v + n; size := size v - n |}.

Definition remove_suffix (v : view) (n : nat) : M view :=
  if bool_decide (size v < n)%nat then undefined
  else mret {| buffer := buffer v; start := start v; size := size v - n |}.

Definition swap (a b : view) : view * view := (b, a).

(** [v.substr(pos, n)]: throws [std::out_of_range] when [pos > size()]. *)
Definition substr (v : view) (pos n : nat) : M view :=
  if bool_decide (size v < pos)%nat then throw out_of_range
  else mret {| buffer := buffer v; start := start v + pos;
               size := Nat.min n (size v - pos) |}.

(** [v.find(s)]: the position of the first occurrence, [None] for [npos]. *)
Definition find (v : view) (s : string) : option nat := String.index 0 s (chars v).

Definition starts_with (v : view) (s : string) : bool := String.prefix s (chars v).

Definition ends_with (v : view) (s : string) : bool :=
  bool_decide (String.length s ≤ size v)%nat
  && String.eqb (substring (size v - String.length s) (String.length s) (chars v)) s.

(** [a.compare(b)]: negative, zero or positive; the standard fixes the sign
    only, the model returns -1, 0 or 1. *)
Definition compare (a b : view) : Z :=
  match String.compare (chars a) (chars b) with
  | Lt => -1
  | Eq => 0
  | Gt => 1
  end.

(** The [try] block of Part 3 with its handler (lines 49-53). *)
Definition try_block (access_view : view) : M unit :=
  c ← at_ access_view 10;
  print (cout [OChar c; OStr nl]).

Definition handler (e : exn) : M unit :=
  print (cerr [OStr "Caught exception from at(): "; OWhat e; OStr nl]).

Definition checked_access (access_view : view) : M unit :=
  try_catch (try_block access_view) is_out_of_range handler.

Definition separator : M unit :=
  print (cout [OStr (line "-----------------------------------------")]).

Definition part1 : M unit :=
  print (cout [OStr (line "--- Part 1: Constructors and Initialization ---")]);;
  let my_string := "Hello, C++17!" in
  let sv1 := of_string "A literal string." in
  print (cout [OStr "sv1 (from literal): '"; OStr (chars sv1); OStr (line "'")]);;
  let sv2 := of_string my_string in
  print (cout [OStr "sv2 (from std::string): '"; OStr (chars sv2); OStr (line "'")]);;
  print (cout [OStr "empty_view: '"; OStr (chars empty_view); OStr (line "'")]);;
  separator.

Definition part2 : M unit :=
  print (cout [OStr (line "--- Part 2: Capacity Functions ---")]);;
  let capacity_view := of_string "capacity test" in
  print (cout [OStr "capacity_view: '"; OStr (chars capacity_view); OStr (line "'")]);;
  print (cout [OStr "Size of capacity_view: "; OSize (size capacity_view); OStr nl]);;
  print (cout [OStr "Length of capacity_view: "; OSize (length capacity_view);
               OStr nl]);;
  print (cout [OStr "Is capacity_view empty? ";
               OStr (if empty capacity_view then "Yes" else "No"); OStr nl]);;
  separator.

Definition part3 : M unit :=
  print (cout [OStr (line "--- Part 3: Element Access ---")]);;
  let access_view := of_string "access" in
  print (cout [OStr "Character at index 2 (using at()): "]);;
  c ← at_ access_view 2; print (cout [OChar c; OStr nl]);;
  checked_access access_view;;
  print (cout [OStr "Character at index 2 (using []): "]);;
  c ← subscript access_view 2; print (cout [OChar c; OStr nl]);;
  print (cout [OStr "First character: "]);;
  c ← front access_view; print (cout [OChar c; OStr nl]);;
  print (cout [OStr "Last character: "]);;
  c ← back access_view; print (cout [OChar c; OStr nl]);;
  print (cout [OStr "Using data() pointer: "; OStr (data access_view); OStr nl]);;
  separator.

Definition part4 : M unit :=
  print (cout [OStr (line
    "--- Part 4: Modifiers (non-mutating the underlying data) ---")]);;
  let modify_view := of_string "prefix and suffix" in
  modify_view ← remove_prefix modify_view 8;
  print (cout [OStr "After remove_prefix(8): '"; OStr (chars modify_view);
               OStr (line "'")]);;
  modify_view ← remove_suffix modify_view 7;
  print (cout [OStr "After remove_suffix(7): '"; OStr (chars modify_view);
               OStr (line "'")]);;
  let other_view := of_string "swapped" in
  print (cout [OStr "Before swap: modify_view='"; OStr (chars modify_view);
               OStr "', other_view='"; OStr (chars other_view); OStr (line "'")]);;
  let '(modify_view, other_view) := swap modify_view other_view in
  print (cout [OStr "After swap: modify_view='"; OStr (chars modify_view);
               OStr "', other_view='"; OStr (chars other_view); OStr (line "'")]);;
  separator.

Definition part5 : M unit :=
  print (cout [OStr (line "--- Part 5: Operations and Searching ---")]);;
  let search_view := of_string "The quick brown fox jumps over the lazy dog." in
  sub_view ← substr search_view 16 3;
  print (cout [OStr "Substring from index 16 for 3 chars: '"; OStr (chars sub_view);
               OStr (line "'")]);;
  (match find search_view "fox" with
   | Some pos_find =>
       print (cout [OStr "Found 'fox' at position: "; OSize pos_find; OStr nl])
   | None => mret ()
   end);;
  print (cout [OStr "Does the view start with 'The'? "; Boolalpha]);;
  print (cout [OBool (starts_with search_view "The"); OStr nl]);;
  print (cout [OStr "Does the view end with 'dog.'? "; Boolalpha]);;
  print (cout [OBool (ends_with search_view "dog."); OStr nl]);;
  let other_view_compare := of_string "The quick brown fox" in
  head19 ← substr search_view 0 19;
  let compare_result := compare head19 other_view_compare in
  print (cout [OStr "Comparing '"]);;
  head19 ← substr search_view 0 19;
  print (cout [OStr (chars head19); OStr "' with '"; OStr (chars other_view_compare);
               OStr "': "; OInt compare_result; OStr nl]);;
  separator.

Definition main : M Z :=
  part1;; part2;; part3;; part4;; part5;; mret 0.

End string_view.

(** ** Threads *)

(** [g] applied to the operand of an insertion. *)
Definition relabel_event (g : item → item) (e : event) : event :=
  match e with Cout x => Cout (g x) | Cerr x => Cerr (g x) end.

(** The programs that start threads are written as one list of instructions
    per thread over the data the threads share (a type [S] of the program's
    own, which also holds the local variables of its threads).  One
    instruction is one step: one insertion into [std::cout], one access to
    shared data, one attempt to take a lock.  The steps of the threads are
    interleaved by the scheduler of the run. *)
Module threads.
Section machine.
Context {S : Type}.

(** An instruction; those that depend on the thread that executes them
    receive its index ([self]); the main thread has index 0 and the thread
    started next has the next free index.  A thread object is the index of
    the thread it represents, [None] once it is joined or detached. *)
#[warnings="-register-all"] Inductive instr : Type :=
  (* [std::cout << x] *)
  | Out (x : nat → S → item)
  (* a step on the shared data; [Undefined] and [Thrown] end the program *)
  | Act (f : nat → S → outcome S)
  (* [std::this_thread::sleep_for(...)] *)
  | Sleep
  (* a step that blocks until [ready]: taking a lock, waiting for a result *)
  | Await (ready : nat → S → bool) (f : nat → S → S)
  (* [std::thread t(body)], [std::async(body)]: a new thread runs [body];
     [store] records its index in the thread object *)
  | Spawn (body : list instr) (store : nat → S → S)
  (* [t.join()]: blocks until the thread of [t] has finished, then [t] is
     no longer joinable ([clear]) *)
  | Join (t : S → option nat) (clear : S → S)
  (* [if (c) { then_ } else { else_ }] *)
  | If (c : nat → S → bool) (then_ else_ : list instr).

(** The shared data, the instructions each thread has left, the output so
    far, and how the program was ended by a step, if it was. *)
Record state : Type := {
  shared : S;
  pool : list (list instr);
  output : list event;
  ended : option (outcome Z);
}.

(** One step of thread [self]; [None] when it cannot move: it has finished,
    it does not exist, or it is blocked. *)
Definition step (self : nat) (st : state) : option state :=
  match pool st !! self with
  | Some (i :: rest) =>
      let moved := <[self := rest]> (pool st) in
      match i with
      | Out x =>
          Some {| shared := shared st; pool := moved;
                  output := output st ++ [Cout (x self (shared st))];
                  ended := ended st |}
      | Act f =>
          match f self (shared st) with
          | Normal s' =>
              Some {| shared := s'; pool := moved; output := output st;
                      ended := ended st |}
          | Thrown e =>
              Some {| shared := shared st; pool := moved; output := output st;
                      ended := Some (Thrown e) |}
          | Undefined =>
              Some {| shared := shared st; pool := moved; output := output st;
                      ended := Some Undefined |}
          end
      | Sleep =>
          Some {| shared := shared st; pool := moved; output := output st;
                  ended := ended st |}
      | Await ready f =>
          if ready self (shared st)
          then Some {| shared := f self (shared st); pool := moved;
                       output := output st; ended := ended st |}
          else None
      | Spawn body store =>
          Some {| shared := store (length (pool st)) (shared st);
                  pool := moved ++ [body]; output := output st;
                  ended := ended st |}
      | Join t clear =>
          match t (shared st) with
          | Some t' =>
              match pool st !! t' with
              | Some [] =>
                  Some {| shared := clear (shared st); pool := moved;
                          output := output st; ended := ended st |}
              | _ => None
              end
          | None => None
          end
      | If c then_ else_ =>
          Some {| shared := shared st;
                  pool := <[self := (if c self (shared st) then then_ else else_)
                                     ++ rest]> (pool st);
                  output := output st; ended := ended st |}
      end
  | _ => None
  end.

(** The first of the threads [ts] that can move makes its step. *)
Fixpoint first_enabled (ts : list nat) (st : state) : option state :=
  match ts with
  | [] => None
  | t :: ts' =>
      match step t st with
      | Some st' => Some st'
      | None => first_enabled ts' st
      end
  end.

(** The scheduler names a thread; the step goes to it or, when it cannot
    move, to the next thread (in index order, cyclically) that can. *)
Definition schedule (preferred : nat) (st : state) : option state :=
  first_enabled (rotate preferred (seq 0 (length (pool st)))) st.

(** [main] has returned: the program ends, whatever the threads it has
    detached are doing. *)
Definition returned (st : state) : bool :=
  match pool st !! 0%nat with Some [] => true | _ => false end.

(** At most [fuel] steps, from the [k]-th choice of the scheduler on, until
    the program ends or no thread can move. *)
Fixpoint run (fuel : nat) (choice : nat → nat) (k : nat) (st : state) : state :=
  match fuel with
  | O => st
  | Datatypes.S fuel' =>
      if returned st || bool_decide (is_Some (ended st)) then st
      else match schedule (choice k) st with
           | Some st' => run fuel' choice (Datatypes.S k) st'
           | None => st
           end
  end.

(** The number of steps a list of instructions can give rise to. *)
Fixpoint weight (i : instr) : nat :=
  match i with
  | Spawn body _ => Datatypes.S (foldr (λ i n, weight i + n)%nat 0%nat body)
  | If _ then_ else_ =>
      Datatypes.S (foldr (λ i n, weight i + n)%nat 0%nat then_
                   + foldr (λ i n, weight i + n)%nat 0%nat else_)
  | _ => 1
  end.
Definition weights (code : list instr) : nat :=
  foldr (λ i n, weight i + n)%nat 0%nat code.

(** The steps the threads of a state can still make, at most. *)
Definition remaining (st : state) : nat := sum_list_with weights (pool st).

(** A run is over: [main] has returned, a step has ended the program, or no
    thread can move. *)
Definition settled (st : state) : Prop :=
  returned st = true ∨ is_Some (ended st) ∨ ∀ t, step t st = None.

(** The program whose main thread runs [main] on the initial data [init],
    under the scheduler [choice].  Every step uses up some of the weight, so
    the weight of [main] is fuel enough.  A run in which [main] cannot go on
    because it waits for something that does not happen has no outcome; it
    is reported as [Undefined]. *)
Definition execute (main : list instr) (init : S) (choice : nat → nat) : M Z :=
  let st := run (weights main) choice 0
              {| shared := init; pool := [main]; output := []; ended := None |} in
  match ended st with
  | Some o => (o, output st)
  | None => if returned st then (Normal 0, output st)
            else (Undefined, output st)
  end.

(** [std::cout << s] for a string literal, and for an [int] known when the
    thread starts. *)
Definition say (s : string) : instr := Out (λ _ _, OStr s).
Definition say_int (z : Z) : instr := Out (λ _ _, OInt z).

(** A step on the shared data that cannot fail. *)
Definition Do (f : nat → S → S) : instr := Act (λ self s, Normal (f self s)).

(** [for (int i = 0; i < n; ++i) { body }] with a body that does not depend
    on [i]. *)
Definition repeat (n : nat) (body : list instr) : list instr :=
  mjoin (replicate n body).

(** The same instructions with [g] applied to every operand they print. *)
Fixpoint relabel (g : item → item) (i : instr) : instr :=
  match i with
  | Out x => Out (λ self s, g (x self s))
  | Spawn body store => Spawn (relabel g <$> body) store
  | If c then_ else_ => If c (relabel g <$> then_) (relabel g <$> else_)
  | i => i
  end.

(** The state of a program whose instructions are relabelled. *)
Definition relabel_state (g : item → item) (st : state) : state :=
  {| shared := shared st;
     pool := (λ code : list instr, relabel g <$> code) <$> pool st;
     output := relabel_event g <$> output st;
     ended := ended st |}.

End machine.
Arguments instr : clear implicits.
Arguments state : clear implicits.
End threads.

(** An operand without the address or the thread identifier it shows. *)
Definition hide_placement (x : item) : item :=
  match x with
  | OPointer _ => OPointer 0
  | OThread _ => OThread 0
  | x => x
  end.

(** ** optional.cpp *)

Module optional.

(** A [std::optional<T>] is an [option T]. *)

(** [find_first_even]: the first even number, if there is one. *)
Fixpoint find_first_even (numbers : list Z) : option Z :=
  match numbers with
  | [] => None
  | num :: numbers' =>
      if bool_decide (Z.rem num 2 = 0) then Some num else find_first_even numbers'
  end.

Definition has_value {T : Type} (o : option T) : bool :=
  match o with Some _ => true | None => false end.

(** [o.value()]: throws [std::bad_optional_access] on an empty optional. *)
Definition value {T : Type} (o : option T) : M T :=
  match o with
  | Some v => mret v
  | None => throw bad_optional_access
  end.

(** [*o] and [o->]: unchecked. *)
Definition deref {T : Type} (o : option T) : M T := unchecked o.

Definition value_or {T : Type} (o : option T) (default_value : T) : T :=
  match o with Some v => v | None => default_value end.

Definition swap {T : Type} (a b : option T) : option T * option T := (b, a).

(** [a == b] and [a < b]: an empty optional equals only an empty one and is
    less than every optional that holds a value. *)
Definition eq (a b : option Z) : bool :=
  match a, b with
  | Some x, Some y => bool_decide (x = y)
  | None, None => true
  | _, _ => false
  end.
Definition lt (a b : option Z) : bool :=
  match a, b with
  | Some x, Some y => bool_decide (x < y)
  | None, Some _ => true
  | _, None => false
  end.

Definition part1 : M unit :=
  print (cout [OStr (line "--- Part 1: Constructors and Initialization ---")]);;
  let opt_str_default : option string := None in
  print (cout [OStr "  opt_str_default.has_value(): "; Boolalpha;
               OBool (has_value opt_str_default); OStr nl]);;
  let opt_int_nullopt : option Z := None in
  print (cout [OStr "  opt_int_nullopt.has_value(): "; Boolalpha;
               OBool (has_value opt_int_nullopt); OStr nl]);;
  let opt_double_value := Some Double.literal_3_14 in
  print (cout [OStr "  opt_double_value.has_value(): "; Boolalpha;
               OBool (has_value opt_double_value); OStr ", value: "]);;
  d ← deref opt_double_value; print (cout [ODouble d; OStr nl]);;
  let opt_double_copy := opt_double_value in
  print (cout [OStr "  opt_double_copy.has_value(): "; Boolalpha;
               OBool (has_value opt_double_copy); OStr ", value: "]);;
  d ← deref opt_double_copy; print (cout [ODouble d; OStr (line nl)]).

(** The body of the [try] block of Part 2 (lines 57-62). *)
Definition try_block (found_val : option Z) : M unit :=
  print (cout [OStr "  Using value(): "]);;
  x ← value found_val; print (cout [OInt x; OStr nl]);;
  let empty_opt : option Z := None in
  print (cout [OStr (line "  Trying to access empty_opt.value()...")]);;
  x ← value empty_opt; print (cout [OInt x; OStr nl]).

Definition handler (e : exn) : M unit :=
  print (cerr [OStr "  Caught exception: "; OWhat e; OStr nl]).

Definition checked_access (found_val : option Z) : M unit :=
  try_catch (try_block found_val) is_bad_optional_access handler.

Definition part2 : M (option Z) :=
  print (cout [OStr (line "--- Part 2: Observers (Accessing the value) ---")]);;
  let found_val := find_first_even [1; 3; 5; 8; 10] in
  (if has_value found_val
   then print (cout [OStr "  has_value() check: Found even number "]);;
        x ← deref found_val; print (cout [OInt x; OStr (line ".")])
   else mret ());;
  (if has_value found_val
   then print (cout [OStr "  operator bool() check: Found even number "]);;
        x ← deref found_val; print (cout [OInt x; OStr (line ".")])
   else mret ());;
  checked_access found_val;;
  let person_name := Some "Alice" in
  print (cout [OStr "  Using operator*(): "]);;
  s ← deref person_name; print (cout [OStr s; OStr nl]);;
  let full_name := Some "Alice" in
  print (cout [OStr "  Using operator->(): length is "]);;
  s ← deref full_name; print (cout [OSize (String.length s); OStr nl]);;
  let empty_int : option Z := None in
  print (cout [OStr "  Using value_or() on an empty optional: ";
               OInt (value_or empty_int 99); OStr nl]);;
  print (cout [OStr "  Using value_or() on an optional with a value: ";
               OInt (value_or found_val 99); OStr (line nl)]);;
  mret found_val.

Definition part3 : M unit :=
  print (cout [OStr (line "--- Part 3: Modifiers ---")]);;
  let opt_vec : option (list Z) := None in
  let opt_vec := Some (replicate 10 5) in
  print (cout [OStr "  emplace() created a vector of size "]);;
  v ← deref opt_vec; print (cout [OSize (List.length v); OStr nl]);;
  print (cout [OStr "  First element is: "]);;
  v ← deref opt_vec; x ← unchecked (head v); print (cout [OInt x; OStr nl]);;
  let opt_vec : option (list Z) := None in
  print (cout [OStr "  After reset(), opt_vec.has_value(): "; Boolalpha;
               OBool (has_value opt_vec); OStr nl]);;
  let a := Some 1 in
  let b := Some 2 in
  print (cout [OStr "  Before swap: a="]);;
  x ← value a; print (cout [OInt x; OStr ", b="]);;
  y ← value b; print (cout [OInt y; OStr nl]);;
  let '(a, b) := swap a b in
  print (cout [OStr "  After swap: a="]);;
  x ← value a; print (cout [OInt x; OStr ", b="]);;
  y ← value b; print (cout [OInt y; OStr (line nl)]).

Definition part4 : M unit :=
  print (cout [OStr (line "--- Part 4: Comparison Operators ---")]);;
  let o1 := Some 10 in
  let o2 := Some 10 in
  let o3 := Some 20 in
  let o4 : option Z := None in
  print (cout [OStr "  o1 == o2? "; Boolalpha; OBool (eq o1 o2); OStr nl]);;
  print (cout [OStr "  o1 == o3? "; Boolalpha; OBool (eq o1 o3); OStr nl]);;
  print (cout [OStr "  o1 == o4? "; Boolalpha; OBool (eq o1 o4); OStr nl]);;
  print (cout [OStr "  o1 < o3? "; Boolalpha; OBool (lt o1 o3); OStr nl]);;
  print (cout [OStr "  o4 < o1? "; Boolalpha; OBool (lt o4 o1); OStr nl]).

Definition main : M Z :=
  part1;; part2;; part3;; part4;; mret 0.

End optional.

(** ** future.cpp: the promise that carries an exception (lines 18-24, 93-111) *)

Module future.

(** The shared state of a [std::promise<int>] and its [std::future<int>]. *)
Inductive shared_state : Type :=
  | NotReady
  | Value (v : Z)
  | Exception (e : exn).

(** [p.set_exception(e)] on a promise that holds no result yet. *)
Definition set_exception (p : shared_state) (e : exn) : shared_state :=
  match p with NotReady => Exception e | ready => ready end.

(** The destructor of a promise: one that never received a result leaves a
    [std::future_error] for its future. *)
Definition destroy (p : shared_state) : shared_state :=
  match p with NotReady => Exception broken_promise | ready => ready end.

(** [f.get()], once the state is ready: the stored value, or the stored
    exception rethrown.  The call blocks until then, so it is only asked of a
    state the producer has finished with. *)
Definition get (f : shared_state) : M Z :=
  match f with
  | Value v => mret v
  | Exception e => throw e
  | NotReady => undefined
  end.

(** [calculate_with_error]: prints, sleeps, throws; its [return 0;] is never
    reached. *)
Definition calculate_with_error : M Z :=
  print (cout [OStr (line "  Task started, but will throw an exception.")]);;
  throw (runtime_error "An error occurred during calculation!").

(** The lambda [exception_producer], run by [exception_thread]: it owns the
    promise, stores in it whatever [calculate_with_error] throws
    ([catch (...)]) and destroys it on return. *)
Definition exception_producer (p : shared_state) : M shared_state :=
  p ← try_catch (calculate_with_error;; mret p) (λ _, true)
                (λ e, mret (set_exception p e));
  mret (destroy p).

(** The body of the [try] block around [future_with_error.get()]. *)
Definition try_block (future_with_error : shared_state) : M unit :=
  get future_with_error;; mret ().

Definition handler (e : exn) : M unit :=
  print (cout [OStr "  Caught expected exception from promise: "; OWhat e;
               OStr (line nl)]).

(** Lines 93-111 of [main].  The main thread prints nothing between starting
    [exception_thread] and the return of [get()], and [get()] returns only
    after the thread has stored its result: the thread's run comes first. *)
Definition promise_with_error_section : M unit :=
  let promise_with_error := NotReady in
  future_with_error ← exception_producer promise_with_error;
  try_catch (try_block future_with_error) is_std_exception handler.

End future.

(** ** mutex.cpp: [std::call_once] (lines 38-42, 147-161) *)

Module mutex.

(** Modelled from the spec: [std::once_flag] and [std::call_once] are the C++
    standard library's.  The standard describes three kinds of call on a
    flag: the one active execution that finds the flag fresh and runs the
    function, passive executions that wait while an active execution is
    under way, and executions that find the flag set and return at once. *)
Inductive once_flag : Type := Fresh | Running | Complete.

(** Where a thread stands in [task_to_call_once]: about to call
    [std::call_once], inside [expensive_initialization] (its first line
    printed, asleep), back from [call_once], after each of the three
    insertions of the last statement. *)
Inductive position : Type :=
  | AtCallOnce
  | Initialising
  | Returned
  | PrintedThread
  | PrintedId
  | Finished.

(** The two threads [t_once1] and [t_once2], the flag they share, how many
    times [expensive_initialization] has been entered, and the output so
    far. *)
Record state : Type := {
  flag : once_flag;
  t_once1 : position;
  t_once2 : position;
  executions : nat;
  output : list event;
}.

(** [main] has created the flag and started both threads. *)
Definition started : state :=
  {| flag := Fresh; t_once1 := AtCallOnce; t_once2 := AtCallOnce;
     executions := 0; output := [] |}.

(** One atomic step of the thread with identifier [id] standing at [p]: the
    flag and its position afterwards, whether it entered
    [expensive_initialization], and what it printed; [None] when the thread
    cannot move (it waits inside [call_once], or it has finished). *)
Definition thread_step (id : nat) (f : once_flag) (p : position)
    : option (once_flag * position * nat * list event) :=
  match p with
  | AtCallOnce =>
      match f with
      | Fresh =>
          Some (Running, Initialising, 1%nat,
                cout [OStr (line "    Expensive initialization started...")])
      | Running => None
      | Complete => Some (Complete, Returned, 0%nat, [])
      end
  | Initialising =>
      Some (Complete, Returned, 0%nat,
            cout [OStr (line "    Expensive initialization finished.")])
  | Returned => Some (f, PrintedThread, 0%nat, cout [OStr "  Thread "])
  | PrintedThread => Some (f, PrintedId, 0%nat, cout [OThread id])
  | PrintedId =>
      Some (f, Finished, 0%nat, cout [OStr (line " has finished its task.")])
  | Finished => None
  end.

(** The scheduler picks the first thread ([true]) or the second ([false]). *)
Definition step (first : bool) (s : state) : option state :=
  if first then
    '(f, p, n, t) ← thread_step 1 (flag s) (t_once1 s);
    Some {| flag := f; t_once1 := p; t_once2 := t_once2 s;
            executions := executions s + n; output := output s ++ t |}
  else
    '(f, p, n, t) ← thread_step 2 (flag s) (t_once2 s);
    Some {| flag := f; t_once1 := t_once1 s; t_once2 := p;
            executions := executions s + n; output := output s ++ t |}.

(** An interleaving is the list of the scheduler's picks; picking a thread
    that cannot move changes nothing. *)
Definition exec (schedule : list bool) (s : state) : state :=
  foldl (λ s first, default s (step first s)) s schedule.

(** Both threads have run to the end, so both [join]s return. *)
Definition joined (s : state) : bool :=
  match t_once1 s, t_once2 s with
  | Finished, Finished => true
  | _, _ => false
  end.

(** The first line [expensive_initialization] prints. *)
Definition is_start_line (e : event) : bool :=
  match e with
  | Cout (OStr s) => String.eqb s (line "    Expensive initialization started...")
  | _ => false
  end.

(** How often the first line of [expensive_initialization] was printed. *)
Definition times_started (t : list event) : nat :=
  length (List.filter is_start_line t).

(** The steps a thread still has to take. *)
Definition remaining_steps (p : position) : nat :=
  match p with
  | AtCallOnce => 5
  | Initialising => 4
  | Returned => 3
  | PrintedThread => 2
  | PrintedId => 1
  | Finished => 0
  end.

(** The flag tells how far the initialisation is: nobody has entered it;
    exactly one thread is inside and the other has not passed [call_once];
    it is over and nobody is inside. *)
Definition consistent (s : state) : Prop :=
  times_started (output s) = executions s ∧
  match flag s with
  | Fresh => executions s = 0%nat ∧ t_once1 s = AtCallOnce ∧ t_once2 s = AtCallOnce
  | Running =>
      executions s = 1%nat ∧
      ((t_once1 s = Initialising ∧ t_once2 s = AtCallOnce) ∨
       (t_once1 s = AtCallOnce ∧ t_once2 s = Initialising))
  | Complete =>
      executions s = 1%nat ∧ t_once1 s ≠ Initialising ∧ t_once2 s ≠ Initialising
  end.

End mutex.

(** ** thread.cpp *)

Module thread.
Import threads.

(** The thread objects of [main]. *)
Record vars : Type := {
  t1 : option nat;
  t2 : option nat;
  thread_pool : list (option nat);
}.

Definition set_t1 (t : option nat) (s : vars) : vars :=
  {| t1 := t; t2 := t2 s; thread_pool := thread_pool s |}.
Definition set_t2 (t : option nat) (s : vars) : vars :=
  {| t1 := t1 s; t2 := t; thread_pool := thread_pool s |}.
Definition set_thread_pool (pool : list (option nat)) (s : vars) : vars :=
  {| t1 := t1 s; t2 := t2 s; thread_pool := pool |}.

(** [t.joinable()]. *)
Definition joinable (t : option nat) : bool := bool_decide (is_Some t).

Definition worker_function (id : Z) : list (instr vars) :=
  [ say "  Worker thread "; say_int id; say (line " started.");
    Sleep;
    say "  Worker thread "; say_int id; say (line " finished.") ].

Definition detached_worker : list (instr vars) :=
  [ say (line "  Detached worker thread started. It will run independently.");
    Sleep;
    say (line "  Detached worker thread finished its task.") ].

(** The body of [main]; [ids] gives the identifier of each thread ([None]:
    the identifier that stands for no thread) and [hardware_concurrency]
    the value of [std::thread::hardware_concurrency()]. *)
Definition main_body (ids : option nat → nat) (hardware_concurrency : nat)
    : list (instr vars) :=
  let num_threads := hardware_concurrency in
  [ say (line "--- Part 1: Thread Creation and Management ---");
    Spawn (worker_function 101) (λ t, set_t1 (Some t));
    say "  Main thread ID: "; Out (λ self _, OThread (ids (Some self))); say nl;
    say "  Worker thread t1 ID: "; Out (λ _ s, OThread (ids (t1 s))); say nl;
    say "  Is t1 joinable? "; Out (λ _ _, Boolalpha);
    Out (λ _ s, OBool (joinable (t1 s))); say nl;
    say (line "  Waiting for worker thread t1 to finish...");
    Join t1 (set_t1 None);
    say (line "  Worker thread t1 has been joined. Main thread can continue.");
    say "  Is t1 joinable after join? "; Out (λ _ _, Boolalpha);
    Out (λ _ s, OBool (joinable (t1 s))); say (line nl);
    say (line "--- Part 2: Detaching a Thread ---");
    Spawn detached_worker (λ t, set_t2 (Some t));
    say (line "  Detaching thread t2...");
    Do (λ _, set_t2 None);
    say "  Is t2 joinable after detach? "; Out (λ _ _, Boolalpha);
    Out (λ _ s, OBool (joinable (t2 s))); say nl;
    say (line
      "  Main thread is not waiting for t2 to finish and will now exit.");
    Sleep;
    say (line ("  Main thread exiting." +:+ nl));
    say (line "--- Part 3: Other Functions ---");
    say "  Hardware concurrency is: "; say_int (Z.of_nat num_threads); say nl;
    say (line
      "  Using this to launch a pool of threads for a parallel task...") ]
  ++ (seq 0 num_threads ≫= λ i,
        [ Spawn (worker_function (Convert.to_int (Z.of_nat i)))
            (λ t s, set_thread_pool (thread_pool s ++ [Some t]) s) ])
  ++ (seq 0 num_threads ≫= λ i,
        [ If (λ _ s, joinable (mjoin (thread_pool s !! i)))
            [ Join (λ s, mjoin (thread_pool s !! i))
                (λ s, set_thread_pool (<[i := None]> (thread_pool s)) s) ]
            [] ])
  ++ [ say (line ("  All threads in the pool have been joined." +:+ nl)) ].

(** One run of the program under the scheduler [choice]. *)
Definition main (ids : option nat → nat) (hardware_concurrency : nat)
    (choice : nat → nat) : M Z :=
  execute (main_body ids hardware_concurrency)
    {| t1 := None; t2 := None; thread_pool := [] |} choice.

End thread.

(** ** mutex.cpp: the whole program *)

Module mutex_program.
Import threads.

(** The data of the program: the global [shared_counter]; which of the
    mutexes [counter_mutex], [m1], [m2] and [protected_data.mtx] are locked
    (exclusively); [protected_data.data] and the number of shared locks held
    on [protected_data.mtx]; the [std::once_flag]; the thread objects of
    [main], by name; and the local variables of each thread, by name. *)
Record vars : Type := {
  shared_counter : Z;
  locked : string → bool;
  data : string;
  mtx_shared : nat;
  flag : mutex.once_flag;
  thread_object : string → option nat;
  ints : nat → string → Z;
  strings : nat → string → string;
  bools : nat → string → bool;
}.

Definition set_shared_counter (x : Z) (s : vars) : vars :=
  {| shared_counter := x; locked := locked s; data := data s;
     mtx_shared := mtx_shared s; flag := flag s;
     thread_object := thread_object s; ints := ints s; strings := strings s;
     bools := bools s |}.
Definition set_locked (x : string → bool) (s : vars) : vars :=
  {| shared_counter := shared_counter s; locked := x; data := data s;
     mtx_shared := mtx_shared s; flag := flag s;
     thread_object := thread_object s; ints := ints s; strings := strings s;
     bools := bools s |}.
Definition set_data (x : string) (s : vars) : vars :=
  {| shared_counter := shared_counter s; locked := locked s; data := x;
     mtx_shared := mtx_shared s; flag := flag s;
     thread_object := thread_object s; ints := ints s; strings := strings s;
     bools := bools s |}.
Definition set_mtx_shared (x : nat) (s : vars) : vars :=
  {| shared_counter := shared_counter s; locked := locked s; data := data s;
     mtx_shared := x; flag := flag s; thread_object := thread_object s;
     ints := ints s; strings := strings s; bools := bools s |}.
Definition set_flag (x : mutex.once_flag) (s : vars) : vars :=
  {| shared_counter := shared_counter s; locked := locked s; data := data s;
     mtx_shared := mtx_shared s; flag := x; thread_object := thread_object s;
     ints := ints s; strings := strings s; bools := bools s |}.
Definition set_thread_object (x : string → option nat) (s : vars) : vars :=
  {| shared_counter := shared_counter s; locked := locked s; data := data s;
     mtx_shared := mtx_shared s; flag := flag s; thread_object := x;
     ints := ints s; strings := strings s; bools := bools s |}.
Definition set_ints (x : nat → string → Z) (s : vars) : vars :=
  {| shared_counter := shared_counter s; locked := locked s; data := data s;
     mtx_shared := mtx_shared s; flag := flag s;
     thread_object := thread_object s; ints := x; strings := strings s;
     bools := bools s |}.
Definition set_strings (x : nat → string → string) (s : vars) : vars :=
  {| shared_counter := shared_counter s; locked := locked s; data := data s;
     mtx_shared := mtx_shared s; flag := flag s;
     thread_object := thread_object s; ints := ints s; strings := x;
     bools := bools s |}.
Definition set_bools (x : nat → string → bool) (s : vars) : vars :=
  {| shared_counter := shared_counter s; locked := locked s; data := data s;
     mtx_shared := mtx_shared s; flag := flag s;
     thread_object := thread_object s; ints := ints s; strings := strings s;
     bools := x |}.

Definition initial : vars :=
  {| shared_counter := 0; locked := λ _, false; data := "initial data";
     mtx_shared := 0; flag := mutex.Fresh; thread_object := λ _, None;
     ints := λ _ _, 0; strings := λ _ _, EmptyString; bools := λ _ _, false |}.

(** A variable of one thread. *)
Definition set_local {A : Type} (self : nat) (name : string) (x : A)
    (locals : nat → string → A) : nat → string → A :=
  <[self := <[name := x]> (locals self)]> locals.

(** [m.lock()], the constructor of a [std::lock_guard] or [std::unique_lock]:
    blocks while the mutex is locked.  [m.unlock()] and their destructor. *)
Definition lock (m : string) : instr vars :=
  Await (λ _ s, negb (locked s m)) (λ _ s, set_locked (<[m := true]> (locked s)) s).
Definition unlock (m : string) : instr vars :=
  Do (λ _ s, set_locked (<[m := false]> (locked s)) s).

(** [std::scoped_lock lock(a, b)]: blocks until it holds both mutexes, and
    holds neither while it waits. *)
Definition scoped_lock (a b : string) : instr vars :=
  Await (λ _ s, negb (locked s a) && negb (locked s b))
        (λ _ s, set_locked (<[a := true]> (<[b := true]> (locked s))) s).
Definition scoped_unlock (a b : string) : instr vars :=
  Do (λ _ s, set_locked (<[a := false]> (<[b := false]> (locked s))) s).

(** [std::shared_lock lock(mtx)] and [std::unique_lock lock(mtx)] on the
    [std::shared_mutex] of [ProtectedData], and their destructors: any
    number of shared locks or one exclusive lock. *)
Definition lock_shared : instr vars :=
  Await (λ _ s, negb (locked s "mtx"))
        (λ _ s, set_mtx_shared (Datatypes.S (mtx_shared s)) s).
Definition unlock_shared : instr vars :=
  Do (λ _ s, set_mtx_shared (Nat.pred (mtx_shared s)) s).
Definition lock_exclusive : instr vars :=
  Await (λ _ s, negb (locked s "mtx") && bool_decide (mtx_shared s = 0%nat))
        (λ _ s, set_locked (<[ "mtx" := true]> (locked s)) s).
Definition unlock_exclusive : instr vars := unlock "mtx".

(** [++shared_counter]: the value is read, then the value plus one is
    written; signed overflow is undefined. *)
Definition increment : list (instr vars) :=
  [ Do (λ self s, set_ints (set_local self "shared_counter" (shared_counter s)
                              (ints s)) s);
    Act (λ self s, match Int.add (ints s self "shared_counter") 1 with
                   | Some v => Normal (set_shared_counter v s)
                   | None => Undefined
                   end) ].

(** [ProtectedData::read_data], with the result stored in the caller's
    variable [data], and [ProtectedData::write_data]. *)
Definition read_data : list (instr vars) :=
  [ lock_shared;
    Sleep;
    Do (λ self s, set_strings (set_local self "data" (data s) (strings s)) s);
    unlock_shared ].
Definition write_data (new_data : string) : list (instr vars) :=
  [ lock_exclusive;
    Sleep;
    Do (λ _ s, set_data new_data s);
    unlock_exclusive ].

Definition expensive_initialization : list (instr vars) :=
  [ say (line "    Expensive initialization started...");
    Sleep;
    say (line "    Expensive initialization finished.") ].

(** Modelled from the spec: [std::call_once(flag, f)] of the C++ standard
    library.  The call that finds the flag fresh is the active one: it runs
    [f] and sets the flag; a call that finds an active one under way waits
    for it; a call that finds the flag set returns at once. *)
Definition call_once (f : list (instr vars)) : list (instr vars) :=
  [ Do (λ self s,
        match flag s with
        | mutex.Fresh =>
            set_flag mutex.Running
              (set_bools (set_local self "active" true (bools s)) s)
        | _ => set_bools (set_local self "active" false (bools s)) s
        end);
    If (λ self s, bools s self "active")
       (f ++ [ Do (λ _ s, set_flag mutex.Complete s) ])
       [ Await (λ _ s, match flag s with mutex.Complete => true | _ => false end)
               (λ _ s, s) ] ].

(** [std::thread t(body)] for the thread object named [t], and
    [t.join()]. *)
Definition thread (t : string) (body : list (instr vars)) : instr vars :=
  Spawn body (λ i s, set_thread_object (<[t := Some i]> (thread_object s)) s).
Definition join (t : string) : instr vars :=
  Join (λ s, thread_object s t)
       (λ s, set_thread_object (<[t := None]> (thread_object s)) s).

(** The lambdas of [main]; [ids] gives the identifier of each thread. *)
Definition increment_without_lock : list (instr vars) :=
  repeat 1000 increment.

Definition increment_with_lock_guard : list (instr vars) :=
  repeat 1000 ([ lock "counter_mutex" ] ++ increment ++ [ unlock "counter_mutex" ]).

Definition safe_locking : list (instr vars) :=
  [ scoped_lock "m1" "m2";
    say (line "  Locks m1 and m2 acquired safely.");
    scoped_unlock "m1" "m2" ].

Definition reader_task (ids : option nat → nat) : list (instr vars) :=
  read_data ++
  [ say "  Reader thread "; Out (λ self _, OThread (ids (Some self)));
    say " reads: '"; Out (λ self s, OStr (strings s self "data"));
    say (line "'") ].

Definition writer_task (ids : option nat → nat) : list (instr vars) :=
  write_data "new updated data" ++
  [ say "  Writer thread "; Out (λ self _, OThread (ids (Some self)));
    say (line " finished writing.") ].

Definition task_to_call_once (ids : option nat → nat) : list (instr vars) :=
  call_once expensive_initialization ++
  [ say "  Thread "; Out (λ self _, OThread (ids (Some self)));
    say (line " has finished its task.") ].

(** The names of the elements of the array [readers]. *)
Definition readers (i : nat) : string :=
  "readers[" +:+ NilZero.string_of_uint (Nat.to_uint i) +:+ "]".

(** The body of [main].  The lambda [deadlock_prone] is never called. *)
Definition main_body (ids : option nat → nat) : list (instr vars) :=
  [ say (line "--- Part 1: std::mutex and std::lock_guard ---");
    say (line "  Demonstrating a data race without a lock...");
    Do (λ _, set_shared_counter 0);
    thread "t_race1" increment_without_lock;
    thread "t_race2" increment_without_lock;
    join "t_race1";
    join "t_race2";
    say "  Final value (expected 2000): ";
    Out (λ _ s, OInt (shared_counter s));
    say (line (" (often incorrect)" +:+ nl));
    say (line "  Demonstrating with std::mutex and std::lock_guard...");
    Do (λ _, set_shared_counter 0);
    thread "t_safe1" increment_with_lock_guard;
    thread "t_safe2" increment_with_lock_guard;
    join "t_safe1";
    join "t_safe2";
    say "  Final value (correctly 2000): ";
    Out (λ _ s, OInt (shared_counter s));
    say (line nl);
    say (line "--- Part 2: std::unique_lock (Flexible Locking) ---");
    say (line "  unique_lock created but not locked.");
    lock "counter_mutex";
    say (line "  unique_lock is now locked.");
    unlock "counter_mutex";
    say (line ("  unique_lock is now unlocked." +:+ nl));
    say (line "--- Part 3: std::scoped_lock (Deadlock Prevention) ---");
    say (line "  Demonstrating std::scoped_lock for deadlock prevention...");
    thread "t_safe_lock" safe_locking;
    thread "t_safe_lock2" safe_locking;
    join "t_safe_lock";
    join "t_safe_lock2";
    say nl;
    say (line "--- Part 4: std::shared_mutex and std::shared_lock ---");
    say (line "  Demonstrating shared and exclusive locks...") ]
  ++ (seq 0 5 ≫= λ i, [ thread (readers i) (reader_task ids) ])
  ++ [ thread "writer" (writer_task ids) ]
  ++ (seq 0 5 ≫= λ i, [ join (readers i) ])
  ++ [ join "writer";
       say nl;
       say (line "--- Part 5: std::call_once (Single-time Execution) ---");
       say (line "  Demonstrating std::call_once...");
       thread "t_once1" (task_to_call_once ids);
       thread "t_once2" (task_to_call_once ids);
       join "t_once1";
       join "t_once2" ].

(** One run of the program under the scheduler [choice]. *)
Definition main (ids : option nat → nat) (choice : nat → nat) : M Z :=
  execute (main_body ids) initial choice.

End mutex_program.

(** ** future.cpp: the whole program *)

Module future_program.
Import threads.
Section main.
Context {lib : Library}.

(** The data of the program: the shared states, by the name of the future,
    promise or task that created them; which of them hold a deferred
    function that has not been started; the shared state each future object
    refers to ([None]: it has none); the thread objects of [main], by name;
    and the local variables of each thread, by name. *)
Record vars : Type := {
  shared_state : string → future.shared_state;
  deferred : string → bool;
  future_object : string → option string;
  thread_object : string → option nat;
  ints : nat → string → Z;
  bools : nat → string → bool;
}.

Definition set_shared_state (x : string → future.shared_state) (s : vars) : vars :=
  {| shared_state := x; deferred := deferred s;
     future_object := future_object s; thread_object := thread_object s;
     ints := ints s; bools := bools s |}.
Definition set_deferred (x : string → bool) (s : vars) : vars :=
  {| shared_state := shared_state s; deferred := x;
     future_object := future_object s; thread_object := thread_object s;
     ints := ints s; bools := bools s |}.
Definition set_future_object (x : string → option string) (s : vars) : vars :=
  {| shared_state := shared_state s; deferred := deferred s;
     future_object := x; thread_object := thread_object s; ints := ints s;
     bools := bools s |}.
Definition set_thread_object (x : string → option nat) (s : vars) : vars :=
  {| shared_state := shared_state s; deferred := deferred s;
     future_object := future_object s; thread_object := x; ints := ints s;
     bools := bools s |}.
Definition set_ints (x : nat → string → Z) (s : vars) : vars :=
  {| shared_state := shared_state s; deferred := deferred s;
     future_object := future_object s; thread_object := thread_object s;
     ints := x; bools := bools s |}.
Definition set_bools (x : nat → string → bool) (s : vars) : vars :=
  {| shared_state := shared_state s; deferred := deferred s;
     future_object := future_object s; thread_object := thread_object s;
     ints := ints s; bools := x |}.

Definition initial : vars :=
  {| shared_state := λ _, future.NotReady; deferred := λ _, false;
     future_object := λ _, None; thread_object := λ _, None;
     ints := λ _ _, 0; bools := λ _ _, false |}.

(** A variable of one thread. *)
Definition set_local {A : Type} (self : nat) (name : string) (x : A)
    (locals : nat → string → A) : nat → string → A :=
  <[self := <[name := x]> (locals self)]> locals.

Definition ready (f : future.shared_state) : bool :=
  match f with future.NotReady => false | _ => true end.

(** A result stored in a shared state that holds none yet: [set_value] of a
    promise, and the return of a task. *)
Definition set_value (p : future.shared_state) (v : Z) : future.shared_state :=
  match p with future.NotReady => future.Value v | ready => ready end.

(** [calculate_sum(a, b)], run for the shared state [name], which receives
    the sum; signed overflow is undefined. *)
Definition calculate_sum (a b : Z) (name : string) : list (instr vars) :=
  [ say (line "  Calculating sum...");
    Sleep;
    Act (λ _ s, match Int.add a b with
                | Some v =>
                    Normal (set_shared_state
                              (<[name := set_value (shared_state s name) v]>
                                 (shared_state s)) s)
                | None => Undefined
                end) ].

(** [calculate_with_error], run by [exception_producer] for the promise
    [name]: the exception it throws is caught by [catch (...)] and stored in
    the promise, which is destroyed when the lambda returns. *)
Definition exception_producer (name : string) : list (instr vars) :=
  [ say (line "  Task started, but will throw an exception.");
    Sleep;
    Do (λ _ s, set_shared_state
                 (<[name := future.set_exception (shared_state s name)
                              (runtime_error "An error occurred during calculation!")]>
                    (shared_state s)) s);
    Do (λ _ s, set_shared_state
                 (<[name := future.destroy (shared_state s name)]>
                    (shared_state s)) s) ].

Definition producer_task (name : string) : list (instr vars) :=
  [ say (line "  Producer thread started...");
    Sleep;
    Do (λ _ s, set_shared_state
                 (<[name := set_value (shared_state s name) 42]>
                    (shared_state s)) s);
    say (line "  Producer thread set the value 42.");
    Do (λ _ s, set_shared_state
                 (<[name := future.destroy (shared_state s name)]>
                    (shared_state s)) s) ].

(** [std::future<int> f = std::async(std::launch::async, task)]: the task
    runs on a thread of its own. *)
Definition async (f : string) (task : string → list (instr vars)) : list (instr vars) :=
  [ Spawn (task f) (λ _ s, set_future_object (<[f := Some f]> (future_object s)) s) ].

(** [std::future<int> f = std::async(task)]: the implementation either
    starts a thread or defers the task to the first [wait] or [get]. *)
Definition async_default (f : string) (task : string → list (instr vars))
    : list (instr vars) :=
  if async_deferred
  then [ Do (λ _ s, set_deferred (<[f := true]> (deferred s))
                      (set_future_object (<[f := Some f]> (future_object s)) s)) ]
  else async f task.

(** [f.wait()] on the shared state [name] whose task is [task]: the thread
    that finds the task deferred runs it; otherwise it blocks until the
    result is there. *)
Definition wait (name : string) (task : string → list (instr vars))
    : list (instr vars) :=
  [ Do (λ self s,
        if deferred s name
        then set_deferred (<[name := false]> (deferred s))
               (set_bools (set_local self "runs" true (bools s)) s)
        else set_bools (set_local self "runs" false (bools s)) s);
    If (λ self s, bools s self "runs")
       (task name)
       [ Await (λ _ s, ready (shared_state s name)) (λ _ s, s) ] ].

(** [promise_future.wait()] for the future of a promise. *)
Definition wait_promise (name : string) : list (instr vars) :=
  [ Await (λ _ s, ready (shared_state s name)) (λ _ s, s) ].

(** [int x = f.get();] outside a [try] block, once the state is ready: an
    exception it rethrows ends the program. *)
Definition get_into (name x : string) : instr vars :=
  Act (λ self s,
       match shared_state s name with
       | future.Value v => Normal (set_ints (set_local self x v (ints s)) s)
       | future.Exception e => Thrown e
       | future.NotReady => Undefined
       end).

Definition holds_exception (name : string) (s : vars) : bool :=
  match shared_state s name with future.Exception _ => true | _ => false end.

(** [e.what()] in the handler of an exception that [f.get()] rethrew. *)
Definition what (name : string) : instr vars :=
  Out (λ _ s, match shared_state s name with
              | future.Exception e => OWhat e
              | _ => OStr EmptyString
              end).

(** [f.wait_for(std::chrono::seconds(1)) == std::future_status::timeout],
    stored in [x]: a deferred task gives [deferred] at once; otherwise the
    answer is [timeout] when the wait ends before the result is there. *)
Definition wait_for_timeout (name x : string) : instr vars :=
  Do (λ self s,
      set_bools (set_local self x
                   (if deferred s name then false
                    else negb (ready (shared_state s name))) (bools s)) s).

(** [std::thread t(body)] for the thread object named [t], and [t.join()]. *)
Definition thread (t : string) (body : list (instr vars)) : instr vars :=
  Spawn body (λ i s, set_thread_object (<[t := Some i]> (thread_object s)) s).
Definition join (t : string) : instr vars :=
  Join (λ s, thread_object s t)
       (λ s, set_thread_object (<[t := None]> (thread_object s)) s).

(** [f.valid()]. *)
Definition valid (f : string) (s : vars) : bool :=
  bool_decide (is_Some (future_object s f)).

(** The lambda [consumer_task]: every consumer uses the shared state that
    [original_future] was created with. *)
Definition consumer_task (id : Z) : list (instr vars) :=
  [ say "  Consumer "; say_int id;
    say (line " waiting for the shared result...") ]
  ++ wait "original_future" (calculate_sum 1000 2000)
  ++ [ get_into "original_future" "result";
       say "  Consumer "; say_int id; say " received result: ";
       Out (λ self s, OInt (ints s self "result")); say nl ].

Definition main_body : list (instr vars) :=
  [ say (line "--- Part 1: std::async and std::future ---") ]
  ++ async "async_future" (calculate_sum 10 20)
  ++ [ say (line "  Main thread is not blocked and continues to work.");
       say (line "  Waiting for the asynchronous task to complete...") ]
  ++ wait "async_future" (calculate_sum 10 20)
  ++ [ If (λ _, holds_exception "async_future")
          [ say "  Exception caught: "; what "async_future"; say (line nl) ]
          [ get_into "async_future" "result";
            say "  Result from async task: ";
            Out (λ self s, OInt (ints s self "result")); say (line nl) ];
       say (line "--- Part 2: Timed Waits (std::future::wait_for) ---") ]
  ++ async_default "timed_future" (calculate_sum 50 50)
  ++ [ say (line "  Waiting for 1 second with wait_for()...");
       wait_for_timeout "timed_future" "timeout";
       If (λ self s, bools s self "timeout")
          [ say (line "  Timeout! The task is not yet ready.") ]
          [];
       say (line "  Waiting for the final result...") ]
  ++ wait "timed_future" (calculate_sum 50 50)
  ++ [ get_into "timed_future" "timed_result";
       say "  Final result from timed wait: ";
       Out (λ self s, OInt (ints s self "timed_result")); say (line nl);
       say (line
         "--- Part 3: std::promise (Manual Asynchronous Communication) ---");
       Do (λ _ s, set_future_object
                    (<[ "promise_future" := Some "promise"]> (future_object s)) s);
       thread "producer_thread" (producer_task "promise");
       say (line "  Main thread is waiting for the promise to be fulfilled...") ]
  ++ wait_promise "promise"
  ++ [ get_into "promise" "promise_result";
       say "  Result from promise: ";
       Out (λ self s, OInt (ints s self "promise_result")); say nl;
       join "producer_thread";
       Do (λ _ s, set_future_object
                    (<[ "future_with_error" := Some "promise_with_error"]>
                       (future_object s)) s);
       thread "exception_thread" (exception_producer "promise_with_error") ]
  ++ wait_promise "promise_with_error"
  ++ [ If (λ _, holds_exception "promise_with_error")
          [ say "  Caught expected exception from promise: ";
            what "promise_with_error"; say (line nl) ]
          [];
       join "exception_thread";
       say (line "--- Part 4: std::packaged_task ---");
       Do (λ _ s, set_future_object
                    (<[ "task_future" := Some "task"]> (future_object s)) s);
       thread "task_thread" (calculate_sum 100 200 "task");
       say (line "  Main thread waiting for the packaged task to complete...") ]
  ++ wait_promise "task"
  ++ [ get_into "task" "task_result";
       say "  Result from packaged task: ";
       Out (λ self s, OInt (ints s self "task_result")); say nl;
       join "task_thread";
       say nl;
       say (line "--- Part 5: std::shared_future (Multiple Consumers) ---") ]
  ++ async_default "original_future" (calculate_sum 1000 2000)
  ++ [ Do (λ _ s, set_future_object
                    (<[ "shared_future" := future_object s "original_future"]>
                       (<[ "original_future" := None]> (future_object s))) s);
       thread "consumer1" (consumer_task 1);
       thread "consumer2" (consumer_task 2);
       join "consumer1";
       join "consumer2";
       say "  Is original_future valid? "; Out (λ _ _, Boolalpha);
       Out (λ _ s, OBool (valid "original_future" s)); say nl;
       say "  Is shared_future valid? "; Out (λ _ _, Boolalpha);
       Out (λ _ s, OBool (valid "shared_future" s)); say nl ].

(** One run of the program under the scheduler [choice]. *)
Definition main (choice : nat → nat) : M Z :=
  execute main_body initial choice.

End main.
End future_program.

(** ** fstream.cpp *)

Module fstream.

(** The files of the working directory, by name.  The directory is the
    scratch directory of the demonstration: every file in it can be read and
    written and new files can be created, so opening a file for output always
    succeeds; opening one for input succeeds when the file exists. *)
Abbreviation files := (gmap string string).

(** A computation of the program: from the files before, how it ends, what it
    has printed, and the files after. *)
Definition IO (A : Type) : Type := files → outcome A * list event * files.

#[global] Instance IO_ret : MRet IO := λ A a fs, (Normal a, [], fs).

#[global] Instance IO_bind : MBind IO := λ A B f m fs,
  match m fs with
  | (Normal a, t, fs') => let '(r, t', fs'') := f a fs' in (r, t ++ t', fs'')
  | (Thrown e, t, fs') => (Thrown e, t, fs')
  | (Undefined, t, fs') => (Undefined, t, fs')
  end.

Definition out (t : list event) : IO unit := λ fs, (Normal (), t, fs).
Definition io_undefined {A : Type} : IO A := λ fs, (Undefined, [], fs).

(** Reading a variable that a failed extraction left uninitialised. *)
Definition initialised {A : Type} (o : option A) : IO A :=
  match o with Some a => mret a | None => io_undefined end.

(** *** Streams *)

(** A file stream: the file it is associated with, whether it writes to it,
    the characters of the file as the stream sees them, the position of the
    (single) file pointer, and the state flags. *)
Record stream : Type := Stream {
  name : string;
  writes : bool;
  is_open : bool;
  data : string;
  pos : nat;
  eofbit : bool;
  failbit : bool;
  badbit : bool;
}.

Definition eof (s : stream) : bool := eofbit s.
Definition bad (s : stream) : bool := badbit s.
Definition fail (s : stream) : bool := failbit s || badbit s.
Definition good (s : stream) : bool := negb (eofbit s || failbit s || badbit s).

Definition set_fail (s : stream) : stream :=
  Stream (name s) (writes s) (is_open s) (data s) (pos s) (eofbit s) true (badbit s).
Definition set_eof_fail (s : stream) : stream :=
  Stream (name s) (writes s) (is_open s) (data s) (pos s) true true (badbit s).
Definition set_bad (s : stream) : stream :=
  Stream (name s) (writes s) (is_open s) (data s) (pos s) (eofbit s) (failbit s) true.

(** A stream whose [open] failed. *)
Definition not_opened (path : string) : stream :=
  Stream path false false EmptyString 0 false true false.

(** [std::ifstream s; s.open(path)] or [std::ifstream s(path)]. *)
Definition ifstream (path : string) : IO stream := λ fs,
  match fs !! path with
  | Some contents =>
      (Normal (Stream path false true contents 0 false false false), [], fs)
  | None => (Normal (not_opened path), [], fs)
  end.

(** [std::ofstream s(path)], also with [std::ios::binary]: the file is
    created or truncated. *)
Definition ofstream (path : string) : IO stream := λ fs,
  (Normal (Stream path true true EmptyString 0 false false false), [],
   <[path := EmptyString]> fs).

(** [std::fstream s(path, in | out | trunc)]. *)
Definition fstream_trunc (path : string) : IO stream := ofstream path.

(** [std::fstream s(path, in | out)]: the file must exist. *)
Definition fstream_in_out (path : string) : IO stream := λ fs,
  match fs !! path with
  | Some contents =>
      (Normal (Stream path true true contents 0 false false false), [], fs)
  | None => (Normal (not_opened path), [], fs)
  end.

(** [s.flush()]: what the stream has written reaches the file. *)
Definition flush (s : stream) : IO unit := λ fs,
  (Normal (), [],
   if is_open s && writes s then <[name s := data s]> fs else fs).

(** [s.close()]. *)
Definition close (s : stream) : IO stream :=
  flush s;;
  mret (Stream (name s) (writes s) false EmptyString 0
               (eofbit s) (failbit s || negb (is_open s)) (badbit s)).

(** The characters from the file pointer to the end of the file. *)
Definition remaining (s : stream) : string :=
  substring (pos s) (String.length (data s) - pos s) (data s).

(** [cs] written over [contents] at offset [at_]; a gap is filled with NUL. *)
Definition overwrite (at_ : nat) (cs contents : string) : string :=
  substring 0 at_ contents
  +:+ string_of_list_ascii (replicate (at_ - String.length contents) Ascii.zero)
  +:+ cs
  +:+ substring (at_ + String.length cs)
        (String.length contents - (at_ + String.length cs)) contents.

(** [s << cs], [s.write(cs, n)] with [n] the length of [cs]. *)
Definition write (s : stream) (cs : string) : stream :=
  if is_open s && good s
  then Stream (name s) (writes s) true (overwrite (pos s) cs (data s))
         (pos s + String.length cs) false false false
  else set_bad s.

(** [s.put(c)]. *)
Definition put (s : stream) (c : ascii) : stream := write s (String c EmptyString).

(** [s << std::endl]: a newline, then a flush. *)
Definition endl (s : stream) : IO stream :=
  let s := write s nl in flush s;; mret s.

(** [s.seekg(n)]: clears [eofbit], then moves the file pointer unless the
    stream has failed. *)
Definition seekg (s : stream) (n : nat) : stream :=
  if failbit s || badbit s
  then Stream (name s) (writes s) (is_open s) (data s) (pos s) false
         (failbit s) (badbit s)
  else Stream (name s) (writes s) (is_open s) (data s) n false false false.

(** [s.seekp(n)]: moves the file pointer unless the stream has failed. *)
Definition seekp (s : stream) (n : nat) : stream :=
  if fail s then s
  else Stream (name s) (writes s) (is_open s) (data s) n
         (eofbit s) (failbit s) (badbit s).

(** [s.tellg()]: the position, or -1 on a failed stream. *)
Definition tellg (s : stream) : Z := if fail s then -1 else Z.of_nat (pos s).

Definition advance (s : stream) (n : nat) : stream :=
  Stream (name s) (writes s) (is_open s) (data s) (pos s + n)
         (eofbit s) (failbit s) (badbit s).

(** [s.get(ch)]: the character read, [None] when [ch] is left as it was. *)
Definition get (s : stream) : stream * option ascii :=
  if good s then
    match String.get (pos s) (data s) with
    | Some c => (advance s 1, Some c)
    | None => (set_eof_fail s, None)
    end
  else (set_fail s, None).

(** [s.read(buf, n)]: the characters stored in [buf], fewer than [n] at the
    end of the file. *)
Definition read (s : stream) (n : nat) : stream * string :=
  if good s then
    let cs := substring 0 n (remaining s) in
    if bool_decide (String.length cs = n) then (advance s n, cs)
    else (set_eof_fail (advance s (String.length cs)), cs)
  else (set_fail s, EmptyString).

(** The characters before the first newline, and those after it if there is
    one. *)
Fixpoint split_line (cs : string) : string * option string :=
  match cs with
  | EmptyString => (EmptyString, None)
  | String c cs' =>
      if Ascii.eqb c (ascii_of_nat 10) then (EmptyString, Some cs')
      else let '(l, rest) := split_line cs' in (String c l, rest)
  end.

(** [std::getline(s, line)]: the stream and the string afterwards. *)
Definition getline (s : stream) (line : string) : stream * string :=
  if good s then
    match split_line (remaining s) with
    | (l, Some _) => (advance s (String.length l + 1), l)
    | (l, None) =>
        let s := advance s (String.length l) in
        if bool_decide (l = EmptyString) then (set_eof_fail s, l)
        else (Stream (name s) (writes s) (is_open s) (data s) (pos s)
                     true (failbit s) (badbit s), l)
    end
  else (set_fail s, line).

(** [while (std::getline(s, line)) { body }], where the body prints
    [body line]: at most [fuel] rounds. *)
Fixpoint while_getline_fuel (fuel : nat) (s : stream) (line : string)
    (body : string → list event) : stream * list event :=
  match fuel with
  | O => (s, [])
  | S fuel' =>
      let '(s, line) := getline s line in
      if fail s then (s, [])
      else let '(s', t) := while_getline_fuel fuel' s line body in
           (s', body line ++ t)
  end.

(** Each round but the last consumes a character or reaches the end of the
    file, so two rounds more than the characters left always suffice
    ([while_getline_unfold]). *)
Definition while_getline (s : stream) (body : string → list event)
    : stream * list event :=
  while_getline_fuel (2 + String.length (remaining s)) s EmptyString body.

(** [while (s.get(ch)) { body }]. *)
Fixpoint while_get_fuel (fuel : nat) (s : stream) (body : ascii → list event)
    : stream * list event :=
  match fuel with
  | O => (s, [])
  | S fuel' =>
      match get s with
      | (s, Some ch) =>
          let '(s', t) := while_get_fuel fuel' s body in (s', body ch ++ t)
      | (s, None) => (s, [])
      end
  end.

Definition while_get (s : stream) (body : ascii → list event)
    : stream * list event :=
  while_get_fuel (1 + String.length (remaining s)) s body.

(** *** Formatted input and output of numbers *)

(** [s << n] for an [int]: its decimal digits. *)
Definition int_to_chars (n : Z) : string := NilZero.string_of_int (Z.to_int n).

(** Leading white space, skipped by [operator>>]. *)
Fixpoint skip_space (cs : string) : string :=
  match cs with
  | String c cs' => if Ascii.is_space c then skip_space cs' else cs
  | EmptyString => cs
  end.

(** The decimal digits at the head of [cs] appended to the value [acc], and
    the characters after them. *)
Fixpoint digits (cs : string) (acc : Z) : Z * string :=
  match cs with
  | String c cs' =>
      match Ascii.is_nat c with
      | Some d => digits cs' (10 * acc + Z.of_nat d)
      | None => (acc, cs)
      end
  | EmptyString => (acc, cs)
  end.

Definition starts_with_digit (cs : string) : bool :=
  match cs with
  | String c _ => bool_decide (is_Some (Ascii.is_nat c))
  | EmptyString => false
  end.

(** An optionally signed decimal number at the head of [cs]. *)
Definition signed_digits (cs : string) : option (Z * string) :=
  match cs with
  | String "-" cs' =>
      if starts_with_digit cs' then
        let '(n, rest) := digits cs' 0 in Some (- n, rest)
      else None
  | String "+" cs' =>
      if starts_with_digit cs' then Some (digits cs' 0) else None
  | _ => if starts_with_digit cs then Some (digits cs 0) else None
  end.

Definition after (s : stream) (rest : string) : stream :=
  let s := advance s (String.length (remaining s) - String.length rest) in
  if bool_decide (rest = EmptyString)
  then Stream (name s) (writes s) (is_open s) (data s) (pos s)
         true (failbit s) (badbit s)
  else s.

(** [s >> i] for an [int]: the value stored in [i], [None] when [i] is left
    as it was.  A number that does not fit is stored as the nearest [int]
    and sets [failbit]; an unreadable one is stored as 0. *)
Definition extract_int (s : stream) : stream * option Z :=
  if good s then
    let cs := skip_space (remaining s) in
    if bool_decide (cs = EmptyString) then (set_eof_fail (after s cs), None)
    else match signed_digits cs with
         | Some (n, rest) =>
             if Int.in_range n then (after s rest, Some n)
             else (set_fail (after s rest),
                   Some (if bool_decide (n < 0) then Int.INT_MIN else Int.INT_MAX))
         | None => (set_fail (after s cs), Some 0)
         end
  else (set_fail s, None).

Section main.
Context {impl : Implementation}.

(** [s >> d] for a [double]. *)
Definition extract_double (s : stream) : stream * option Double.t :=
  if good s then
    let cs := skip_space (remaining s) in
    if bool_decide (cs = EmptyString) then (set_eof_fail (after s cs), None)
    else match double_from_chars cs with
         | Some (d, rest) => (after s rest, Some d)
         | None => (set_fail (after s cs), Some Double.zero)
         end
  else (set_fail s, None).

(** *** The object representation of an [int] *)

(** The four bytes of an [int], least significant first. *)
Definition int_bytes_le (n : Z) : list ascii :=
  (λ i, ascii_of_N (Z.to_N (Z.land (Z.shiftr n (8 * i)) 255))) <$> [0; 1; 2; 3].

(** The [int] whose bytes, least significant first, are [bs]. *)
Definition int_of_bytes_le (bs : list ascii) : Z :=
  let u := foldr (λ b acc, Z.lor (Z.of_N (N_of_ascii b)) (Z.shiftl acc 8)) 0 bs in
  if bool_decide (u < 2147483648) then u else u - 4294967296.

(** [reinterpret_cast<char*>(&n)], [sizeof(n)] bytes. *)
Definition int_to_raw (n : Z) : string :=
  string_of_list_ascii
    (if big_endian then reverse (int_bytes_le n) else int_bytes_le n).

(** The [int] after its first bytes were overwritten by [cs]. *)
Definition raw_into_int (cs : string) (n : Z) : Z :=
  let old := list_ascii_of_string (int_to_raw n) in
  let new := take 4 (list_ascii_of_string cs ++ drop (String.length cs) old) in
  int_of_bytes_le (if big_endian then reverse new else new).

(** *** The examples *)

Definition welcome_message : IO unit :=
  out (cout [OStr "****************"; Endl]);;
  out (cout [OStr "* #include <fstream> *"; Endl]);;
  out (cout [OStr "*** fstream  ***"; Endl]);;
  out (cout [OStr "****************"; Endl]).

Definition example_ifstream : IO unit :=
  infile ← ifstream "input.txt";
  if is_open infile then
    let '(infile, t) :=
      while_getline infile (λ line, cout [OStr "Read line: "; OStr line; Endl]) in
    out t;;
    close infile;; mret ()
  else out (cerr [OStr "Could not open input.txt"; Endl]).

Definition example_ofstream : IO unit :=
  outfile ← ofstream "output.txt";
  if is_open outfile then
    outfile ← endl (write outfile "Hello, file!");
    let outfile := put outfile "A" in
    let raw := line "Raw bytes" in
    let outfile := write outfile (substring 0 10 raw) in
    close outfile;; mret ()
  else out (cerr [OStr "Could not open output.txt"; Endl]).

Definition example_fstream : IO unit :=
  ioFile ← fstream_trunc "data.txt";
  if is_open ioFile then
    let ioFile := write ioFile (line "Line 1" +:+ line "Line 2") in
    let ioFile := seekg ioFile 0 in
    let '(ioFile, t) :=
      while_getline ioFile (λ line, cout [OStr "fstream read: "; OStr line; Endl]) in
    out t;;
    close ioFile;; mret ()
  else mret ().

Definition example_open_close_isopen : IO unit :=
  file ← ifstream "input.txt";
  if is_open file then
    out (cout [OStr "File opened successfully!"; Endl]);;
    close file;;
    out (cout [OStr "File closed."; Endl])
  else mret ().

Definition example_read_write : IO unit :=
  out_ ← ofstream "binary.dat";
  let number := 12345 in
  let out_ := write out_ (int_to_raw number) in
  close out_;;
  in_ ← ifstream "binary.dat";
  let recovered := 0 in
  let '(in_, cs) := read in_ 4 in
  let recovered := raw_into_int cs recovered in
  out (cout [OStr "Recovered number: "; OInt recovered; Endl]);;
  close in_;; mret ().

Definition example_get_put : IO unit :=
  out_ ← ofstream "chars.txt";
  let out_ := put out_ "X" in
  let out_ := put out_ (ascii_of_nat 10) in
  close out_;;
  in_ ← ifstream "chars.txt";
  let '(in_, t) :=
    while_get in_ (λ ch, cout [OStr "Character read: "; OChar ch; Endl]) in
  out t;;
  close in_;; mret ().

Definition example_getline : IO unit :=
  out_ ← ofstream "lines.txt";
  let out_ := write out_ (line "First line" +:+ line "Second line") in
  close out_;;
  in_ ← ifstream "lines.txt";
  let '(in_, t) :=
    while_getline in_ (λ line, cout [OStr "Line: "; OStr line; Endl]) in
  out t;;
  close in_;; mret ().

Definition example_seek_tell : IO unit :=
  out_ ← ofstream "seek.txt";
  let out_ := write out_ "abcdef" in
  close out_;;
  file ← fstream_in_out "seek.txt";
  let file := seekg file 2 in
  let '(file, ch) := get file in
  ch ← initialised ch;
  out (cout [OStr "Character at position 2: "; OChar ch; Endl]);;
  out (cout [OStr "Current get pointer: "; OInt (tellg file); Endl]);;
  let file := seekp file 4 in
  let file := put file "Z" in
  let file := seekg file 0 in
  let '(file, result) := getline file EmptyString in
  out (cout [OStr "Modified line: "; OStr result; Endl]);;
  close file;; mret ().

Definition example_state : IO unit :=
  in_ ← ifstream "lines.txt";
  let '(in_, _) := while_getline in_ (λ line, []) in
  out (cout [OStr "EOF: "; OBool (eof in_); OStr ", Good: "; OBool (good in_);
             OStr ", Bad: "; OBool (bad in_); OStr ", Fail: "; OBool (fail in_);
             Endl]);;
  close in_;; mret ().

Definition example_formatted_io : IO unit :=
  out_ ← ofstream "numbers.txt";
  let out_ := write out_ (int_to_chars 42) in
  let out_ := write out_ " " in
  out_ ← endl (write out_ (double_to_chars Double.literal_3_14));
  close out_;;
  in_ ← ifstream "numbers.txt";
  let '(in_, i) := extract_int in_ in
  let '(in_, d) := extract_double in_ in
  i ← initialised i;
  d ← initialised d;
  out (cout [OStr "Read numbers: "; OInt i; OStr ", "; ODouble d; Endl]);;
  close in_;; mret ().

Definition example_flush : IO unit :=
  out_ ← ofstream "flush.txt";
  let out_ := write out_ "This will be flushed." in
  flush out_;;
  close out_;; mret ().

Definition main : IO Z :=
  welcome_message;;
  example_ofstream;;
  example_ifstream;;
  example_fstream;;
  example_open_close_isopen;;
  example_read_write;;
  example_get_put;;
  example_getline;;
  example_seek_tell;;
  example_state;;
  example_formatted_io;;
  example_flush;;
  mret 0.

End main.
End fstream.

(** ** stack.cpp *)

Module stack.

(** A [std::stack<int>]: its elements, the top one first. *)
Definition push (s : list Z) (value : Z) : list Z := value :: s.
Definition emplace := push.
Definition size (s : list Z) : nat := length s.
Definition empty (s : list Z) : bool := bool_decide (size s = 0%nat).

(** [s.top()] and [s.pop()]: undefined on an empty stack. *)
Definition top (s : list Z) : M Z := unchecked (head s).
Definition pop (s : list Z) : M (list Z) :=
  match s with [] => undefined | _ :: s' => mret s' end.

Definition swap (a b : list Z) : list Z * list Z := (b, a).

(** [while (!myStack.empty()) { std::cout << "Popping element: "
    << myStack.top() << "\n"; myStack.pop(); }]: one round per element, from
    the top down; the stack that is left. *)
Fixpoint pop_all (myStack : list Z) : M (list Z) :=
  match myStack with
  | [] => mret []
  | top :: below =>
      print (cout [OStr "Popping element: "; OInt top; OStr nl]);;
      pop_all below
  end.

Definition main : M Z :=
  print (cout [OStr (line "--- Part 1: Modifiers (push, emplace) ---")]);;
  let myStack : list Z := [] in
  print (cout [OStr (line "Pushing elements 10, 20, 30 to the stack.")]);;
  let myStack := push myStack 10 in
  let myStack := push myStack 20 in
  let myStack := push myStack 30 in
  print (cout [OStr (line "Emplacing element 40 to the stack.")]);;
  let myStack := emplace myStack 40 in
  print (cout [OStr "Current size of the stack: "; OSize (size myStack);
               OStr (line nl)]);;
  print (cout [OStr "The element at the top of the stack is: "]);;
  t ← top myStack;
  print (cout [OInt t; OStr nl]);;
  print (cout [OStr "The current number of elements in the stack is: ";
               OSize (size myStack); OStr nl]);;
  (if negb (empty myStack)
   then print (cout [OStr (line ("The stack is not empty." +:+ nl))])
   else mret ());;
  print (cout [OStr (line "Removing elements one by one using pop()...")]);;
  myStack ← pop_all myStack;
  print (cout [OStr (line ("Stack is now empty." +:+ nl))]);;
  let myStack := push myStack 111 in
  let myStack := push myStack 222 in
  let otherStack : list Z := [] in
  let otherStack := push otherStack 333 in
  let otherStack := push otherStack 444 in
  print (cout [OStr (line "Before swap:")]);;
  print (cout [OStr "myStack top: "]);;
  t ← top myStack;
  print (cout [OInt t; OStr ", size: "; OSize (size myStack); OStr nl]);;
  print (cout [OStr "otherStack top: "]);;
  t ← top otherStack;
  print (cout [OInt t; OStr ", size: "; OSize (size otherStack);
               OStr (line nl)]);;
  let '(myStack, otherStack) := swap myStack otherStack in
  print (cout [OStr (line "After swap:")]);;
  print (cout [OStr "myStack top: "]);;
  t ← top myStack;
  print (cout [OInt t; OStr ", size: "; OSize (size myStack); OStr nl]);;
  print (cout [OStr "otherStack top: "]);;
  t ← top otherStack;
  print (cout [OInt t; OStr ", size: "; OSize (size otherStack); OStr nl]);;
  mret 0.

End stack.

(** ** set.cpp *)

Module set.

(** A [std::set<int>]: its elements in ascending order, without duplicates;
    an iterator is the index of its element, [end()] the size. *)
Definition size (s : list Z) : nat := length s.
Definition empty (s : list Z) : bool := bool_decide (size s = 0%nat).
Definition end_ (s : list Z) : nat := size s.

(** [s.insert(value)] and [s.emplace(value)]: the set afterwards, and
    whether the insertion took place (the [second] of the pair returned). *)
Fixpoint insert (s : list Z) (value : Z) : list Z * bool :=
  match s with
  | [] => ([value], true)
  | x :: s' =>
      if bool_decide (value < x) then (value :: x :: s', true)
      else if bool_decide (x < value)
           then let '(s'', inserted) := insert s' value in (x :: s'', inserted)
           else (x :: s', false)
  end.
Definition emplace := insert.

(** [s.lower_bound(value)]: the first element that is not less than [value];
    [s.upper_bound(value)]: the first element that [value] is less than. *)
Fixpoint lower_bound (s : list Z) (value : Z) : nat :=
  match s with
  | [] => 0
  | x :: s' => if bool_decide (x < value) then S (lower_bound s' value) else 0
  end.
Fixpoint upper_bound (s : list Z) (value : Z) : nat :=
  match s with
  | [] => 0
  | x :: s' => if bool_decide (value < x) then 0 else S (upper_bound s' value)
  end.

(** [s.find(value)]: the element equivalent to [value] (neither is less than
    the other), or [end()]. *)
Definition find (s : list Z) (value : Z) : nat :=
  let it := lower_bound s value in
  match s !! it with
  | Some x => if bool_decide (value < x) then end_ s else it
  | None => end_ s
  end.

Definition count (s : list Z) (value : Z) : nat :=
  if bool_decide (find s value = end_ s) then 0 else 1.

(** [*it]: undefined for [end()]. *)
Definition deref (s : list Z) (it : nat) : M Z := unchecked (s !! it).

(** [s.erase(value)]: the set afterwards and the number of elements
    removed. *)
Definition erase (s : list Z) (value : Z) : list Z * nat :=
  (filter (λ x, x ≠ value) s, count s value).

Definition swap (a b : list Z) : list Z * list Z := (b, a).
Definition clear (s : list Z) : list Z := [].

(** [std::set<int> otherSet = {50, 60};] *)
Definition of_list (values : list Z) : list Z :=
  foldl (λ s value, (insert s value).1) [] values.

(** [for (int val : s) std::cout << val << " ";], and the same loop written
    with [begin()] and [end()]. *)
Definition print_elements (s : list Z) : M unit :=
  print (s ≫= λ val, cout [OInt val; OStr " "]).

Definition main : M Z :=
  print (cout [OStr (line
    "--- Part 1: Constructors and Modifiers (insert, emplace) ---")]);;
  let mySet : list Z := [] in
  print (cout [OStr (line "Inserting elements 30, 10, 20, 10 into the set.")]);;
  let result1 := insert mySet 30 in
  let mySet := result1.1 in
  let result2 := insert mySet 10 in
  let mySet := result2.1 in
  let mySet := (insert mySet 20).1 in
  let result3 := insert mySet 10 in
  let mySet := result3.1 in
  (if negb result3.2
   then print (cout [OStr (line
          "Element 10 was not inserted because it already exists.")])
   else mret ());;
  print (cout [OStr "Current set contents: "]);;
  print_elements mySet;;
  print (cout [OStr (line nl)]);;
  print (cout [OStr (line "Emplacing element 40 to the set.")]);;
  let mySet := (emplace mySet 40).1 in
  print (cout [OStr "Set after emplace(40): "]);;
  print_elements mySet;;
  print (cout [OStr (line nl)]);;
  print (cout [OStr "The current number of elements in the set is: ";
               OSize (size mySet); OStr nl]);;
  (if negb (empty mySet)
   then print (cout [OStr (line "The set is not empty.")])
   else mret ());;
  (if bool_decide (count mySet 20 ≠ 0%nat)
   then print (cout [OStr (line "Element 20 is present in the set.")])
   else mret ());;
  let it_find := find mySet 30 in
  (if bool_decide (it_find ≠ end_ mySet)
   then print (cout [OStr "Found element "]);;
        x ← deref mySet it_find;
        print (cout [OInt x; OStr (line (" using find()." +:+ nl))])
   else mret ());;
  print (cout [OStr (line "Iterating through the set with begin() and end():")]);;
  print_elements mySet;;
  print (cout [OStr (line nl)]);;
  let it_lower := lower_bound mySet 25 in
  (if bool_decide (it_lower ≠ end_ mySet)
   then print (cout [OStr "lower_bound(25) points to element: "]);;
        x ← deref mySet it_lower;
        print (cout [OInt x; OStr nl])
   else mret ());;
  let it_upper := upper_bound mySet 25 in
  (if bool_decide (it_upper ≠ end_ mySet)
   then print (cout [OStr "upper_bound(25) points to element: "]);;
        x ← deref mySet it_upper;
        print (cout [OInt x; OStr (line nl)])
   else mret ());;
  let '(mySet, erased) := erase mySet 30 in
  let elements_erased := Z.of_nat erased in
  print (cout [OStr "After erasing element 30, "; OInt elements_erased;
               OStr (line " element(s) were removed.")]);;
  print (cout [OStr "Set after erase: "]);;
  print_elements mySet;;
  print (cout [OStr (line nl)]);;
  let otherSet := of_list [50; 60] in
  print (cout [OStr "Before swap, mySet size: "; OSize (size mySet);
               OStr ", otherSet size: "; OSize (size otherSet); OStr nl]);;
  let '(mySet, otherSet) := swap mySet otherSet in
  print (cout [OStr "After swap, mySet size: "; OSize (size mySet);
               OStr ", otherSet size: "; OSize (size otherSet); OStr nl]);;
  print (cout [OStr "mySet now contains: "]);;
  print_elements mySet;;
  print (cout [OStr (line nl)]);;
  let mySet := clear mySet in
  print (cout [OStr "Set size after clear(): "; OSize (size mySet); OStr nl]);;
  mret 0.

End set.

(** ** unordered_set.cpp *)

Module unordered_set.
Section main.
Context {lib : Library}.

(** A [std::unordered_set<int>]: its elements in order of insertion, and the
    number of its buckets; the implementation decides the order of
    traversal. *)
Record uset : Type := { elems : list Z; buckets : nat }.

Definition size (s : uset) : nat := length (elems s).
Definition empty (s : uset) : bool := bool_decide (size s = 0%nat).

(** [s.find(value)]: the element, or [None] for [end()]. *)
Fixpoint find_in (l : list Z) (value : Z) : option Z :=
  match l with
  | [] => None
  | x :: l' => if bool_decide (x = value) then Some x else find_in l' value
  end.
Definition find (s : uset) (value : Z) : option Z := find_in (elems s) value.

Definition count (s : uset) (value : Z) : nat :=
  match find s value with Some _ => 1 | None => 0 end.

(** [s.insert(value)] and [s.emplace(value)]: nothing happens when the value
    is present. *)
Definition insert (s : uset) (value : Z) : uset :=
  match find s value with
  | Some _ => s
  | None =>
      {| elems := elems s ++ [value];
         buckets := unordered_set_insert_buckets (S (size s)) (buckets s) |}
  end.
Definition emplace := insert.

(** A default-constructed set, [s.insert({...})] and
    [std::unordered_set<int> s = {...};]. *)
Definition empty_set : uset :=
  {| elems := []; buckets := unordered_set_initial_buckets |}.
Definition insert_list (s : uset) (values : list Z) : uset :=
  let elems' :=
    foldl (λ l value, match find_in l value with
                      | Some _ => l
                      | None => l ++ [value]
                      end) (elems s) values in
  {| elems := elems';
     buckets := unordered_set_insert_list_buckets (length values)
                  (length elems') (buckets s) |}.
Definition of_list (values : list Z) : uset := insert_list empty_set values.

(** [s.erase(value)]: the set afterwards and the number of elements
    removed. *)
Definition erase (s : uset) (value : Z) : uset * nat :=
  ({| elems := filter (λ x, x ≠ value) (elems s); buckets := buckets s |},
   count s value).

Definition swap (a b : uset) : uset * uset := (b, a).
Definition clear (s : uset) : uset := {| elems := []; buckets := buckets s |}.

Definition bucket_count (s : uset) : nat := buckets s.

(** [s.load_factor()]: [size()] divided by [bucket_count()], as a [float]. *)
Definition load_factor (s : uset) : Float.t :=
  SpecFloat.SFdiv 24 128
    (SpecFloat.binary_normalize 24 128 (Z.of_nat (size s)) 0 false)
    (SpecFloat.binary_normalize 24 128 (Z.of_nat (bucket_count s)) 0 false).

Definition rehash (s : uset) (n : nat) : uset :=
  {| elems := elems s;
     buckets := unordered_set_rehash n (size s) (buckets s) |}.
Definition reserve (s : uset) (n : nat) : uset :=
  {| elems := elems s;
     buckets := unordered_set_reserve n (size s) (buckets s) |}.

(** Traversal, in the implementation's order: the range-based [for] loops
    and the loop from [begin()] to [end()]. *)
Definition print_elements (s : uset) : M unit :=
  print (unordered_set_order (elems s) ≫= λ val, cout [OInt val; OStr " "]).

Definition main : M Z :=
  print (cout [OStr (line
    "--- Part 1: Constructors and Modifiers (insert, emplace) ---")]);;
  let mySet := empty_set in
  print (cout [OStr (line "Inserting elements 30, 10, 20, 10 into the set.")]);;
  let mySet := insert mySet 30 in
  let mySet := insert mySet 10 in
  let mySet := insert mySet 20 in
  let mySet := insert mySet 10 in
  print (cout [OStr "Current set contents: "]);;
  print_elements mySet;;
  print (cout [OStr (line nl)]);;
  print (cout [OStr (line "Emplacing element 40 to the set.")]);;
  let mySet := emplace mySet 40 in
  print (cout [OStr "Set after emplace(40): "]);;
  print_elements mySet;;
  print (cout [OStr (line nl)]);;
  print (cout [OStr (line "--- Part 2: Capacity and Element Access ---")]);;
  print (cout [OStr "The current number of elements in the set is: ";
               OSize (size mySet); OStr nl]);;
  (if negb (empty mySet)
   then print (cout [OStr (line "The set is not empty.")])
   else mret ());;
  (if bool_decide (count mySet 20 ≠ 0%nat)
   then print (cout [OStr (line "Element 20 is present in the set.")])
   else mret ());;
  let it_find := find mySet 30 in
  match it_find with
  | Some x => print (cout [OStr "Found element "; OInt x;
                           OStr (line (" using find()." +:+ nl))])
  | None => mret ()
  end;;
  print (cout [OStr (line "Iterating through the set with begin() and end():")]);;
  print_elements mySet;;
  print (cout [OStr (line nl)]);;
  let '(mySet, erased) := erase mySet 30 in
  let elements_erased := Z.of_nat erased in
  print (cout [OStr "After erasing element 30, "; OInt elements_erased;
               OStr (line " element(s) were removed.")]);;
  print (cout [OStr "Set after erase: "]);;
  print_elements mySet;;
  print (cout [OStr (line nl)]);;
  let otherSet := of_list [50; 60] in
  print (cout [OStr "Before swap, mySet size: "; OSize (size mySet);
               OStr ", otherSet size: "; OSize (size otherSet); OStr nl]);;
  let '(mySet, otherSet) := swap mySet otherSet in
  print (cout [OStr "After swap, mySet size: "; OSize (size mySet);
               OStr ", otherSet size: "; OSize (size otherSet); OStr nl]);;
  print (cout [OStr "mySet now contains: "]);;
  print_elements mySet;;
  print (cout [OStr (line nl)]);;
  let mySet := clear mySet in
  print (cout [OStr "Set size after clear(): "; OSize (size mySet); OStr nl]);;
  print (cout [OStr (line "--- Part 4: Bucket Interface ---")]);;
  let bucketSet := empty_set in
  let bucketSet := insert_list bucketSet [1; 2; 3; 4; 5; 6; 7] in
  print (cout [OStr "Number of buckets: "; OSize (bucket_count bucketSet);
               OStr nl]);;
  print (cout [OStr "Load factor: "; OFloat (load_factor bucketSet); OStr nl]);;
  let bucketSet := rehash bucketSet 20 in
  print (cout [OStr "After rehash to 20 buckets, bucket count is now: ";
               OSize (bucket_count bucketSet); OStr nl]);;
  let bucketSet := reserve bucketSet 10 in
  print (cout [OStr "After reserving space for 10 elements, bucket count is: ";
               OSize (bucket_count bucketSet); OStr nl]);;
  mret 0.

End main.
End unordered_set.

(** ** functional.cpp *)

Module functional.

(** [add], the lambda [a - b], and [MultiplyFunctor::operator()]. *)
Definition add (x y : Z) : option Z := Int.add x y.
Definition subtract (a b : Z) : option Z := Int.sub a b.
Definition MultiplyFunctor (x y : Z) : option Z := Int.mul x y.

(** [MyClass::greet] and [MyClass::get_value]. *)
Definition greet (name : string) : M unit :=
  print (cout [OStr "  MyClass says: Hello, "; OStr name; OStr (line "!")]).
Definition get_value : Z := 42.

(** [is_even]: [n % 2 == 0], with the remainder of the truncating division. *)
Definition is_even (n : Z) : bool := bool_decide (Z.rem n 2 = 0).

(** The function objects of <functional> on [int] and [bool]. *)
Definition plus (a b : Z) : option Z := Int.add a b.
Definition minus (a b : Z) : option Z := Int.sub a b.
Definition multiplies (a b : Z) : option Z := Int.mul a b.
Definition greater (a b : Z) : bool := bool_decide (a > b).
Definition equal_to (a b : Z) : bool := bool_decide (a = b).
Definition logical_not (b : bool) : bool := negb b.
Definition bit_and (a b : Z) : Z := Z.land a b.
Definition bit_xor (a b : Z) : Z := Z.lxor a b.

(** [std::bind(add, 5, _1)], [std::bind(std::minus<int>(), _2, _1)] and
    [std::bind_front(std::multiplies<int>(), 10)]. *)
Definition add_5 (x : Z) : option Z := add 5 x.
Definition reverse_subtract (x y : Z) : option Z := minus y x.
Definition multiply_by_10 (x : Z) : option Z := multiplies 10 x.

(** [std::not_fn(is_even)]. *)
Definition is_odd (n : Z) : bool := negb (is_even n).

(** The lambda given to [std::accumulate]:
    [total + std::multiplies<int>()(n, n)]. *)
Definition add_square (total n : Z) : option Z :=
  square ← multiplies n n; Int.add total square.

(** One round of insertion sort under the comparison [comp]: [val] goes in
    front of the first element it is ordered before. *)
Fixpoint linear_insert (comp : Z → Z → bool) (val : Z) (sorted : list Z)
    : list Z :=
  match sorted with
  | [] => [val]
  | x :: sorted' =>
      if comp val x then val :: x :: sorted'
      else x :: linear_insert comp val sorted'
  end.

(** [std::sort(first, last, comp)], which the standard specifies by its
    result only (the range ordered by [comp]); the model is insertion
    sort. *)
Definition sort (vec : list Z) (comp : Z → Z → bool) : list Z :=
  foldl (λ sorted val, linear_insert comp val sorted) [] vec.

Definition main : M Z :=
  print (cout [OStr (line "--- Part 1: Function Wrappers ---")]);;
  let func := add in
  print (cout [OStr "  std::function with a free function: "]);;
  r ← unchecked (func 5 3);
  print (cout [OInt r; OStr nl]);;
  let func := subtract in
  print (cout [OStr "  std::function with a lambda: "]);;
  r ← unchecked (func 5 3);
  print (cout [OInt r; OStr nl]);;
  let func := MultiplyFunctor in
  print (cout [OStr "  std::function with a function object: "]);;
  r ← unchecked (func 5 3);
  print (cout [OInt r; OStr (line nl)]);;
  print (cout [OStr (line "--- Part 2: Binders and Placeholders ---")]);;
  print (cout [OStr "  std::bind: add(5, 10) = "]);;
  r ← unchecked (add_5 10);
  print (cout [OInt r; OStr nl]);;
  print (cout [OStr "  std::bind with reordered arguments: 10 - 5 = "]);;
  r ← unchecked (reverse_subtract 5 10);
  print (cout [OInt r; OStr nl]);;
  print (cout [OStr "  std::bind_front: 10 * 5 = "]);;
  r ← unchecked (multiply_by_10 5);
  print (cout [OInt r; OStr (line nl)]);;
  print (cout [OStr (line "--- Part 3: Arithmetic Operations ---")]);;
  let val1 := 10 in
  let val2 := 5 in
  print (cout [OStr "  std::plus<int>()(10, 5) = "]);;
  r ← unchecked (plus val1 val2);
  print (cout [OInt r; OStr nl]);;
  print (cout [OStr "  std::multiplies<int>()(10, 5) = "]);;
  r ← unchecked (multiplies val1 val2);
  print (cout [OInt r; OStr nl]);;
  let nums := [1; 2; 3; 4; 5] in
  sum_of_squares ← unchecked (std.accumulate_op add_square nums 0);
  print (cout [OStr "  Sum of squares of {1,2,3,4,5}: "; OInt sum_of_squares;
               OStr (line nl)]);;
  print (cout [OStr (line
    "--- Part 4: Comparisons and Relational Operations ---")]);;
  let val1 := 10 in
  let val2 := 20 in
  print (cout [OStr "  Is 10 > 20? "; Boolalpha; OBool (greater val1 val2);
               OStr nl]);;
  print (cout [OStr "  Is 10 == 10? "; Boolalpha; OBool (equal_to 10 10);
               OStr nl]);;
  let sort_nums := [3; 1; 4; 1; 5; 9; 2; 6] in
  let sort_nums := sort sort_nums greater in
  print (cout [OStr "  Sorted vector in descending order: "]);;
  print (sort_nums ≫= λ n, cout [OInt n; OStr " "]);;
  print (cout [OStr (line nl)]);;
  print (cout [OStr (line "--- Part 5: Logical and Bitwise Operations ---")]);;
  print (cout [OStr "  !true = "; Boolalpha; OBool (logical_not true); OStr nl]);;
  print (cout [OStr "  5 & 3 = "; OInt (bit_and 5 3); OStr nl]);;
  print (cout [OStr "  5 ^ 3 = "; OInt (bit_xor 5 3); OStr (line nl)]);;
  print (cout [OStr (line "--- Part 6: Function Pointers and Utilities ---")]);;
  print (cout [OStr (line "  std::mem_fn used with an object:")]);;
  greet "Alice";;
  print (cout [OStr (line
    "  std::invoke used with a member function pointer:")]);;
  greet "Bob";;
  let numbers := [1; 2; 3; 4; 5; 6] in
  print (cout [OStr (line "  Using std::not_fn with a vector:")]);;
  for_each numbers
    (λ n _, if is_odd n
            then print (cout [OStr "  Number "; OInt n; OStr (line " is odd.")])
            else mret ()) ();;
  mret 0.

End functional.

(** ** utility.cpp *)

Module utility.
Section main.
Context {lib : Library}.

(** [MyResource]: an object holds its [data]. *)
Record MyResource : Type := { data : string }.

(** The constructor from a string, and the move constructor, which prints
    the [data] of the object it has just moved from. *)
Definition construct (d : string) : M MyResource :=
  let this := {| data := d |} in
  print (cout [OStr "  - MyResource constructed with data: "; OStr (data this);
               OStr nl]);;
  mret this.
Definition move_construct (other : MyResource) : M (MyResource * MyResource) :=
  let this := {| data := data other |} in
  let other := {| data := moved_from_string (data other) |} in
  print (cout [OStr "  - MyResource move-constructed from: "; OStr (data other);
               OStr nl]);;
  mret (this, other).

(** [process]: the argument is a [std::string] in both calls, as an lvalue
    or as an rvalue; either way [MyResource resource(std::forward<T>(arg))]
    selects the constructor that takes [const std::string&]. *)
Definition process (arg : string) : M unit :=
  print (cout [OStr "  Inside process(): "]);;
  construct arg;;
  mret ().

(** [std::swap(a, b)]. *)
Definition swap (a b : Z) : Z * Z := (b, a).

Definition main : M Z :=
  print (cout [OStr (line "--- Part 1: Pairs and Tuples ---")]);;
  let person : string * Z := ("Alice", 30) in
  print (cout [OStr "  Person: {"; OStr person.1; OStr ", "; OInt person.2;
               OStr (line "}")]);;
  let another_person : string * Z := ("Bob", 25) in
  print (cout [OStr "  Another person: {"; OStr another_person.1; OStr ", ";
               OInt another_person.2; OStr (line "}")]);;
  let '(name, age) := another_person in
  print (cout [OStr "  Unpacked with std::tie: name='"; OStr name;
               OStr "', age="; OInt age; OStr nl]);;
  print (cout [OStr "  Accessing with std::get<0>: "; OStr person.1; OStr nl]);;
  print (cout [OStr "  Accessing with std::get<1>: "; OInt person.2;
               OStr (line nl)]);;
  print (cout [OStr (line "--- Part 2: Swapping and Moving ---")]);;
  let a := 10 in
  let b := 20 in
  print (cout [OStr "  Before swap: a="; OInt a; OStr ", b="; OInt b; OStr nl]);;
  let '(a, b) := swap a b in
  print (cout [OStr "  After swap: a="; OInt a; OStr ", b="; OInt b;
               OStr (line nl)]);;
  print (cout [OStr (line "  Demonstrating std::move:")]);;
  let source := "expensive-data" in
  let destination := source in
  let source := moved_from_string source in
  print (cout [OStr "  Source after move: '"; OStr source; OStr (line "'")]);;
  print (cout [OStr "  Destination: '"; OStr destination;
               OStr (line ("'" +:+ nl))]);;
  print (cout [OStr (line "  Demonstrating std::forward:")]);;
  let lvalue_str := "lvalue-data" in
  print (cout [OStr (line "  Calling process() with lvalue:")]);;
  process lvalue_str;;
  print (cout [OStr (line "  Calling process() with rvalue:")]);;
  process "rvalue-data";;
  print (cout [OStr nl]);;
  print (cout [OStr (line "--- Part 3: Other Utilities ---")]);;
  let non_const_str := "hello" in
  print (cout [OStr "  non_const_str before as_const: '"; OStr non_const_str;
               OStr (line "'")]);;
  let const_ref := non_const_str in
  print (cout [OStr "  const_ref: '"; OStr const_ref; OStr (line ("'" +:+ nl))]);;
  mret 0.

End main.
End utility.

(** ** sstream.cpp *)

Module sstream.

(** A string stream: the characters of its buffer, the get and the put
    position, and the state flags. *)
Record stream : Type := Stream {
  buffer : string;
  gpos : nat;
  ppos : nat;
  eofbit : bool;
  failbit : bool;
  badbit : bool;
}.

Definition eof (s : stream) : bool := eofbit s.
Definition bad (s : stream) : bool := badbit s.
Definition fail (s : stream) : bool := failbit s || badbit s.
Definition good (s : stream) : bool := negb (eofbit s || failbit s || badbit s).

(** [std::stringstream ss;], [std::ostringstream oss;] and
    [std::stringstream ss(str)], [std::istringstream iss(str)]. *)
Definition empty_stream : stream := Stream EmptyString 0 0 false false false.
Definition of_string (str : string) : stream := Stream str 0 0 false false false.

(** [ss.str()] and [ss.str(s)]; the latter keeps the state flags. *)
Definition str (s : stream) : string := buffer s.
Definition set_str (s : stream) (str : string) : stream :=
  Stream str 0 0 (eofbit s) (failbit s) (badbit s).

(** [ss.clear()]. *)
Definition clear (s : stream) : stream :=
  Stream (buffer s) (gpos s) (ppos s) false false false.

Definition set_fail (s : stream) : stream :=
  Stream (buffer s) (gpos s) (ppos s) (eofbit s) true (badbit s).

(** [ss << cs]: the characters go over the buffer at the put position.  The
    examples write to streams that are good; another stream is left as it
    is. *)
Definition write (s : stream) (cs : string) : stream :=
  if good s
  then Stream (fstream.overwrite (ppos s) cs (buffer s)) (gpos s)
         (ppos s + String.length cs) false false false
  else s.

(** [ss << n] for an [int]. *)
Definition write_int (s : stream) (n : Z) : stream :=
  write s (fstream.int_to_chars n).

(** Extraction is that of [std::istream], as for a file stream: the input
    side of the string stream seen as a stream of its own, and the string
    stream after an extraction has moved it. *)
Definition input (s : stream) : fstream.stream :=
  fstream.Stream EmptyString false true (buffer s) (gpos s)
    (eofbit s) (failbit s) (badbit s).
Definition after_input (s : stream) (i : fstream.stream) : stream :=
  Stream (buffer s) (fstream.pos i) (ppos s)
    (fstream.eofbit i) (fstream.failbit i) (fstream.badbit i).

(** [ss >> i] for an [int]: the value stored in [i], [None] when [i] is left
    as it was. *)
Definition extract_int (s : stream) : stream * option Z :=
  let '(i, v) := fstream.extract_int (input s) in (after_input s i, v).

(** The characters before the first white space, and the characters from
    there on. *)
Fixpoint word (cs : string) : string * string :=
  match cs with
  | EmptyString => (EmptyString, EmptyString)
  | String c cs' =>
      if Ascii.is_space c then (EmptyString, cs)
      else let '(w, rest) := word cs' in (String c w, rest)
  end.

(** [ss >> str] for a [std::string]: leading white space is skipped and the
    characters up to the next white space are stored; the string is emptied
    when there are none. *)
Definition extract_string (s : stream) : stream * option string :=
  let i := input s in
  if fstream.good i then
    let cs := fstream.skip_space (fstream.remaining i) in
    if bool_decide (cs = EmptyString)
    then (after_input s (fstream.set_eof_fail (fstream.after i cs)),
          Some EmptyString)
    else let '(w, rest) := word cs in
         (after_input s (fstream.after i rest), Some w)
  else (after_input s (fstream.set_fail i), None).

(** [ss >> ch] for a [char]: leading white space is skipped. *)
Definition extract_char (s : stream) : stream * option ascii :=
  let i := input s in
  if fstream.good i then
    let cs := fstream.skip_space (fstream.remaining i) in
    match cs with
    | EmptyString =>
        (after_input s (fstream.set_eof_fail (fstream.after i cs)), None)
    | String c rest =>
        (after_input s
           (fstream.advance i
              (String.length (fstream.remaining i) - String.length rest)),
         Some c)
    end
  else (after_input s (fstream.set_fail i), None).

(** [ss.seekg(n)]: clears [eofbit], then moves the get position unless the
    stream has failed; a position outside the buffer sets [failbit]. *)
Definition seekg (s : stream) (n : nat) : stream :=
  if failbit s || badbit s
  then Stream (buffer s) (gpos s) (ppos s) false (failbit s) (badbit s)
  else if bool_decide (n ≤ String.length (buffer s))%nat
       then Stream (buffer s) n (ppos s) false false false
       else Stream (buffer s) (gpos s) (ppos s) false true false.

(** [ss.seekp(n)]: moves the put position unless the stream has failed; a
    position outside the buffer sets [failbit]. *)
Definition seekp (s : stream) (n : nat) : stream :=
  if fail s then s
  else if bool_decide (n ≤ String.length (buffer s))%nat
       then Stream (buffer s) (gpos s) n (eofbit s) (failbit s) (badbit s)
       else set_fail s.

(** [ss.tellg()] and [ss.tellp()]: the position, or -1 on a failed stream. *)
Definition tellg (s : stream) : Z := if fail s then -1 else Z.of_nat (gpos s).
Definition tellp (s : stream) : Z := if fail s then -1 else Z.of_nat (ppos s).

Section main.
Context {impl : Implementation} {lib : Library}.

(** [ss << d] for a [double]. *)
Definition write_double (s : stream) (d : Double.t) : stream :=
  write s (double_to_chars d).

(** [ss >> d] for a [double]. *)
Definition extract_double (s : stream) : stream * option Double.t :=
  let '(i, v) := fstream.extract_double (input s) in (after_input s i, v).

(** [ss >> f] for a [float]. *)
Definition extract_float (s : stream) : stream * option Float.t :=
  let i := input s in
  if fstream.good i then
    let cs := fstream.skip_space (fstream.remaining i) in
    if bool_decide (cs = EmptyString)
    then (after_input s (fstream.set_eof_fail (fstream.after i cs)), None)
    else match float_from_chars cs with
         | Some (f, rest) => (after_input s (fstream.after i rest), Some f)
         | None => (after_input s (fstream.set_fail (fstream.after i cs)),
                    Some (SpecFloat.S754_zero false))
         end
  else (after_input s (fstream.set_fail i), None).

(** The new value of a variable after an extraction: the value stored, or
    the old one (none for a variable that was never initialised). *)
Definition stored {A : Type} (old new : option A) : option A :=
  match new with Some a => Some a | None => old end.

Definition welcome_message : M unit :=
  print (cout [OStr "****************"; Endl]);;
  print (cout [OStr "* #include <sstream> *"; Endl]);;
  print (cout [OStr "*** sstream  ***"; Endl]);;
  print (cout [OStr "****************"; Endl]).

(** In the examples a variable that is read while it holds no value makes
    the run undefined. *)
Definition example_stringstream : M unit :=
  let ss := empty_stream in
  let ss := write ss "123 45.6 hello" in
  let a : option Z := None in
  let b : option Double.t := None in
  let c : string := EmptyString in
  let '(ss, v) := extract_int ss in
  let a := stored a v in
  let '(ss, v) := extract_double ss in
  let b := stored b v in
  let '(ss, v) := extract_string ss in
  let c := default c v in
  print (cout [OStr "Extracted values: a="]);;
  a ← unchecked a;
  print (cout [OInt a; OStr ", b="]);;
  b ← unchecked b;
  print (cout [ODouble b; OStr ", c="; OStr c; Endl]).

Definition example_istringstream : M unit :=
  let data := "42 3.14 apple" in
  let iss := of_string data in
  let x : option Z := None in
  let y : option Float.t := None in
  let z : string := EmptyString in
  let '(iss, v) := extract_int iss in
  let x := stored x v in
  let '(iss, v) := extract_float iss in
  let y := stored y v in
  let '(iss, v) := extract_string iss in
  let z := default z v in
  print (cout [OStr "istringstream extracted: x="]);;
  x ← unchecked x;
  print (cout [OInt x; OStr ", y="]);;
  y ← unchecked y;
  print (cout [OFloat y; OStr ", z="; OStr z; Endl]).

Definition example_ostringstream : M unit :=
  let oss := empty_stream in
  let n := 99 in
  let d := Double.literal 2718 3 in
  let oss := write oss "Number: " in
  let oss := write_int oss n in
  let oss := write oss ", Double: " in
  let oss := write_double oss d in
  let result := str oss in
  print (cout [OStr "ostringstream string: "; OStr result; Endl]).

Definition example_str_function : M unit :=
  let ss := empty_stream in
  let ss := write ss "initial data" in
  print (cout [OStr "Current buffer: "; OStr (str ss); Endl]);;
  let ss := set_str ss "new data" in
  print (cout [OStr "After setting buffer: "; OStr (str ss); Endl]).

Definition example_clear_function : M unit :=
  let ss := of_string "abc" in
  let value : option Z := None in
  let '(ss, v) := extract_int ss in
  let value := stored value v in
  ss ← (if fail ss
        then print (cout [OStr "Extraction failed, clearing stream..."; Endl]);;
             mret (clear ss)
        else mret ss);
  let ss := set_str ss "123" in
  let '(ss, v) := extract_int ss in
  let value := stored value v in
  print (cout [OStr "After clear, extracted: "]);;
  value ← unchecked value;
  print (cout [OInt value; Endl]).

Definition example_state_functions : M unit :=
  let iss := of_string "10 20x" in
  let '(iss, a) := extract_int iss in
  let '(iss, b) := extract_int iss in
  print (cout [OStr "After extraction, eof="; OBool (eof iss);
               OStr ", fail="; OBool (fail iss);
               OStr ", good="; OBool (good iss);
               OStr ", bad="; OBool (bad iss); Endl]).

Definition example_seek_and_tell : M unit :=
  let ss := empty_stream in
  let ss := write ss "abcdefg" in
  let ss := seekg ss 2 in
  let ch : option ascii := None in
  let '(ss, v) := extract_char ss in
  let ch := stored ch v in
  print (cout [OStr "Character at position 2: "]);;
  ch ← unchecked ch;
  print (cout [OChar ch; Endl]);;
  print (cout [OStr "Current get position: "; OInt (tellg ss); Endl]);;
  let ss := seekp ss 4 in
  let ss := write ss "Z" in
  print (cout [OStr "Buffer after seekp and put: "; OStr (str ss); Endl]);;
  print (cout [OStr "Current put position: "; OInt (tellp ss); Endl]).

Definition example_chaining : M unit :=
  let ss := empty_stream in
  let ss := write_int ss 1 in
  let ss := write ss " " in
  let ss := write_int ss 2 in
  let ss := write ss " " in
  let ss := write_int ss 3 in
  let x : option Z := None in
  let y : option Z := None in
  let z : option Z := None in
  let '(ss, v) := extract_int ss in
  let x := stored x v in
  let '(ss, v) := extract_int ss in
  let y := stored y v in
  let '(ss, v) := extract_int ss in
  let z := stored z v in
  print (cout [OStr "Chained extraction: x="]);;
  x ← unchecked x;
  print (cout [OInt x; OStr ", y="]);;
  y ← unchecked y;
  print (cout [OInt y; OStr ", z="]);;
  z ← unchecked z;
  print (cout [OInt z; Endl]).

Definition main : M Z :=
  welcome_message;;
  example_stringstream;;
  example_istringstream;;
  example_ostringstream;;
  example_str_function;;
  example_clear_function;;
  example_state_functions;;
  example_seek_and_tell;;
  example_chaining;;
  mret 0.

End main.
End sstream.

(** ** cmath.cpp *)

Module cmath.
Section main.
Context {lib : Library}.

(** [const double PI = 3.14159265358979323846;]: the nearest [double],
    7074237752028440 / 2^51. *)
Definition PI : Double.t := SpecFloat.S754_finite false 7074237752028440 (-51).

(** [INFINITY] and [NAN], converted to [double]. *)
Definition INFINITY : Double.t := SpecFloat.S754_infinity false.
Definition NAN : Double.t := SpecFloat.S754_nan.

(** [std::abs] on a [double]. *)
Definition abs (x : Double.t) : Double.t := SpecFloat.SFabs x.

(** The classification functions. *)
Definition isinf (x : Double.t) : bool :=
  match x with SpecFloat.S754_infinity _ => true | _ => false end.
Definition isnan (x : Double.t) : bool :=
  match x with SpecFloat.S754_nan => true | _ => false end.
Definition isfinite (x : Double.t) : bool :=
  match x with
  | SpecFloat.S754_zero _ | SpecFloat.S754_finite _ _ _ => true
  | _ => false
  end.
(** A finite number is normal when its mantissa has all 53 bits. *)
Definition isnormal (x : Double.t) : bool :=
  match x with
  | SpecFloat.S754_finite _ m _ =>
      bool_decide (SpecFloat.digits2_pos m = 53%positive)
  | _ => false
  end.

Definition main : M Z :=
  let x := Double.literal 5 1 in
  let y := Double.of_Z 1 in
  print (cout [OStr (line "--- Part 1: Trigonometric Functions ---")]);;
  print (cout [OStr "Input angle (in radians): ";
               ODouble (Double.div PI (Double.of_Z 6)); OStr nl]);;
  print (cout [OStr "sin(PI/6) = ";
               ODouble (sin (Double.div PI (Double.of_Z 6))); OStr nl]);;
  print (cout [OStr "cos(PI/6) = ";
               ODouble (cos (Double.div PI (Double.of_Z 6))); OStr nl]);;
  print (cout [OStr "tan(PI/6) = ";
               ODouble (tan (Double.div PI (Double.of_Z 6))); OStr nl]);;
  print (cout [OStr "Input value (x): "; ODouble x; OStr nl]);;
  print (cout [OStr "asin("; ODouble x; OStr ") = "; ODouble (asin x);
               OStr (line " radians")]);;
  print (cout [OStr "acos("; ODouble x; OStr ") = "; ODouble (acos x);
               OStr (line " radians")]);;
  print (cout [OStr "atan("; ODouble x; OStr ") = "; ODouble (atan x);
               OStr (line " radians")]);;
  print (cout [OStr "atan2("; ODouble y; OStr ", "; ODouble x; OStr ") = ";
               ODouble (atan2 y x); OStr (line (" radians" +:+ nl))]);;
  print (cout [OStr (line "--- Part 2: Hyperbolic Functions ---")]);;
  print (cout [OStr "Input value (x): "; ODouble x; OStr nl]);;
  print (cout [OStr "sinh("; ODouble x; OStr ") = "; ODouble (sinh x); OStr nl]);;
  print (cout [OStr "cosh("; ODouble x; OStr ") = "; ODouble (cosh x); OStr nl]);;
  print (cout [OStr "tanh("; ODouble x; OStr ") = "; ODouble (tanh x); OStr nl]);;
  print (cout [OStr "asinh("; ODouble x; OStr ") = "; ODouble (asinh x);
               OStr (line nl)]);;
  print (cout [OStr (line
    "--- Part 3: Exponential and Logarithmic Functions ---")]);;
  print (cout [OStr "Input value (x): "; ODouble x; OStr nl]);;
  print (cout [OStr "exp("; ODouble x; OStr ") = "; ODouble (exp x); OStr nl]);;
  print (cout [OStr "log("; ODouble x; OStr ") = "; ODouble (log x); OStr nl]);;
  print (cout [OStr "log10("; OInt 100; OStr ") = ";
               ODouble (log10 (Double.of_Z 100)); OStr nl]);;
  print (cout [OStr "log2("; OInt 8; OStr ") = ";
               ODouble (log2 (Double.of_Z 8)); OStr (line nl)]);;
  print (cout [OStr (line "--- Part 4: Power and Absolute Value Functions ---")]);;
  let base := Double.of_Z 2 in
  let exponent := Double.of_Z 3 in
  print (cout [OStr "pow("; ODouble base; OStr ", "; ODouble exponent;
               OStr ") = "; ODouble (pow base exponent); OStr nl]);;
  let val_sqrt := Double.of_Z 9 in
  print (cout [OStr "sqrt("; ODouble val_sqrt; OStr ") = ";
               ODouble (sqrt val_sqrt); OStr nl]);;
  let val_cbrt := Double.of_Z 27 in
  print (cout [OStr "cbrt("; ODouble val_cbrt; OStr ") = ";
               ODouble (cbrt val_cbrt); OStr nl]);;
  let side_a := Double.of_Z 3 in
  let side_b := Double.of_Z 4 in
  print (cout [OStr "hypot("; ODouble side_a; OStr ", "; ODouble side_b;
               OStr ") = "; ODouble (hypot side_a side_b); OStr nl]);;
  let negative_val := Double.literal (-105) 1 in
  print (cout [OStr "abs("; ODouble negative_val; OStr ") = ";
               ODouble (abs negative_val); OStr (line nl)]);;
  print (cout [OStr (line
    "--- Part 5: Rounding, Remainder, and Floating-Point Functions ---")]);;
  let rounding_val := Double.literal 57 1 in
  print (cout [OStr "ceil("; ODouble rounding_val; OStr ") = ";
               ODouble (ceil rounding_val); OStr nl]);;
  print (cout [OStr "floor("; ODouble rounding_val; OStr ") = ";
               ODouble (floor rounding_val); OStr nl]);;
  let rounding_val2 := Double.literal (-57) 1 in
  print (cout [OStr "trunc("; ODouble rounding_val2; OStr ") = ";
               ODouble (trunc rounding_val2); OStr nl]);;
  print (cout [OStr "round("; ODouble rounding_val; OStr ") = ";
               ODouble (round rounding_val); OStr nl]);;
  let dividend := Double.literal 105 1 in
  let divisor := Double.literal 32 1 in
  print (cout [OStr "fmod("; ODouble dividend; OStr ", "; ODouble divisor;
               OStr ") = "; ODouble (fmod dividend divisor); OStr nl]);;
  print (cout [OStr "remainder("; ODouble dividend; OStr ", "; ODouble divisor;
               OStr ") = "; ODouble (remainder dividend divisor); OStr nl]);;
  let '(fractional_part, integral_part) := modf (Double.literal 314 2) in
  print (cout [OStr "modf(3.14): Integral part = "; ODouble integral_part;
               OStr ", Fractional part = "; ODouble fractional_part;
               OStr (line nl)]);;
  print (cout [OStr (line "--- Part 6: Classification Functions ---")]);;
  let inf := INFINITY in
  let nan := NAN in
  let norm := Double.of_Z 1 in
  print (cout [OStr "Is "; ODouble inf; OStr " infinite? "; Boolalpha;
               OBool (isinf inf); OStr nl]);;
  print (cout [OStr "Is "; ODouble nan; OStr " NaN? "; Boolalpha;
               OBool (isnan nan); OStr nl]);;
  print (cout [OStr "Is "; ODouble norm; OStr " normal? "; Boolalpha;
               OBool (isnormal norm); OStr nl]);;
  print (cout [OStr "Is "; ODouble inf; OStr " finite? "; Boolalpha;
               OBool (isfinite inf); OStr (line nl)]);;
  mret 0.

End main.
End cmath.

(** ** random.cpp *)

Module random.
Section main.
Context {lib : Library}.

(** [for (int i = 0; i < 5; ++i) std::cout << dist(gen) << " ";] for a
    distribution object [dist] whose calls are [call] and whose results are
    printed by [show]: the distribution and the engine afterwards. *)
Definition draw_5 {D A : Type} (call : D → mt19937 → A * D * mt19937)
    (show : A → item) (dist : D) (gen : mt19937) : M (D * mt19937) :=
  for_each (seq 0 5)
    (λ _ '(dist, gen),
       let '(x, dist, gen) := call dist gen in
       print (cout [show x; OStr " "]);;
       mret (dist, gen))
    (dist, gen).

(** [main]; [rd] gives the values of the successive calls [rd()] of the
    [std::random_device]. *)
Definition main (rd : nat → Z) : M Z :=
  print (cout [OStr (line
    "--- Part 1: Random Number Engines and Seeding ---")]);;
  let gen := mt19937_seed (rd 0%nat) in
  let ss := [rd 1%nat] in
  let seeded_gen := mt19937_seed_seq ss in
  let default_gen := default_random_engine_seed (rd 2%nat) in
  print (cout [OStr (line ("Random engines seeded and ready to use." +:+ nl))]);;
  print (cout [OStr (line "--- Part 2: Random Number Distributions ---")]);;
  let die_roll := uniform_int_init 1 6 in
  print (cout [OStr "Rolling a 6-sided die 5 times: "]);;
  '(die_roll, gen) ← draw_5 uniform_int_call OInt die_roll gen;
  print (cout [OStr nl]);;
  let percentage := uniform_real_init (Double.of_Z 0) (Double.of_Z 100) in
  print (cout [OStr "Generating a random percentage: "]);;
  let '(p, percentage, gen) := uniform_real_call percentage gen in
  print (cout [ODouble p; OStr (line "%")]);;
  let coin_flip := bernoulli_init (Double.literal 7 1) in
  print (cout [OStr "Simulating 5 coin flips (70% chance of 'true'): "]);;
  '(coin_flip, gen) ←
    draw_5 bernoulli_call (λ heads : bool, OStr (if heads then "Heads" else "Tails"))
      coin_flip gen;
  print (cout [OStr nl]);;
  let normal_dist := normal_init (Double.of_Z 75) (Double.of_Z 10) in
  print (cout [OStr "Generating 5 random test scores (mean 75, stddev 10): "]);;
  '(normal_dist, gen) ← draw_5 normal_call ODouble normal_dist gen;
  print (cout [OStr (line nl)]);;
  print (cout [OStr (line "--- Part 3: Algorithms Using Randomness ---")]);;
  let numbers := replicate 10 0 in
  numbers ← unchecked (std.iota numbers 1);
  print (cout [OStr "Original vector: "]);;
  print (numbers ≫= λ num, cout [OInt num; OStr " "]);;
  print (cout [OStr nl]);;
  let '(numbers, seeded_gen) := shuffle numbers seeded_gen in
  print (cout [OStr "Shuffled vector: "]);;
  print (numbers ≫= λ num, cout [OInt num; OStr " "]);;
  print (cout [OStr nl]);;
  mret 0.

End main.
End random.

(** ** iomanip.cpp *)

Module iomanip.
Section main.
Context {lib : Library}.

Definition demonstrate_setw_and_setfill : M unit :=
  print (cout [OStr "--- setw & setfill ---"; Endl]);;
  print (cout [OManip (Setfill "*"); OManip (Setw 20); OStr "Hello"; Endl]);;
  print (cout [OManip (Setw 20); OManip Left; OStr "Left Aligned"; Endl]);;
  print (cout [OManip (Setw 20); OManip Right; OStr "Right Aligned"; Endl]);;
  print (cout [Endl]).

(** [centerText]: the comparison and the arithmetic on [text.length()] are
    done in [size_t], the results stored in an [int]. *)
Definition centerText (text : string) (width : Z) : M unit :=
  let length := Z.of_nat (String.length text) in
  if bool_decide (length >= Convert.to_size_t width)
  then print (cout [OStr text])
  else
    let padding := Convert.to_int (Convert.to_size_t (Convert.to_size_t width - length)) in
    let left_padding := Z.quot padding 2 in
    print (cout [OManip (Setw (Convert.to_int
                   (Convert.to_size_t (Convert.to_size_t left_padding + length))));
                 OManip Right; OStr text]);;
    rest ← unchecked (Int.sub padding left_padding);
    print (cout [OManip (Setw rest); OStr EmptyString]).

Definition demonstrate_precision_and_notation : M unit :=
  let pi := Double.literal 3141592653589793 15 in
  print (cout [OStr "--- setprecision, fixed & scientific ---"; Endl]);;
  print (cout [OStr "Default: "; ODouble pi; Endl]);;
  print (cout [OStr "setprecision(5): "; OManip (Setprecision 5); ODouble pi;
               Endl]);;
  print (cout [OStr "fixed & setprecision(5): "; OManip Fixed;
               OManip (Setprecision 5); ODouble pi; Endl]);;
  print (cout [OStr "scientific: "; OManip Scientific; ODouble pi; Endl]);;
  print (cout [Endl]).

Definition demonstrate_boolalpha : M unit :=
  let is_true := true in
  let is_false := false in
  print (cout [OStr "--- boolalpha ---"; Endl]);;
  print (cout [OStr "Default (noboolalpha): "; OBool is_true; OStr " ";
               OBool is_false; Endl]);;
  print (cout [OStr "With boolalpha: "; Boolalpha; OBool is_true; OStr " ";
               OBool is_false; Endl]);;
  print (cout [OManip Noboolalpha; Endl]).

Definition demonstrate_setbase : M unit :=
  let num := 255 in
  print (cout [OStr "--- setbase ---"; Endl]);;
  print (cout [OStr "Decimal (base 10): "; OManip (Setbase 10); OInt num; Endl]);;
  print (cout [OStr "Octal (base 8): "; OManip (Setbase 8); OInt num; Endl]);;
  print (cout [OStr "Hexadecimal (base 16): "; OManip (Setbase 16); OInt num;
               Endl]);;
  print (cout [Endl]).

(** [demonstrate_put_money]; [installed] tells which locales the system
    knows.  The constructor of [std::locale] throws [std::runtime_error] for
    a name it does not know, and nothing catches it. *)
Definition demonstrate_put_money (installed : string → bool) : M unit :=
  print (cout [OStr "--- put_money (C++11+) ---"; Endl]);;
  loc ← (if installed "en_US.UTF-8" then mret "en_US.UTF-8"
         else throw (runtime_error (locale_failure "en_US.UTF-8")));
  print (cout [OManip (Imbue loc)]);;
  let money : LongDouble.t := Double.literal 1234567 2 in
  print (cout [OStr "Amount: ";
               OManip (PutMoney (long_double_mul money (Double.of_Z 100)));
               Endl]);;
  print (cout [Endl]).

(** [demonstrate_put_time]; [time] is the value of [std::time(nullptr)] and
    [localtime] the conversion [std::localtime] makes, [None] for the null
    pointer it returns when it fails. *)
Definition demonstrate_put_time (time : Z) (localtime : Z → option tm) : M unit :=
  print (cout [OStr "--- put_time (C++11+) ---"; Endl]);;
  let t := time in
  let time_info := localtime t in
  print (cout [OStr "Current time: "]);;
  tm1 ← unchecked time_info;
  print (cout [OManip (PutTime tm1 "%c"); Endl]);;
  print (cout [OStr "Custom format: "]);;
  tm2 ← unchecked time_info;
  print (cout [OManip (PutTime tm2 "%Y-%m-%d %H:%M:%S"); Endl]);;
  print (cout [Endl]).

Definition main (installed : string → bool) (time : Z)
    (localtime : Z → option tm) : M Z :=
  demonstrate_setw_and_setfill;;
  demonstrate_precision_and_notation;;
  demonstrate_boolalpha;;
  demonstrate_setbase;;
  demonstrate_put_money installed;;
  demonstrate_put_time time localtime;;
  centerText "hhhhhhhhhh" 20;;
  print (cout [Endl]);;
  centerText "Centered Text Example" 20;;
  print (cout [Endl]);;
  mret 0.

End main.
End iomanip.

(** ** memory.cpp *)

Module memory.

(** A [Resource] holds its [name]; the constructor, the destructor and
    [do_something] print it. *)
Record Resource : Type := { name : string }.

Definition Resource_new (n : string) : M Resource :=
  let this := {| name := n |} in
  print (cout [OStr "  - Resource '"; OStr (name this); OStr (line "' created.")]);;
  mret this.
Definition Resource_delete (this : Resource) : M unit :=
  print (cout [OStr "  - Resource '"; OStr (name this);
               OStr (line "' destroyed.")]).
Definition do_something (this : Resource) : M unit :=
  print (cout [OStr "  - Resource '"; OStr (name this);
               OStr (line "' is doing something.")]).

(** The control block that the [std::shared_ptr]s and [std::weak_ptr]s of
    one object share: the object and the number of [shared_ptr]s that own
    it. *)
Record control : Type := { object : Resource; use_count : nat }.

(** [std::make_shared<Resource>(n)]: the object is created and owned once. *)
Definition make_shared (n : string) : M control :=
  r ← Resource_new n;
  mret {| object := r; use_count := 1 |}.

(** Copying a [shared_ptr] that owns the object. *)
Definition copy (c : control) : control :=
  {| object := object c; use_count := S (use_count c) |}.

(** The destructor of a [shared_ptr] that owns the object: the last owner
    destroys it. *)
Definition release (c : control) : M control :=
  match use_count c with
  | 0%nat => mret c
  | 1%nat => Resource_delete (object c);;
             mret {| object := object c; use_count := 0 |}
  | S n => mret {| object := object c; use_count := n |}
  end.

(** [weak_ptr.lock()]: a new owner while the object is alive, an empty
    [shared_ptr] ([None]) afterwards; with it, the control block. *)
Definition lock (c : control) : control * bool :=
  if bool_decide (use_count c = 0%nat) then (c, false) else (copy c, true).

(** [OverloadedAddress::operator&]: the null pointer. *)
Definition OverloadedAddress_address_of : Z := 0.

(** [main]; [address] is where the platform has placed the local variable
    [my_obj].  Allocation is taken to succeed. *)
Definition main (address : Z) : M Z :=
  print (cout [OStr (line "--- Part 1: Smart Pointers ---")]);;
  print (cout [OStr (line "1. Demonstrating std::unique_ptr:")]);;
  unique_res ← Resource_new "unique_resource";
  do_something unique_res;;
  Resource_delete unique_res;;
  print (cout [OStr (line ("  unique_ptr has gone out of scope." +:+ nl))]);;
  print (cout [OStr (line "2. Demonstrating std::shared_ptr:")]);;
  shared_res ← make_shared "shared_resource";
  let shared_res := copy shared_res in
  print (cout [OStr "  shared_res1 use count: ";
               OInt (Z.of_nat (use_count shared_res)); OStr nl]);;
  print (cout [OStr "  shared_res2 use count: ";
               OInt (Z.of_nat (use_count shared_res)); OStr nl]);;
  shared_res ← release shared_res;
  shared_res ← release shared_res;
  print (cout [OStr (line ("  shared_ptrs have gone out of scope." +:+ nl))]);;
  print (cout [OStr (line "3. Demonstrating std::weak_ptr:")]);;
  weak_resource ← make_shared "weak_resource";
  let '(weak_resource, locked) := lock weak_resource in
  weak_resource ←
    (if locked
     then print (cout [OStr "  weak_ptr is locked, object still alive. "]);;
          do_something (object weak_resource);;
          release weak_resource
     else print (cout [OStr (line
                   "  weak_ptr is expired, object no longer exists.")]);;
          mret weak_resource);
  print (cout [OStr (line "  strong_ptr has gone out of scope.")]);;
  let '(weak_resource, locked) := lock weak_resource in
  weak_resource ←
    (if locked
     then print (cout [OStr (line
            "  (This should not be printed) weak_ptr is locked, object still alive.")]);;
          release weak_resource
     else print (cout [OStr (line
                   ("  weak_ptr is expired, object no longer exists." +:+ nl))]);;
          mret weak_resource);
  print (cout [OStr (line "--- Part 2: Low-Level Memory Utilities ---")]);;
  print (cout [OStr (line "4. Demonstrating std::addressof:")]);;
  print (cout [OStr "  Address using regular '&': ";
               OPointer OverloadedAddress_address_of; OStr nl]);;
  print (cout [OStr "  Address using std::addressof: "; OPointer address;
               OStr (line nl)]);;
  print (cout [OStr (line "5. Demonstrating std::uninitialized_fill:")]);;
  let count := 5%nat in
  let raw_memory := replicate count 10 in
  print (cout [OStr "  Filled raw memory with: "]);;
  for_each (seq 0 count)
    (λ i _, x ← unchecked (raw_memory !! i);
            print (cout [OInt x; OStr " "])) ();;
  print (cout [OStr nl]);;
  (* [return 0;], then the destructors of [weak_ptr] and [strong_ptr] *)
  weak_resource ← release weak_resource;
  mret 0.

End memory.

(** ** chrono.cpp *)

Module chrono.

(** The clock readings of one run, in nanoseconds: [steady_clock::now()]
    before and after the sleep, and [system_clock::now()] since the epoch. *)
Record clock : Type := {
  steady_start : Z;
  steady_end : Z;
  system_now : Z;
}.

(** [duration_cast] to a coarser unit, [per] ticks long: truncation toward
    zero. *)
Definition duration_cast (ticks per : Z) : Z := Z.quot ticks per.

(** [floor], [ceil] and [round] (to nearest, ties to even) to a coarser unit. *)
Definition floor (ticks per : Z) : Z := ticks `div` per.
Definition ceil (ticks per : Z) : Z := - ((- ticks) `div` per).
Definition round (ticks per : Z) : Z :=
  let lower := floor ticks per in
  let twice := 2 * (ticks - lower * per) in
  if bool_decide (twice < per) then lower
  else if bool_decide (per < twice) then lower + 1
  else if Z.even lower then lower else lower + 1.

Definition part1 (c : clock) : M unit :=
  print (cout [OStr (line "--- Part 1: Clocks and Measuring Time Intervals ---")]);;
  let start := steady_start c in
  print (cout [OStr (line "  Sleeping for 200 milliseconds...")]);;
  let end_ := steady_end c in
  let elapsed := end_ - start in
  print (cout [OStr "  Elapsed time: "; OInt (duration_cast elapsed 1000000);
               OStr "ms or "; OInt (duration_cast elapsed 1);
               OStr (line ("ns" +:+ nl))]).

Definition part2 : M unit :=
  print (cout [OStr (line "--- Part 2: Working with Durations and Literals ---")]);;
  let ten_seconds := 10 in
  let five_hundred_milliseconds := 500 in
  print (cout [OStr "  Duration of 10s has a count of "; OInt ten_seconds; OStr nl]);;
  print (cout [OStr "  Duration of 500ms has a count of ";
               OInt five_hundred_milliseconds; OStr nl]);;
  let total_time := ten_seconds * 1000 + five_hundred_milliseconds in
  print (cout [OStr "  Total time in milliseconds: ";
               OInt (duration_cast total_time 1); OStr (line ("ms" +:+ nl))]).

Definition part3 (c : clock) : M unit :=
  print (cout [OStr (line "--- Part 3: Clocks and Time Points ---")]);;
  let now := system_now c in
  let duration_since_epoch := now in
  let future_time := now + 10 * 1000000000 in
  print (cout [OStr "  Current time: ";
               OInt (duration_cast duration_since_epoch 1000000);
               OStr (line "ms since epoch")]);;
  print (cout [OStr (line
    "  Time in 10 seconds has a different count (not a duration): ")]);;
  print (cout [OStr "  "; OInt (duration_cast future_time 1000000);
               OStr (line ("ms since epoch" +:+ nl))]).

(** The duration 250.678 ms of Part 4, in microseconds. *)
Definition d_ms : Z := 250678.

Definition part4 : M unit :=
  print (cout [OStr (line
    "--- Part 4: C++17/C++20 Duration Rounding Functions ---")]);;
  print (cout [OStr "  Duration 250.678ms floored to seconds: ";
               OInt (floor d_ms 1000000); OStr (line "s")]);;
  print (cout [OStr "  Duration 250.678ms ceiled to seconds: ";
               OInt (ceil d_ms 1000000); OStr (line "s")]);;
  print (cout [OStr "  Duration 250.678ms rounded to milliseconds: ";
               OInt (round d_ms 1000); OStr (line ("ms" +:+ nl))]).

Definition main (c : clock) : M Z :=
  part1 c;; part2;; part3 c;; part4;; mret 0.

End chrono.

(** ** The programs of the repository and their runs *)

(** One constructor per source file. *)
Inductive program : Type :=
  | algorithm_cpp | array_cpp | chrono_cpp | cmath_cpp | fstream_cpp
  | functional_cpp | future_cpp | iomanip_cpp | map_cpp | memory_cpp
  | mutex_cpp | numeric_cpp | optional_cpp | random_cpp | set_cpp
  | sstream_cpp | stack_cpp | string_view_cpp | thread_cpp
  | unordered_map_cpp | unordered_set_cpp | utility_cpp | vector_cpp.

#[global] Instance program_eq_dec : EqDecision program.
Proof. solve_decision. Defined.

(** Where the platform has put a process in memory: the address of the
    local variable [my_obj] of memory.cpp's [main], and the identifier of
    each thread ([None]: the identifier that stands for no thread). *)
Record placement : Type := {
  address_of_local : Z;
  thread_id : option nat → nat;
}.

(** What a run receives from its platform besides its argument vector and
    the files of the working directory: the readings of the clocks, the
    values of the random device (call by call), the choices of the thread
    scheduler (step by step), the number of hardware threads, the time of
    day and its conversion to local time, the locales that are installed,
    and the placement of the process in memory, which can move with the
    argument vector (the arguments lie on the stack, above the frame of
    [main]). *)
Record environment : Type := {
  clock : chrono.clock;
  random_device : nat → Z;
  scheduler : nat → nat;
  hardware_concurrency : nat;
  time : Z;
  localtime : Z → option tm;
  locale_installed : string → bool;
  placement_of : list string → placement;
}.

(** The two forms of [main]: [int main()], and
    [int main(int argc, char* argv[])]. *)
Inductive entry_point : Type :=
  | main_void (body : fstream.IO Z)
  | main_args (body : list string → fstream.IO Z).

(** A console program touches no file. *)
Definition console_program (m : M Z) : fstream.IO Z := λ fs, (m.1, m.2, fs).

Section programs.
Context {impl : Implementation} {lib : Library}.

(** The [main] of each source file, in a process that the platform has
    placed at [l]; all 23 are declared [int main()]. *)
Definition entry (p : program) (e : environment) (l : placement) : entry_point :=
  match p with
  | algorithm_cpp => main_void (console_program algorithm.main)
  | array_cpp => main_void (console_program array.main)
  | chrono_cpp => main_void (console_program (chrono.main (clock e)))
  | cmath_cpp => main_void (console_program cmath.main)
  | fstream_cpp => main_void fstream.main
  | functional_cpp => main_void (console_program functional.main)
  | future_cpp =>
      main_void (console_program (future_program.main (scheduler e)))
  | iomanip_cpp =>
      main_void (console_program
                   (iomanip.main (locale_installed e) (time e) (localtime e)))
  | map_cpp => main_void (console_program map.main)
  | memory_cpp => main_void (console_program (memory.main (address_of_local l)))
  | mutex_cpp =>
      main_void (console_program
                   (mutex_program.main (thread_id l) (scheduler e)))
  | numeric_cpp => main_void (console_program numeric.main)
  | optional_cpp => main_void (console_program optional.main)
  | random_cpp => main_void (console_program (random.main (random_device e)))
  | set_cpp => main_void (console_program set.main)
  | sstream_cpp => main_void (console_program sstream.main)
  | stack_cpp => main_void (console_program stack.main)
  | string_view_cpp => main_void (console_program string_view.main)
  | thread_cpp =>
      main_void (console_program
                   (thread.main (thread_id l) (hardware_concurrency e)
                      (scheduler e)))
  | unordered_map_cpp => main_void (console_program unordered_map.main)
  | unordered_set_cpp => main_void (console_program unordered_set.main)
  | utility_cpp => main_void (console_program utility.main)
  | vector_cpp => main_void (console_program vector.main)
  end.

(** One run of a program: the platform places the process, and the runtime
    hands the argument vector to a [main] that declares parameters and
    drops it otherwise. *)
Definition run (p : program) (argv : list string) (e : environment)
    : fstream.IO Z :=
  match entry p e (placement_of e argv) with
  | main_void body => body
  | main_args body => body argv
  end.

(** How a run ended and what it printed; the files it left. *)
Definition behaviour (r : outcome Z * list event * fstream.files)
    : outcome Z * list event := r.1.
Definition files_after (r : outcome Z * list event * fstream.files)
    : fstream.files := r.2.

End programs.

(** The programs that print where the platform has put them: memory.cpp the
    address of a local variable, thread.cpp and mutex.cpp the identifiers
    of threads. *)
Definition prints_placement (p : program) : bool :=
  match p with
  | memory_cpp | mutex_cpp | thread_cpp => true
  | _ => false
  end.

(** A behaviour without the addresses and thread identifiers it shows. *)
Definition without_placement (b : outcome Z * list event)
    : outcome Z * list event :=
  (b.1, relabel_event hide_placement <$> b.2).

(** Two environments that differ at most in where they place a process. *)
Definition same_but_placement (e1 e2 : environment) : Prop :=
  clock e1 = clock e2 ∧ random_device e1 = random_device e2 ∧
  scheduler e1 = scheduler e2 ∧
  hardware_concurrency e1 = hardware_concurrency e2 ∧
  time e1 = time e2 ∧ localtime e1 = localtime e2 ∧
  locale_installed e1 = locale_installed e2.

(** ** Bounds for the read loops *)

(** The rounds a loop may still need: the characters left plus the failing
    round(s), or one round on a stream that is not good. *)
Definition rounds_getline (s : fstream.stream) : nat :=
  if fstream.good s then 2 + String.length (fstream.remaining s) else 1.

Definition rounds_get (s : fstream.stream) : nat :=
  if fstream.good s then 1 + String.length (fstream.remaining s) else 1.

(** ** Which files a computation depends on, and which it leaves alone *)

(** Two directories hold the same contents under the names in [K]. *)
Definition agree (K : gset string) (fs fs' : fstream.files) : Prop :=
  ∀ k, k ∈ K → fs !! k = fs' !! k.

Definition is_normal {A : Type} (o : outcome A) : Prop :=
  match o with Normal _ => True | _ => False end.

(** [m] reads no file outside [K] before writing it: started in two
    directories that agree on [K] it ends and prints the same, and - when it
    ends normally - leaves directories that agree on [K']. *)
Definition indifferent {A : Type} (K : gset string) (m : fstream.IO A)
    (K' : gset string) : Prop :=
  ∀ fs fs', agree K fs fs' →
    (m fs).1 = (m fs').1 ∧
    (is_normal (m fs).1.1 → agree K' (m fs).2 (m fs').2).

(** [m] does not change the file [p], and a value it returns satisfies [Q]. *)
Definition untouched {A : Type} (p : string) (m : fstream.IO A)
    (Q : A → Prop) : Prop :=
  ∀ fs, (m fs).2 !! p = fs !! p ∧ ∀ a, (m fs).1.1 = Normal a → Q a.

(** A stream that cannot change the file [p]: it is read-only or belongs to
    another file. *)
Definition harmless (p : string) (s : fstream.stream) : Prop :=
  fstream.writes s = false ∨ fstream.name s ≠ p.

(** One platform, for a run that starts [now] nanoseconds after the epoch:
    the sleep of chrono.cpp takes exactly its 200 milliseconds, the random
    device counts up from [now], the scheduler goes round the threads, there
    are four hardware threads, every locale is installed and local time is
    UTC on the first day of 1970 (the time of day is that of [now]).  The
    local variable of [main] lies below the top of the stack by 16 bytes for
    every argument and every 16 characters of the arguments, and the
    threads are numbered in the order in which they start. *)
Definition environment_at (now : Z) : environment := {|
  clock := {| chrono.steady_start := now;
              chrono.steady_end := now + 200000000;
              chrono.system_now := now |};
  random_device := λ k, (now + Z.of_nat k) `mod` 2 ^ 32;
  scheduler := λ k, k;
  hardware_concurrency := 4;
  time := now `div` 1000000000;
  localtime := λ t,
    Some {| tm_sec := t `mod` 60; tm_min := (t `div` 60) `mod` 60;
            tm_hour := (t `div` 3600) `mod` 24; tm_mday := 1; tm_mon := 0;
            tm_year := 70; tm_wday := 4; tm_yday := 0; tm_isdst := 0 |};
  locale_installed := λ _, true;
  placement_of := λ argv,
    {| address_of_local :=
         140737488351232
         - 16 * Z.of_nat (length argv)
         - 16 * (Z.of_nat (foldr (λ arg n, String.length arg + n)%nat 0%nat argv)
                 `div` 16);
       thread_id := λ t, match t with Some i => Datatypes.S i | None => 0%nat end |};
|}.
(** ** Reference notions for the properties of fstream.cpp *)

(** The lines of a text, as a reader that splits at every newline sees
    them: a last line that lacks its newline counts, an empty rest does
    not. *)
Fixpoint text_lines (cs : string) : list string :=
  match cs with
  | EmptyString => []
  | String c cs' =>
      if Ascii.eqb c (ascii_of_nat 10) then EmptyString :: text_lines cs'
      else match text_lines cs' with
           | [] => [String c EmptyString]
           | l :: ls => String c l :: ls
           end
  end.

(** A stream after a read loop has run to the end of the file: the file
    pointer at the end, [eofbit] and [failbit] set. *)
Definition read_to_end (s : fstream.stream) : fstream.stream :=
  fstream.Stream (fstream.name s) (fstream.writes s) (fstream.is_open s)
    (fstream.data s) (fstream.pos s + String.length (fstream.remaining s))
    true true false.

(** What fstream.cpp prints for a given input.txt ([None]: there is no such
    file). *)
Definition expected_output (input : option string) : list event :=
  cout [OStr "****************"; Endl; OStr "* #include <fstream> *"; Endl;
        OStr "*** fstream  ***"; Endl; OStr "****************"; Endl]
  ++ match input with
     | Some contents =>
         text_lines contents ≫= λ l, cout [OStr "Read line: "; OStr l; Endl]
     | None => cerr [OStr "Could not open input.txt"; Endl]
     end
  ++ cout [OStr "fstream read: "; OStr "Line 1"; Endl;
           OStr "fstream read: "; OStr "Line 2"; Endl]
  ++ match input with
     | Some _ =>
         cout [OStr "File opened successfully!"; Endl; OStr "File closed."; Endl]
     | None => []
     end
  ++ cout [OStr "Recovered number: "; OInt 12345; Endl;
           OStr "Character read: "; OChar "X"; Endl;
           OStr "Character read: "; OChar (ascii_of_nat 10); Endl;
           OStr "Line: "; OStr "First line"; Endl;
           OStr "Line: "; OStr "Second line"; Endl;
           OStr "Character at position 2: "; OChar "c"; Endl;
           OStr "Current get pointer: "; OInt 3; Endl;
           OStr "Modified line: "; OStr "abcdZf"; Endl;
           OStr "EOF: "; OBool true; OStr ", Good: "; OBool false;
           OStr ", Bad: "; OBool false; OStr ", Fail: "; OBool true; Endl;
           OStr "Read numbers: "; OInt 42; OStr ", ";
           ODouble Double.literal_3_14; Endl].

Section expected.
Context {impl : Implementation}.

(** The eight scratch files as fstream.cpp leaves them. *)
Definition scratch_files : list (string * string) :=
  [("output.txt", line "Hello, file!" +:+ "A" +:+ line "Raw bytes");
   ("data.txt", line "Line 1" +:+ line "Line 2");
   ("binary.dat", fstream.int_to_raw 12345);
   ("chars.txt", line "X");
   ("lines.txt", line "First line" +:+ line "Second line");
   ("seek.txt", "abcdZf");
   ("numbers.txt", line "42 3.14");
   ("flush.txt", "This will be flushed.")].

(** The directory once each scratch file has been written. *)
Definition expected_files (fs : fstream.files) : fstream.files :=
  foldl (λ fs kv, <[kv.1 := kv.2]> fs) fs scratch_files.

End expected.


Section read_write.
Context {impl : Implementation}.

(** [example_read_write] with [number] in place of the literal 12345. *)
Definition read_write_of (number : Z) : fstream.IO unit :=
  out_ ← fstream.ofstream "binary.dat";
  let out_ := fstream.write out_ (fstream.int_to_raw number) in
  fstream.close out_;;
  in_ ← fstream.ifstream "binary.dat";
  let recovered := 0 in
  let '(in_, cs) := fstream.read in_ 4 in
  let recovered := fstream.raw_into_int cs recovered in
  fstream.out (cout [OStr "Recovered number: "; OInt recovered; Endl]);;
  fstream.close in_;; mret ().

End read_write.


Section getline_of.
Context {impl : Implementation}.

(** [example_getline] with [text] in place of the literal it writes. *)
Definition getline_of (text : string) : fstream.IO unit :=
  out_ ← fstream.ofstream "lines.txt";
  let out_ := fstream.write out_ text in
  fstream.close out_;;
  in_ ← fstream.ifstream "lines.txt";
  let '(in_, t) :=
    fstream.while_getline in_ (λ line, cout [OStr "Line: "; OStr line; Endl]) in
  fstream.out t;;
  fstream.close in_;; mret ().

End getline_of.

(** The text that holds the lines [ls], each ended by a newline. *)
Definition join_lines (ls : list string) : string :=
  foldr (λ l text, line l +:+ text) EmptyString ls.

(** ** mutex.cpp: the shared counter (lines 9-12, 48-75) *)

Module counter.

(** Where a thread stands in one round of the loop of
    [increment_without_lock] or [increment_with_lock_guard]: at the loop
    test; past the construction of the [lock_guard] (or, without a lock,
    simply inside the body); after reading [shared_counter] for the
    increment, holding the value read; after storing the incremented value,
    before the [lock_guard] is destroyed and [i] incremented; out of the
    loop. *)
Inductive position : Type :=
  | AtLoop
  | Inside
  | Loaded (v : Z)
  | Stored
  | Finished.

(** The rounds of each loop: [for (int i = 0; i < 1000; ++i)]. *)
Definition rounds : nat := 1000.

(** A thread: its loop variable [i] and its position. *)
Record thread : Type := { i : nat; at_ : position }.

(** [shared_counter], whether [counter_mutex] is locked, the two threads, and
    whether an increment has overflowed the [int]. *)
Record state : Type := {
  shared_counter : Z;
  counter_mutex : bool;
  t1 : thread;
  t2 : thread;
  overflowed : bool;
}.

(** [shared_counter = 0;] and both threads started. *)
Definition started : state :=
  {| shared_counter := 0; counter_mutex := false;
     t1 := {| i := 0; at_ := AtLoop |}; t2 := {| i := 0; at_ := AtLoop |};
     overflowed := false |}.

(** One atomic step of a thread, [guarded] telling whether the loop body
    takes the [lock_guard]: the counter, the mutex, the thread and the
    overflow mark afterwards; [None] when the thread cannot move (it waits
    for the mutex, or it has finished). *)
Definition thread_step (guarded : bool) (counter : Z) (locked : bool)
    (th : thread) (over : bool) : option (Z * bool * thread * bool) :=
  match at_ th with
  | AtLoop =>
      if bool_decide (i th < rounds)%nat then
        if guarded then
          if locked then None
          else Some (counter, true, {| i := i th; at_ := Inside |}, over)
        else Some (counter, locked, {| i := i th; at_ := Inside |}, over)
      else Some (counter, locked, {| i := i th; at_ := Finished |}, over)
  | Inside => Some (counter, locked, {| i := i th; at_ := Loaded counter |}, over)
  | Loaded v =>
      match Int.add v 1 with
      | Some v' => Some (v', locked, {| i := i th; at_ := Stored |}, over)
      | None => Some (counter, locked, {| i := i th; at_ := Stored |}, true)
      end
  | Stored =>
      Some (counter, if guarded then false else locked,
            {| i := S (i th); at_ := AtLoop |}, over)
  | Finished => None
  end.

(** The scheduler picks the first thread ([true]) or the second ([false]). *)
Definition step (guarded first : bool) (s : state) : option state :=
  if first then
    '(c, m, th, o) ← thread_step guarded (shared_counter s) (counter_mutex s)
                       (t1 s) (overflowed s);
    Some {| shared_counter := c; counter_mutex := m; t1 := th; t2 := t2 s;
            overflowed := o |}
  else
    '(c, m, th, o) ← thread_step guarded (shared_counter s) (counter_mutex s)
                       (t2 s) (overflowed s);
    Some {| shared_counter := c; counter_mutex := m; t1 := t1 s; t2 := th;
            overflowed := o |}.

(** An interleaving is the list of the scheduler's picks; picking a thread
    that cannot move changes nothing. *)
Definition exec (guarded : bool) (schedule : list bool) (s : state) : state :=
  foldl (λ s first, default s (step guarded first s)) s schedule.

(** Both threads have left their loops, so both [join]s return. *)
Definition joined (s : state) : bool :=
  match at_ (t1 s), at_ (t2 s) with
  | Finished, Finished => true
  | _, _ => false
  end.

(** The thread is between the construction and the destruction of its
    [lock_guard]. *)
Definition in_critical_section (th : thread) : bool :=
  match at_ th with
  | Inside | Loaded _ | Stored => true
  | AtLoop | Finished => false
  end.

(** The increments a thread has completed: the rounds it has finished and
    the store of the round it is in. *)
Definition increments (th : thread) : nat :=
  i th + match at_ th with Stored => 1 | _ => 0 end.

(** A thread is within its 1000 rounds, and a value it has loaded is the
    current value of the counter. *)
Definition thread_ok (counter : Z) (th : thread) : Prop :=
  match at_ th with
  | AtLoop => (i th ≤ rounds)%nat
  | Inside | Stored => (i th < rounds)%nat
  | Loaded v => (i th < rounds)%nat ∧ v = counter
  | Finished => i th = rounds
  end.

(** With the lock: the counter holds exactly the completed increments, the
    mutex is locked exactly while a thread is in the critical section, and
    the two threads are never there together. *)
Definition consistent (s : state) : Prop :=
  overflowed s = false ∧
  shared_counter s = Z.of_nat (increments (t1 s) + increments (t2 s)) ∧
  thread_ok (shared_counter s) (t1 s) ∧
  thread_ok (shared_counter s) (t2 s) ∧
  counter_mutex s
    = in_critical_section (t1 s) || in_critical_section (t2 s) ∧
  in_critical_section (t1 s) && in_critical_section (t2 s) = false.

End counter.


(** * Properties *)

(** ** [int] arithmetic *)

Lemma in_range_spec z : Int.in_range z = true ↔ Int.INT_MIN ≤ z ≤ Int.INT_MAX.
Proof. unfold Int.in_range. rewrite andb_true_iff, !Z.leb_le. tauto. Qed.

Lemma checked_in_range z : Int.in_range z = true → Int.checked z = Some z.
Proof. intros H. unfold Int.checked. by rewrite H. Qed.

Lemma checked_Some z r : Int.checked z = Some r → r = z ∧ Int.in_range z = true.
Proof. unfold Int.checked. destruct (Int.in_range z); [intros [= <-]; done | done]. Qed.

Lemma add_0_l a : Int.in_range a = true → Int.add 0 a = Some a.
Proof. intros H. unfold Int.add. rewrite Z.add_0_l. by apply checked_in_range. Qed.

(** ** [std::accumulate] *)

Lemma math_sum_snoc v x : math_sum (v ++ [x]) = math_sum v + x.
Proof. unfold math_sum. induction v as [|y v IH]; simpl; lia. Qed.

(** Whenever [accumulate] is defined, its value is the initial value plus the
    mathematical sum. *)
Lemma accumulate_Some v : ∀ init r,
  std.accumulate v init = Some r → r = init + math_sum v.
Proof.
  induction v as [|x v IH]; intros init r; simpl.
  - intros [= <-]. unfold math_sum. simpl. lia.
  - destruct (Int.add init x) as [init'|] eqn:E; simpl; [|done].
    intros H%IH. apply checked_Some in E as [-> _].
    unfold math_sum in *. simpl. lia.
Qed.

Lemma accumulate_in_range v : ∀ init,
  (∀ k : nat, (1 ≤ k ≤ length v)%nat →
     Int.in_range (init + math_sum (take k v)) = true) →
  std.accumulate v init = Some (init + math_sum v).
Proof.
  induction v as [|x v IH]; intros init H; simpl.
  - unfold math_sum. simpl. f_equal. lia.
  - unfold Int.add. rewrite checked_in_range; simpl.
    + rewrite IH.
      * f_equal. unfold math_sum. simpl. lia.
      * intros k Hk. specialize (H (S k)). simpl in H.
        replace (init + x + math_sum (take k v))
          with (init + math_sum (x :: take k v))
          by (unfold math_sum; simpl; lia).
        apply H. lia.
    + specialize (H 1%nat). simpl in H. rewrite ?take_0 in H.
      replace (init + x) with (init + math_sum [x])
        by (unfold math_sum; simpl; lia).
      apply H. lia.
Qed.

(** ** [std::partial_sum] *)

Lemma partial_sum_loop_last rest : ∀ value out (i : nat),
  length out = (S i + length rest)%nat →
  out !! i = Some value →
  std.partial_sum_loop rest value out i ≫= last = std.accumulate rest value.
Proof.
  induction rest as [|x rest IH]; intros value out i Hlen Hi; simpl.
  - rewrite last_lookup. replace (pred (length out)) with i by (simpl in Hlen; lia).
    rewrite Hi. done.
  - destruct (Int.add value x) as [value'|]; simpl; [|done].
    apply IH.
    + rewrite length_insert. simpl in Hlen. lia.
    + apply list_lookup_insert_eq. simpl in Hlen. lia.
Qed.

(** ** [std::remove] and [erase] *)

Lemma find_le vec value : (std.find vec value ≤ length vec)%nat.
Proof. induction vec as [|x vec IH]; simpl; [lia|]. case_bool_decide; lia. Qed.

Lemma find_lookup vec value :
  std.find vec value ≠ length vec → vec !! std.find vec value = Some value.
Proof.
  induction vec as [|x vec IH]; simpl; [done|].
  case_bool_decide as E; simpl; [by rewrite E | intros H; apply IH; lia].
Qed.

Lemma find_take vec value :
  filter (λ x, x ≠ value) (take (std.find vec value) vec)
  = take (std.find vec value) vec.
Proof.
  induction vec as [|x vec IH]; simpl; [done|].
  case_bool_decide as E; simpl; [done|].
  rewrite filter_cons_True by done. by rewrite IH.
Qed.

Lemma remove_loop_spec n : ∀ (i : nat) value vec (first : nat),
  (first < i)%nat → (i + n)%nat = length vec →
  ∀ vec' new_end, std.remove_loop n i value vec first = (vec', new_end) →
  length vec' = length vec ∧
  take new_end vec' = take first vec ++ filter (λ x, x ≠ value) (drop i vec).
Proof.
  induction n as [|n IH]; intros i value vec first Hfi Hin vec' new_end; simpl.
  - intros [= <- <-]. rewrite drop_ge by lia. rewrite app_nil_r. done.
  - destruct (vec !! i) as [x|] eqn:Hx; last first.
    { apply lookup_ge_None in Hx. lia. }
    rewrite (drop_S _ _ _ Hx).
    case_bool_decide as E.
    + intros H. apply IH in H; [|lia..].
      rewrite filter_cons_False by (intros ?; done). done.
    + intros H. apply IH in H; [|lia|rewrite length_insert; lia].
      destruct H as [Hl Ht]. rewrite length_insert in Hl. split; [done|].
      rewrite Ht. rewrite filter_cons_True by done.
      rewrite drop_insert_lt by lia.
      assert (Hfl : (first < length vec)%nat) by lia.
      destruct (lookup_lt_is_Some_2 vec first Hfl) as [y Hy].
      rewrite (take_S_r (<[first:=x]> vec) first x)
        by (by apply list_lookup_insert_eq).
      rewrite take_insert_ge by lia. rewrite <- app_assoc. done.
Qed.

Lemma remove_erase_filter vec v :
  algorithm.remove_erase vec v = filter (λ x, x ≠ v) vec.
Proof.
  unfold algorithm.remove_erase, std.remove, std.erase.
  pose proof (find_le vec v) as Hle.
  case_bool_decide as E.
  - destruct (std.remove_loop _ _ _ _ _) as [vec' new_end] eqn:H.
    apply remove_loop_spec in H as [Hl Ht]; [|lia..].
    rewrite drop_all, app_nil_r, Ht.
    pose proof (find_lookup vec v E) as Hv.
    transitivity (filter (λ x, x ≠ v)
      (take (std.find vec v) vec ++ v :: drop (S (std.find vec v)) vec)).
    + rewrite filter_app, find_take, filter_cons_False by (intros ?; done).
      done.
    + by rewrite (take_drop_middle vec _ _ Hv).
  - rewrite drop_all, app_nil_r.
    pose proof (find_take vec v) as Hf. rewrite E, firstn_all in Hf |- *.
    done.
Qed.

(** ** [std::sort] *)

Lemma linear_insert_Permutation val sorted :
  std.linear_insert val sorted ≡ₚ val :: sorted.
Proof.
  induction sorted as [|x sorted IH]; simpl; [done|].
  case_bool_decide; [done|]. rewrite IH. apply Permutation_swap.
Qed.

Lemma linear_insert_Sorted val sorted :
  Sorted Z.le sorted → Sorted Z.le (std.linear_insert val sorted).
Proof.
  induction 1 as [|x sorted Hs IH Hhd]; simpl.
  - repeat constructor.
  - case_bool_decide as E.
    + constructor; [by constructor|]. constructor. lia.
    + constructor; [done|].
      destruct Hhd as [|y sorted' Hxy]; simpl.
      * constructor. lia.
      * case_bool_decide; constructor; lia.
Qed.

Lemma sort_acc_spec vec : ∀ acc,
  Sorted Z.le acc →
  Sorted Z.le (foldl (λ sorted val, std.linear_insert val sorted) acc vec) ∧
  foldl (λ sorted val, std.linear_insert val sorted) acc vec ≡ₚ acc ++ vec.
Proof.
  induction vec as [|x vec IH]; intros acc Hacc; simpl.
  - by rewrite app_nil_r.
  - destruct (IH (std.linear_insert x acc)) as [Hs Hp].
    { by apply linear_insert_Sorted. }
    split; [done|]. rewrite Hp, linear_insert_Permutation. simpl.
    apply Permutation_middle.
Qed.

Lemma sort_Sorted vec : Sorted Z.le (std.sort vec).
Proof. apply (sort_acc_spec vec []). constructor. Qed.

Lemma sort_Permutation vec : std.sort vec ≡ₚ vec.
Proof. apply (sort_acc_spec vec []). constructor. Qed.

(** An [int] vector has one ascending arrangement: whatever algorithm the
    library runs, its result is the vector [std.sort] returns. *)
Lemma sort_unique (vec result : list Z) :
  Sorted Z.le result → result ≡ₚ vec → result = std.sort vec.
Proof.
  intros Hs Hp. apply (Sorted_unique Z.le); [done|apply sort_Sorted|].
  by rewrite Hp, sort_Permutation.
Qed.

(** C2. [std::sort(sortVec.begin(), sortVec.end())] leaves every [int] vector
    in ascending order and a permutation of its input; the demonstrated
    vector {8, 1, 4, 3, 7, 2, 5, 6} becomes {1, 2, 3, 4, 5, 6, 7, 8}. *)
Theorem sort_ascending_permutation :
  (∀ vec : list Z, Sorted Z.le (std.sort vec) ∧ std.sort vec ≡ₚ vec) ∧
  std.sort algorithm.sortVec = [1; 2; 3; 4; 5; 6; 7; 8] ∧
  algorithm.sort_section =
    printVector "Original" [8; 1; 4; 3; 7; 2; 5; 6]
    ++ printVector "After sort" [1; 2; 3; 4; 5; 6; 7; 8].
Proof.
  split; [|split; reflexivity].
  intros vec. split; [apply sort_Sorted | apply sort_Permutation].
Qed.

(** C3, the input on which the claim fails: the elements 2147483647 and 1 are
    both [int]s, their mathematical sum 2147483648 is not, and the addition
    inside [std::accumulate] overflows. *)
Lemma accumulate_overflow :
  ints [2147483647; 1] ∧
  numeric.sum [2147483647; 1] ≠ Some (math_sum [2147483647; 1]).
Proof. split; [by repeat constructor | by vm_compute]. Qed.

(** C3, as amended. [std::accumulate(first, last, 0)] returns the
    mathematical sum of the vector whenever the running totals fit in an
    [int]; for {1, 2, 3, 4, 5} it returns 15. *)
Theorem accumulate_sum_in_range (v : list Z) :
  totals_in_range v →
  numeric.sum v = Some (math_sum v) ∧ numeric.sum numeric.myVec = Some 15.
Proof.
  intros H. split; [|reflexivity].
  unfold numeric.sum. rewrite (accumulate_in_range v 0); [done|].
  intros k Hk. rewrite Z.add_0_l. apply H. lia.
Qed.

Lemma accumulate_sum_in_range_witness :
  totals_in_range [1; 2; 3; 4; 5] ∧ numeric.sum [1; 2; 3; 4; 5] = Some 15.
Proof.
  assert (H : totals_in_range [1; 2; 3; 4; 5]).
  { intros k Hk. do 6 (destruct k as [|k]; [reflexivity|]). simpl in Hk. lia. }
  split; [exact H|]. exact (proj1 (accumulate_sum_in_range [1; 2; 3; 4; 5] H)).
Defined.

(** C9. The remove-erase idiom leaves the vector equal to the subsequence of
    its elements that differ from [v], in their original order; for
    {1, 2, 3, 2, 4, 5, 2} and 2 the result is {1, 3, 4, 5}. *)
Theorem remove_erase_subsequence :
  (∀ (vec : list Z) (v : Z),
     algorithm.remove_erase vec v = filter (λ x, x ≠ v) vec) ∧
  algorithm.remove_erase algorithm.removeVec 2 = [1; 3; 4; 5].
Proof. split; [apply remove_erase_filter | reflexivity]. Qed.

(** C10. For every non-empty [int] vector the last element [partial_sum]
    writes equals what [accumulate] returns from 0 (both are undefined on the
    same vectors, those where a running total overflows); for
    {1, 2, 3, 4, 5} the partial sums are {1, 3, 6, 10, 15} and the sum is
    15. *)
Theorem partial_sum_last_accumulate (v : list Z) :
  v ≠ [] → ints v →
  numeric.partialSumVec v ≫= last = numeric.sum v ∧
  numeric.partialSumVec numeric.myVec = Some [1; 3; 6; 10; 15] ∧
  numeric.sum numeric.myVec = Some 15.
Proof.
  intros Hne Hint. split; [|split; reflexivity].
  destruct v as [|x rest]; [done|].
  unfold numeric.partialSumVec, numeric.sum. simpl.
  apply Forall_cons in Hint as [Hx _]. rewrite (add_0_l x Hx). simpl.
  apply partial_sum_loop_last; simpl; [by rewrite length_replicate | done].
Qed.

Lemma partial_sum_last_accumulate_witness :
  numeric.partialSumVec [4; -1; 7] ≫= last = numeric.sum [4; -1; 7].
Proof.
  refine (proj1 (partial_sum_last_accumulate [4; -1; 7] _ _)).
  - discriminate.
  - repeat constructor.
Defined.

(** ** Checked element access *)

Lemma stderr_of_app t1 t2 : stderr_of (t1 ++ t2) = stderr_of t1 ++ stderr_of t2.
Proof. unfold stderr_of. apply omap_app. Qed.

Lemma stderr_of_cout xs : stderr_of (cout xs) = [].
Proof. induction xs as [|x xs IH]; [done|]. unfold stderr_of, cout in *. simpl. done. Qed.

Lemma stderr_of_bind {A : Type} (l : list A) (f : A → list event) :
  (∀ x, stderr_of (f x) = []) → stderr_of (l ≫= f) = [].
Proof.
  intros Hf. induction l as [|x l IH]; [done|].
  rewrite bind_cons, stderr_of_app, IH, Hf. done.
Qed.

Lemma stderr_of_Cout x t : stderr_of (Cout x :: t) = stderr_of t.
Proof. reflexivity. Qed.

(** The [try] block and the control flow of vector.cpp do not depend on the
    library's choices; nor do those of unordered_map.cpp. *)
Lemma vector_main_stderr (impl : Implementation) :
  completes_normally vector.main ∧ stderr_of vector.main.2 = [].
Proof. split; reflexivity. Qed.

Lemma unordered_map_main_stderr (impl : Implementation) :
  completes_normally unordered_map.main ∧ stderr_of unordered_map.main.2 = [].
Proof.
  split; [reflexivity|].
  unfold unordered_map.main, unordered_map.print_entries. simpl.
  repeat first
    [ rewrite stderr_of_app
    | rewrite stderr_of_bind by (intros; reflexivity)
    | rewrite stderr_of_Cout ].
  reflexivity.
Qed.

(** C1, the program on which the claim fails: vector.cpp.  After Part 1 the
    vector holds {0, 10, 20, 30, 40}; the only access inside the [try] block
    is [at(2)], which returns 20 (the access at index 10 is commented out),
    so no exception reaches the handler and nothing is written to
    [std::cerr]. *)
Lemma vector_at_never_throws :
  (vector.part1 (impl := reference_implementation)).1
    = Normal {| vector.elems := [0; 10; 20; 30; 40]; vector.capacity := 5 |} ∧
  vector.at_ {| vector.elems := [0; 10; 20; 30; 40]; vector.capacity := 5 |} 2
    = mret 20 ∧
  caught (vector.try_block
            {| vector.elems := [0; 10; 20; 30; 40]; vector.capacity := 5 |})
         is_out_of_range ≠ Some out_of_range ∧
  stderr_of (vector.main (impl := reference_implementation)).2 = [].
Proof. repeat split; try reflexivity. discriminate. Qed.

(** C1, as amended.  string_view.cpp performs the out-of-range access
    [at(10)] on a view of 6 characters: it raises [std::out_of_range], the
    surrounding handler catches it and the program runs to completion.
    vector.cpp, array.cpp, map.cpp and unordered_map.cpp only perform an
    in-range [at()] inside their [try] block: nothing is raised, the handler
    never runs, and each program runs to completion. *)
Theorem checked_access_by_program (impl : Implementation) :
  (* string_view.cpp *)
  (string_view.at_ (string_view.of_string "access") 10 = throw out_of_range ∧
   caught (string_view.try_block (string_view.of_string "access")) is_out_of_range
     = Some out_of_range ∧
   completes_normally string_view.main ∧
   stderr_of string_view.main.2
     = [OStr "Caught exception from at(): "; OWhat out_of_range; OStr nl]) ∧
  (* vector.cpp *)
  ((∃ c, vector.part1.1 = Normal {| vector.elems := [0; 10; 20; 30; 40];
                                    vector.capacity := c |}) ∧
   (∀ c, caught (vector.try_block {| vector.elems := [0; 10; 20; 30; 40];
                                     vector.capacity := c |}) is_out_of_range
         = None) ∧
   completes_normally vector.main ∧ stderr_of vector.main.2 = []) ∧
  (* array.cpp *)
  (caught (array.try_block [10; 20; 30; 40; 50]) is_out_of_range = None ∧
   completes_normally array.main ∧ stderr_of array.main.2 = []) ∧
  (* map.cpp *)
  (caught (map.try_block
             [("apple", 5); ("banana", 2); ("cherry", 3); ("durian", 4)])
          is_out_of_range = None ∧
   completes_normally map.main ∧ stderr_of map.main.2 = []) ∧
  (* unordered_map.cpp *)
  (caught (unordered_map.try_block
             [("apple", 5); ("banana", 2); ("cherry", 3); ("durian", 4);
              ("elderberry", 6)])
          is_out_of_range = None ∧
   completes_normally unordered_map.main ∧ stderr_of unordered_map.main.2 = []).
Proof.
  split; [repeat split; reflexivity|].
  split; [split; [eexists; reflexivity|];
          split; [intros c; reflexivity | apply vector_main_stderr]|].
  split; [repeat split; reflexivity|].
  split; [repeat split; reflexivity|].
  split; [reflexivity | apply unordered_map_main_stderr].
Qed.

(** ** Access failures of [std::optional] and [std::future] *)

(** C6. [value()] on an empty optional raises [std::bad_optional_access],
    which the handler of optional.cpp catches; [get()] on the future of a
    promise that received an exception through [set_exception] rethrows that
    [std::runtime_error], which the handler of future.cpp catches. *)
Theorem optional_future_failures_caught :
  (* optional.cpp *)
  (optional.value (None : option Z) = throw bad_optional_access ∧
   caught (optional.try_block (optional.find_first_even [1; 3; 5; 8; 10]))
          is_bad_optional_access = Some bad_optional_access ∧
   optional.checked_access (optional.find_first_even [1; 3; 5; 8; 10])
     = (Normal (),
        cout [OStr "  Using value(): "; OInt 8; OStr nl;
              OStr (line "  Trying to access empty_opt.value()...")]
        ++ cerr [OStr "  Caught exception: "; OWhat bad_optional_access; OStr nl]) ∧
   completes_normally optional.main) ∧
  (* future.cpp *)
  (future.exception_producer future.NotReady
     = (Normal (future.Exception
                  (runtime_error "An error occurred during calculation!")),
        cout [OStr (line "  Task started, but will throw an exception.")]) ∧
   (∀ e, future.get (future.set_exception future.NotReady e) = throw e) ∧
   caught (future.try_block
             (future.Exception
                (runtime_error "An error occurred during calculation!")))
          is_std_exception
     = Some (runtime_error "An error occurred during calculation!") ∧
   future.promise_with_error_section
     = (Normal (),
        cout [OStr (line "  Task started, but will throw an exception.");
              OStr "  Caught expected exception from promise: ";
              OWhat (runtime_error "An error occurred during calculation!");
              OStr (line nl)])).
Proof. repeat split; reflexivity. Qed.

(** ** The binary round trip of fstream.cpp *)

(** C4. [example_read_write] writes the four bytes of the [int] 12345 to
    binary.dat and reads four bytes back into [recovered], which then holds
    12345 again: whatever the files were before and whatever the byte order,
    the example prints 12345 and leaves binary.dat holding those bytes. *)
Theorem binary_round_trip (impl : Implementation) (fs : fstream.files) :
  String.length (fstream.int_to_raw 12345) = 4%nat ∧
  fstream.raw_into_int (fstream.int_to_raw 12345) 0 = 12345 ∧
  fstream.example_read_write fs
    = (Normal (), cout [OStr "Recovered number: "; OInt 12345; Endl],
       <["binary.dat" := fstream.int_to_raw 12345]> fs).
Proof.
  unfold fstream.example_read_write, fstream.raw_into_int, fstream.int_to_raw.
  destruct big_endian; (split; [reflexivity|]; split; [reflexivity|]).
  all: unfold mbind, fstream.IO_bind, fstream.ofstream, fstream.close,
         fstream.flush, fstream.ifstream, mret, fstream.IO_ret; simpl.
  all: rewrite lookup_insert_eq; simpl.
  all: by rewrite insert_insert_eq.
Qed.

(** ** The object representation of an [int] *)

Lemma lor_shiftl_8 a b :
  0 ≤ a < 256 → 0 ≤ b → Z.lor a (Z.shiftl b 8) = a + 256 * b.
Proof.
  intros Ha Hb. rewrite Z.shiftl_mul_pow2 by lia. change (2 ^ 8) with 256.
  rewrite <- Z.lxor_lor, <- Z.add_nocarry_lxor; [lia| |].
  all: apply Z.bits_inj'; intros k Hk; rewrite Z.land_spec, Z.bits_0.
  all: destruct (Z.lt_ge_cases k 8) as [Hlt|Hge].
  all: try (replace (b * 256) with (b * 2 ^ 8) by lia;
            rewrite (Z.mul_pow2_bits_low b 8 k) by lia; apply andb_false_r).
  all: rewrite (Z.bits_above_log2 a k); [done|lia|].
  all: destruct (decide (a = 0)) as [->|?]; [simpl; lia|].
  all: apply Z.log2_lt_pow2; [lia|]; apply Z.lt_le_trans with (2 ^ 8);
         [simpl; lia|]; apply Z.pow_le_mono_r; lia.
Qed.

Lemma byte_of_ascii_of_byte x :
  0 ≤ x < 256 → Z.of_N (N_of_ascii (ascii_of_N (Z.to_N x))) = x.
Proof. intros H. rewrite N_ascii_embedding by lia. lia. Qed.

Lemma byte_of_ascii_range c : 0 ≤ Z.of_N (N_of_ascii c) < 256.
Proof. pose proof (N_ascii_bounded c). lia. Qed.

Lemma low_byte x : Z.land x 255 = x mod 256.
Proof. apply (Z.land_ones x 8). lia. Qed.

Lemma bytes_sum n :
  n mod 256
  + 256 * ((n / 256) mod 256
           + 256 * ((n / 65536) mod 256
                    + 256 * ((n / 16777216) mod 256 + 256 * 0)))
  = n mod 4294967296.
Proof. Z.div_mod_to_equations. lia. Qed.

(** The four bytes of an [int] determine it. *)
Lemma int_of_bytes_le_int_bytes_le n :
  Int.in_range n = true → fstream.int_of_bytes_le (fstream.int_bytes_le n) = n.
Proof.
  intros Hn%in_range_spec. unfold Int.INT_MIN, Int.INT_MAX in Hn.
  unfold fstream.int_of_bytes_le, fstream.int_bytes_le.
  cbn [fmap list_fmap foldr].
  rewrite !low_byte, !Z.shiftr_div_pow2 by lia.
  change (2 ^ (8 * 0)) with 1. change (2 ^ (8 * 1)) with 256.
  change (2 ^ (8 * 2)) with 65536. change (2 ^ (8 * 3)) with 16777216.
  rewrite Z.div_1_r.
  rewrite !byte_of_ascii_of_byte by (apply Z.mod_pos_bound; lia).
  rewrite Z.shiftl_0_l, Z.lor_0_r.
  rewrite !lor_shiftl_8;
    repeat first [ apply Z.mod_pos_bound; lia
                 | apply Z.lor_nonneg; split
                 | apply Z.shiftl_nonneg
                 | apply Z.add_nonneg_nonneg
                 | apply Z.mul_nonneg_nonneg
                 | lia
                 | apply Z.mod_pos_bound ].
  pose proof (bytes_sum n) as Hs. rewrite Z.mul_0_r, Z.add_0_r in Hs.
  rewrite Hs. case_bool_decide; Z.div_mod_to_equations; lia.
Qed.

Lemma length_string_of_list_ascii (l : list ascii) :
  String.length (string_of_list_ascii l) = length l.
Proof. induction l as [|c l IH]; simpl; congruence. Qed.

(** Whatever the byte order, reading back the bytes of an [int] gives the
    [int], whatever the variable held before. *)
Lemma raw_round_trip (impl : Implementation) (n m : Z) :
  Int.in_range n = true →
  fstream.raw_into_int (fstream.int_to_raw n) m = n.
Proof.
  intros Hn. unfold fstream.raw_into_int, fstream.int_to_raw.
  rewrite !list_ascii_of_string_of_list_ascii.
  assert (Hlen : ∀ k, length (fstream.int_bytes_le k) = 4%nat) by done.
  rewrite length_string_of_list_ascii.
  destruct big_endian.
  - rewrite drop_ge by (rewrite !length_reverse, !Hlen; lia).
    rewrite app_nil_r, take_ge by (rewrite length_reverse, Hlen; lia).
    rewrite reverse_involutive. by apply int_of_bytes_le_int_bytes_le.
  - rewrite drop_ge by (rewrite !Hlen; lia).
    rewrite app_nil_r, take_ge by (rewrite Hlen; lia).
    by apply int_of_bytes_le_int_bytes_le.
Qed.

(** ** The read loops always have fuel enough *)

Lemma length_substring (s : string) : ∀ n m,
  String.length (substring n m s) = Nat.min m (String.length s - n).
Proof.
  induction s as [|c s IH]; intros [|n] [|m];
    cbn [substring String.length]; rewrite ?IH;
    rewrite ?Nat.sub_0_r, ?Nat.min_0_l, ?Nat.min_0_r; done.
Qed.

Lemma length_remaining s :
  String.length (fstream.remaining s)
  = (String.length (fstream.data s) - fstream.pos s)%nat.
Proof. unfold fstream.remaining. rewrite length_substring. lia. Qed.

Lemma get_Some_lt (s : string) : ∀ n c,
  String.get n s = Some c → (n < String.length s)%nat.
Proof.
  induction s as [|c' s IH]; intros [|n] c; simpl; try done; [lia|].
  intros H%IH. lia.
Qed.

Lemma split_line_length (cs : string) : ∀ l rest,
  fstream.split_line cs = (l, Some rest) →
  String.length cs = (String.length l + 1 + String.length rest)%nat.
Proof.
  induction cs as [|c cs IH]; intros l rest; simpl; [done|].
  destruct (Ascii.eqb c _).
  - intros [= <- <-]. simpl. lia.
  - destruct (fstream.split_line cs) as [l' [rest'|]]; intros [= <- <-].
    simpl. rewrite (IH l' rest' eq_refl). lia.
Qed.

Lemma while_getline_fuel_S fuel s line body :
  fstream.while_getline_fuel (S fuel) s line body
  = let '(s1, line1) := fstream.getline s line in
    if fstream.fail s1 then (s1, [])
    else let '(s', t) := fstream.while_getline_fuel fuel s1 line1 body in
         (s', body line1 ++ t).
Proof. reflexivity. Qed.

Lemma while_get_fuel_S fuel s body :
  fstream.while_get_fuel (S fuel) s body
  = match fstream.get s with
    | (s1, Some ch) =>
        let '(s', t) := fstream.while_get_fuel fuel s1 body in (s', body ch ++ t)
    | (s1, None) => (s1, [])
    end.
Proof. reflexivity. Qed.

Lemma getline_rounds s line s1 line1 :
  fstream.getline s line = (s1, line1) → fstream.fail s1 = false →
  (rounds_getline s1 < rounds_getline s)%nat.
Proof.
  unfold fstream.getline, rounds_getline.
  destruct (fstream.good s) eqn:Hg; last first.
  { intros [= <- <-]. unfold fstream.fail. simpl. done. }
  destruct (fstream.split_line (fstream.remaining s)) as [l [rest|]] eqn:Hl.
  - intros [= <- <-] _. apply split_line_length in Hl.
    replace (fstream.good (fstream.advance s _)) with true by done.
    rewrite !length_remaining in *. simpl. lia.
  - case_bool_decide.
    + intros [= <- <-]. unfold fstream.fail. simpl. done.
    + intros [= <- <-] _. unfold fstream.good at 1. simpl. lia.
Qed.

Lemma while_getline_fuel_line fuel s line line' body :
  fstream.while_getline_fuel fuel s line body
  = fstream.while_getline_fuel fuel s line' body.
Proof.
  destruct fuel as [|fuel]; [done|]. simpl. unfold fstream.getline.
  destruct (fstream.good s); [done|].
  replace (fstream.fail (fstream.set_fail s)) with true; [done|].
  unfold fstream.fail. simpl. done.
Qed.

Lemma while_getline_fuel_enough body fuel : ∀ fuel' s line,
  (rounds_getline s ≤ fuel)%nat → (rounds_getline s ≤ fuel')%nat →
  fstream.while_getline_fuel fuel s line body
  = fstream.while_getline_fuel fuel' s line body.
Proof.
  induction fuel as [|fuel IH]; intros fuel' s line Hf Hf'.
  { unfold rounds_getline in Hf. destruct (fstream.good s); lia. }
  destruct fuel' as [|fuel'].
  { unfold rounds_getline in Hf'. destruct (fstream.good s); lia. }
  rewrite !while_getline_fuel_S.
  destruct (fstream.getline s line) as [s1 line1] eqn:E.
  destruct (fstream.fail s1) eqn:Hfail; [done|].
  pose proof (getline_rounds _ _ _ _ E Hfail).
  rewrite (IH fuel' s1 line1) by lia. done.
Qed.

(** [while_getline] is the loop: one [getline], and the loop again if it
    succeeded. *)
Lemma while_getline_unfold s body :
  fstream.while_getline s body
  = let '(s1, line) := fstream.getline s EmptyString in
    if fstream.fail s1 then (s1, [])
    else let '(s', t) := fstream.while_getline s1 body in (s', body line ++ t).
Proof.
  unfold fstream.while_getline.
  change (2 + String.length (fstream.remaining s))%nat
    with (S (1 + String.length (fstream.remaining s))).
  rewrite while_getline_fuel_S.
  destruct (fstream.getline s EmptyString) as [s1 line] eqn:E.
  destruct (fstream.fail s1) eqn:Hfail; [done|].
  pose proof (getline_rounds _ _ _ _ E Hfail) as Hlt.
  rewrite (while_getline_fuel_line _ s1 line EmptyString).
  rewrite (while_getline_fuel_enough body _
             (2 + String.length (fstream.remaining s1)) s1 EmptyString); [done|..].
  - unfold rounds_getline in *.
    destruct (fstream.good s), (fstream.good s1); lia.
  - unfold rounds_getline. destruct (fstream.good s1); lia.
Qed.

Lemma get_rounds s s1 ch :
  fstream.get s = (s1, Some ch) → (rounds_get s1 < rounds_get s)%nat.
Proof.
  unfold fstream.get, rounds_get.
  destruct (fstream.good s) eqn:Hg; [|done].
  destruct (String.get _ _) as [c|] eqn:Hc; [|done].
  intros [= <- <-]. apply get_Some_lt in Hc.
  replace (fstream.good (fstream.advance s 1)) with true by done.
  rewrite !length_remaining. simpl. lia.
Qed.

Lemma while_get_fuel_enough body fuel : ∀ fuel' s,
  (rounds_get s ≤ fuel)%nat → (rounds_get s ≤ fuel')%nat →
  fstream.while_get_fuel fuel s body = fstream.while_get_fuel fuel' s body.
Proof.
  induction fuel as [|fuel IH]; intros fuel' s Hf Hf'.
  { unfold rounds_get in Hf. destruct (fstream.good s); lia. }
  destruct fuel' as [|fuel'].
  { unfold rounds_get in Hf'. destruct (fstream.good s); lia. }
  rewrite !while_get_fuel_S.
  destruct (fstream.get s) as [s1 [ch|]] eqn:E; [|done].
  pose proof (get_rounds _ _ _ E).
  rewrite (IH fuel' s1) by lia. done.
Qed.

(** [while_get] is the loop: one [get], and the loop again if it
    succeeded. *)
Lemma while_get_unfold s body :
  fstream.while_get s body
  = match fstream.get s with
    | (s1, Some ch) =>
        let '(s', t) := fstream.while_get s1 body in (s', body ch ++ t)
    | (s1, None) => (s1, [])
    end.
Proof.
  unfold fstream.while_get.
  change (1 + String.length (fstream.remaining s))%nat
    with (S (String.length (fstream.remaining s))).
  rewrite while_get_fuel_S.
  destruct (fstream.get s) as [s1 [ch|]] eqn:E; [|done].
  pose proof (get_rounds _ _ _ E) as Hlt.
  rewrite (while_get_fuel_enough body _
             (1 + String.length (fstream.remaining s1)) s1); [done|..].
  - unfold rounds_get in *.
    destruct (fstream.good s), (fstream.good s1); lia.
  - unfold rounds_get. destruct (fstream.good s1); lia.
Qed.

(** ** Streams keep their file *)

Create HintDb streams.

Section stream_facts.
Variable p : string.

Lemma harmless_same s s' :
  fstream.name s' = fstream.name s → fstream.writes s' = fstream.writes s →
  harmless p s → harmless p s'.
Proof. unfold harmless. intros -> ->. done. Qed.

Lemma harmless_set_fail s : harmless p s → harmless p (fstream.set_fail s).
Proof. by apply harmless_same. Qed.

Lemma harmless_set_eof_fail s : harmless p s → harmless p (fstream.set_eof_fail s).
Proof. by apply harmless_same. Qed.

Lemma harmless_advance s n : harmless p s → harmless p (fstream.advance s n).
Proof. by apply harmless_same. Qed.

Lemma harmless_write s cs : harmless p s → harmless p (fstream.write s cs).
Proof. unfold fstream.write. case_match; by apply harmless_same. Qed.

Lemma harmless_put s c : harmless p s → harmless p (fstream.put s c).
Proof. apply harmless_write. Qed.

Lemma harmless_seekg s n : harmless p s → harmless p (fstream.seekg s n).
Proof. unfold fstream.seekg. case_match; by apply harmless_same. Qed.

Lemma harmless_seekp s n : harmless p s → harmless p (fstream.seekp s n).
Proof. unfold fstream.seekp. case_match; [done | by apply harmless_same]. Qed.

Lemma harmless_after s rest : harmless p s → harmless p (fstream.after s rest).
Proof. unfold fstream.after. case_match; by apply harmless_same. Qed.

Ltac harmless_flags :=
  repeat lazymatch goal with
    | |- harmless _ (fstream.set_fail _) => apply harmless_set_fail
    | |- harmless _ (fstream.set_eof_fail _) => apply harmless_set_eof_fail
    | |- harmless _ (fstream.after _ _) => apply harmless_after
    | |- harmless _ _ => assumption
    end.

Lemma harmless_get s s' c :
  fstream.get s = (s', c) → harmless p s → harmless p s'.
Proof.
  unfold fstream.get. repeat case_match; intros [= <- <-]; by apply harmless_same.
Qed.

Lemma harmless_read s n s' cs :
  fstream.read s n = (s', cs) → harmless p s → harmless p s'.
Proof.
  unfold fstream.read. repeat case_match; intros [= <- <-]; by apply harmless_same.
Qed.

Lemma harmless_getline s line s' line' :
  fstream.getline s line = (s', line') → harmless p s → harmless p s'.
Proof.
  unfold fstream.getline. repeat case_match; intros [= <- <-]; by apply harmless_same.
Qed.

Lemma harmless_while_getline_fuel fuel body : ∀ s line s' t,
  fstream.while_getline_fuel fuel s line body = (s', t) →
  harmless p s → harmless p s'.
Proof.
  induction fuel as [|fuel IH]; intros s line s' t; simpl.
  - by intros [= <- <-].
  - destruct (fstream.getline s line) as [s1 line1] eqn:E1.
    destruct (fstream.fail s1).
    + intros [= <- <-] H. by eapply harmless_getline.
    + destruct (fstream.while_getline_fuel fuel s1 line1 body) as [s2 t2] eqn:E2.
      intros [= <- <-] H. eapply IH; [done|]. by eapply harmless_getline.
Qed.

Lemma harmless_while_getline s body s' t :
  fstream.while_getline s body = (s', t) → harmless p s → harmless p s'.
Proof. apply harmless_while_getline_fuel. Qed.

Lemma harmless_while_get_fuel fuel body : ∀ s s' t,
  fstream.while_get_fuel fuel s body = (s', t) → harmless p s → harmless p s'.
Proof.
  induction fuel as [|fuel IH]; intros s s' t; simpl.
  - by intros [= <- <-].
  - destruct (fstream.get s) as [s1 [ch|]] eqn:E1.
    + destruct (fstream.while_get_fuel fuel s1 body) as [s2 t2] eqn:E2.
      intros [= <- <-] H. eapply IH; [done|]. by eapply harmless_get.
    + intros [= <- <-] H. by eapply harmless_get.
Qed.

Lemma harmless_while_get s body s' t :
  fstream.while_get s body = (s', t) → harmless p s → harmless p s'.
Proof. apply harmless_while_get_fuel. Qed.

Lemma harmless_extract_int s s' i :
  fstream.extract_int s = (s', i) → harmless p s → harmless p s'.
Proof.
  unfold fstream.extract_int. repeat case_match; intros [= <- <-] Hs;
    harmless_flags.
Qed.

Lemma harmless_extract_double (impl : Implementation) s s' d :
  fstream.extract_double s = (s', d) → harmless p s → harmless p s'.
Proof.
  unfold fstream.extract_double. repeat case_match; intros [= <- <-] Hs;
    harmless_flags.
Qed.

End stream_facts.

#[local] Hint Resolve harmless_write harmless_put harmless_seekg harmless_seekp
  harmless_get harmless_read harmless_getline harmless_while_getline
  harmless_while_get harmless_extract_int harmless_extract_double : streams.

(** ** A file the computation leaves alone *)

Section untouched_rules.
Variable p : string.

Lemma untouched_ret {A : Type} (a : A) (Q : A → Prop) :
  Q a → untouched p (mret a) Q.
Proof. intros HQ fs. split; [done|]. by intros ? [= <-]. Qed.

Lemma untouched_out t (Q : unit → Prop) : Q () → untouched p (fstream.out t) Q.
Proof. intros HQ fs. split; [done|]. by intros [] _. Qed.

Lemma untouched_initialised {A : Type} (o : option A) :
  untouched p (fstream.initialised o) (λ _, True).
Proof. intros fs. by destruct o. Qed.

Lemma untouched_ifstream q : untouched p (fstream.ifstream q) (harmless p).
Proof.
  intros fs. unfold fstream.ifstream.
  destruct (fs !! q); (split; [done|]); intros ? [= <-]; by left.
Qed.

Lemma untouched_ofstream q : q ≠ p → untouched p (fstream.ofstream q) (harmless p).
Proof.
  intros Hq fs. unfold fstream.ofstream. simpl. split.
  - by apply lookup_insert_ne.
  - intros s [= <-]. by right.
Qed.

Lemma untouched_fstream_trunc q :
  q ≠ p → untouched p (fstream.fstream_trunc q) (harmless p).
Proof. apply untouched_ofstream. Qed.

Lemma untouched_fstream_in_out q :
  q ≠ p → untouched p (fstream.fstream_in_out q) (harmless p).
Proof.
  intros Hq fs. unfold fstream.fstream_in_out.
  destruct (fs !! q); (split; [done|]); intros ? [= <-]; [by right | by left].
Qed.

Lemma untouched_flush s :
  harmless p s → untouched p (fstream.flush s) (λ _, True).
Proof.
  intros Hs fs. unfold fstream.flush. simpl. split; [|done].
  destruct (fstream.is_open s); simpl; [|done].
  destruct Hs as [-> | Hs]; [done|].
  destruct (fstream.writes s); [|done]. by apply lookup_insert_ne.
Qed.

Lemma untouched_bind {A B : Type} (a : fstream.IO A) (k : A → fstream.IO B)
    (Q : A → Prop) (Q' : B → Prop) :
  untouched p a Q → (∀ x, Q x → untouched p (k x) Q') →
  untouched p (a ≫= k) Q'.
Proof.
  intros Ha Hk fs. unfold mbind, fstream.IO_bind.
  destruct (Ha fs) as [Hfs HQ].
  destruct (a fs) as [[[x| |] t] fs1]; simpl in *; [|done..].
  destruct (Hk x (HQ x eq_refl) fs1) as [Hfs1 HQ'].
  destruct (k x fs1) as [[r t'] fs2]; simpl in *.
  split; [congruence | done].
Qed.

Lemma untouched_weaken {A : Type} (m : fstream.IO A) (Q Q' : A → Prop) :
  untouched p m Q → (∀ a, Q a → Q' a) → untouched p m Q'.
Proof. intros Hm HQ fs. destruct (Hm fs) as [? H]. split; [done|]. eauto. Qed.

Lemma untouched_close s :
  harmless p s → untouched p (fstream.close s) (harmless p).
Proof.
  intros Hs. unfold fstream.close.
  eapply untouched_bind; [by apply untouched_flush|].
  intros _ _. apply untouched_ret. revert Hs. by apply harmless_same.
Qed.

Lemma untouched_endl s :
  harmless p s → untouched p (fstream.endl s) (harmless p).
Proof.
  intros Hs. unfold fstream.endl.
  eapply untouched_bind; [by apply untouched_flush, harmless_write|].
  intros _ _. by apply untouched_ret, harmless_write.
Qed.

End untouched_rules.

(** ** Files the computation does not depend on *)

Section indifferent_rules.
Variable K : gset string.

Lemma indifferent_ret {A : Type} (a : A) : indifferent K (mret a) K.
Proof. intros fs fs' H. done. Qed.

Lemma indifferent_out t : indifferent K (fstream.out t) K.
Proof. intros fs fs' H. done. Qed.

Lemma indifferent_initialised {A : Type} (o : option A) :
  indifferent K (fstream.initialised o) K.
Proof. intros fs fs' H. by destruct o. Qed.

Lemma indifferent_ifstream q : q ∈ K → indifferent K (fstream.ifstream q) K.
Proof.
  intros Hq fs fs' H. unfold fstream.ifstream. rewrite <- (H q Hq).
  by destruct (fs !! q).
Qed.

Lemma indifferent_fstream_in_out q :
  q ∈ K → indifferent K (fstream.fstream_in_out q) K.
Proof.
  intros Hq fs fs' H. unfold fstream.fstream_in_out. rewrite <- (H q Hq).
  by destruct (fs !! q).
Qed.

Lemma agree_insert q cs fs fs' :
  agree K fs fs' → agree ({[q]} ∪ K) (<[q := cs]> fs) (<[q := cs]> fs').
Proof.
  intros H k Hk. destruct (decide (q = k)) as [Heq|Hne].
  - subst k. by rewrite !lookup_insert_eq.
  - rewrite !lookup_insert_ne by done. apply H.
    apply elem_of_union in Hk as [Hq%elem_of_singleton|Hk]; [congruence|done].
Qed.

Lemma agree_insert_same q cs fs fs' :
  agree K fs fs' → agree K (<[q := cs]> fs) (<[q := cs]> fs').
Proof.
  intros H k Hk. destruct (decide (q = k)) as [Heq|Hne].
  - subst k. by rewrite !lookup_insert_eq.
  - rewrite !lookup_insert_ne by done. by apply H.
Qed.

Lemma indifferent_ofstream q : indifferent K (fstream.ofstream q) ({[q]} ∪ K).
Proof.
  intros fs fs' H. unfold fstream.ofstream. simpl. split; [done|].
  intros _. by apply agree_insert.
Qed.

Lemma indifferent_fstream_trunc q :
  indifferent K (fstream.fstream_trunc q) ({[q]} ∪ K).
Proof. apply indifferent_ofstream. Qed.

Lemma indifferent_flush s : indifferent K (fstream.flush s) K.
Proof.
  intros fs fs' H. unfold fstream.flush. simpl. split; [done|]. intros _.
  destruct (fstream.is_open s && fstream.writes s); [|done].
  by apply agree_insert_same.
Qed.

End indifferent_rules.

Lemma indifferent_bind {A B : Type} (K K1 K2 : gset string)
    (a : fstream.IO A) (k : A → fstream.IO B) :
  indifferent K a K1 → (∀ x, indifferent K1 (k x) K2) →
  indifferent K (a ≫= k) K2.
Proof.
  intros Ha Hk fs fs' H. unfold mbind, fstream.IO_bind.
  destruct (Ha fs fs' H) as [Hb Hfs].
  destruct (a fs) as [[o t] fs1], (a fs') as [[o' t'] fs1']; simpl in *.
  injection Hb as <- <-.
  destruct o as [x| |]; [|done..].
  destruct (Hk x fs1 fs1' (Hfs I)) as [Hb' Hfs'].
  destruct (k x fs1) as [[r u] fs2], (k x fs1') as [[r' u'] fs2']; simpl in *.
  injection Hb' as <- <-. done.
Qed.

Lemma indifferent_weaken {A : Type} (K K1 K2 : gset string) (m : fstream.IO A) :
  indifferent K m K1 → K2 ⊆ K1 → indifferent K m K2.
Proof.
  intros Hm Hsub fs fs' H. destruct (Hm fs fs' H) as [? Hfs].
  split; [done|]. intros Hn k Hk. apply (Hfs Hn). set_solver.
Qed.

Lemma indifferent_close (K : gset string) s : indifferent K (fstream.close s) K.
Proof.
  unfold fstream.close. eapply indifferent_bind; [apply indifferent_flush|].
  intros _. apply indifferent_ret.
Qed.

Lemma indifferent_endl (K : gset string) s : indifferent K (fstream.endl s) K.
Proof.
  unfold fstream.endl. eapply indifferent_bind; [apply indifferent_flush|].
  intros _. apply indifferent_ret.
Qed.

(** ** The examples of fstream.cpp, one by one *)

Ltac untouched_go :=
  cbv zeta;
  repeat lazymatch goal with
  | |- untouched _ (mret _) _ => by apply untouched_ret
  | |- untouched _ (fstream.out _) _ => by apply untouched_out
  | |- untouched _ (fstream.initialised _ ≫= _) _ =>
      eapply untouched_bind; [apply untouched_initialised | intros ? _]
  | |- untouched _ (fstream.out _ ≫= _) _ =>
      eapply untouched_bind;
        [by apply (untouched_out _ _ (λ _, True)) | intros ? _]
  | |- untouched _ (fstream.flush _ ≫= _) _ =>
      eapply untouched_bind;
        [apply untouched_flush; eauto 10 with streams | intros ? _]
  | |- untouched _ (fstream.close _ ≫= _) _ =>
      eapply untouched_bind;
        [apply untouched_close; eauto 10 with streams | intros ? ?]
  | |- untouched _ (fstream.endl _ ≫= _) _ =>
      eapply untouched_bind;
        [apply untouched_endl; eauto 10 with streams | intros ? ?]
  | |- untouched _ (fstream.ifstream _ ≫= _) _ =>
      eapply untouched_bind; [apply untouched_ifstream | intros ? ?]
  | |- untouched _ (fstream.ofstream _ ≫= _) _ =>
      eapply untouched_bind; [by apply untouched_ofstream | intros ? ?]
  | |- untouched _ (fstream.fstream_trunc _ ≫= _) _ =>
      eapply untouched_bind; [by apply untouched_fstream_trunc | intros ? ?]
  | |- untouched _ (fstream.fstream_in_out _ ≫= _) _ =>
      eapply untouched_bind; [by apply untouched_fstream_in_out | intros ? ?]
  | |- untouched _ (match ?x with _ => _ end) _ => destruct x eqn:?
  end.

Ltac indifferent_go :=
  cbv zeta;
  repeat lazymatch goal with
  | |- indifferent _ (mret _) _ => apply indifferent_ret
  | |- indifferent _ (fstream.out _) _ => apply indifferent_out
  | |- indifferent _ (fstream.initialised _ ≫= _) _ =>
      eapply indifferent_bind; [apply indifferent_initialised | intros ?]
  | |- indifferent _ (fstream.out _ ≫= _) _ =>
      eapply indifferent_bind; [apply indifferent_out | intros ?]
  | |- indifferent _ (fstream.flush _ ≫= _) _ =>
      eapply indifferent_bind; [apply indifferent_flush | intros ?]
  | |- indifferent _ (fstream.close _ ≫= _) _ =>
      eapply indifferent_bind; [apply indifferent_close | intros ?]
  | |- indifferent _ (fstream.endl _ ≫= _) _ =>
      eapply indifferent_bind; [apply indifferent_endl | intros ?]
  | |- indifferent _ (fstream.ifstream _ ≫= _) _ =>
      eapply indifferent_bind;
        [apply indifferent_ifstream; set_solver | intros ?]
  | |- indifferent _ (fstream.fstream_in_out _ ≫= _) _ =>
      eapply indifferent_bind;
        [apply indifferent_fstream_in_out; set_solver | intros ?]
  | |- indifferent _ (fstream.ofstream _ ≫= _) _ =>
      eapply indifferent_bind; [apply indifferent_ofstream | intros ?]
  | |- indifferent _ (fstream.fstream_trunc _ ≫= _) _ =>
      eapply indifferent_bind; [apply indifferent_fstream_trunc | intros ?]
  | |- indifferent _ (match ?x with _ => _ end) _ => destruct x eqn:?
  end.

Section examples.
Context {impl : Implementation}.

(** No example writes to input.txt. *)

Lemma welcome_message_untouched :
  untouched "input.txt" fstream.welcome_message (λ _, True).
Proof. unfold fstream.welcome_message. untouched_go. Qed.

Lemma example_ifstream_untouched :
  untouched "input.txt" fstream.example_ifstream (λ _, True).
Proof. unfold fstream.example_ifstream. untouched_go. Qed.

Lemma example_ofstream_untouched :
  untouched "input.txt" fstream.example_ofstream (λ _, True).
Proof. unfold fstream.example_ofstream. untouched_go. Qed.

Lemma example_fstream_untouched :
  untouched "input.txt" fstream.example_fstream (λ _, True).
Proof. unfold fstream.example_fstream. untouched_go. Qed.

Lemma example_open_close_isopen_untouched :
  untouched "input.txt" fstream.example_open_close_isopen (λ _, True).
Proof. unfold fstream.example_open_close_isopen. untouched_go. Qed.

Lemma example_read_write_untouched :
  untouched "input.txt" fstream.example_read_write (λ _, True).
Proof. unfold fstream.example_read_write. untouched_go. Qed.

Lemma example_get_put_untouched :
  untouched "input.txt" fstream.example_get_put (λ _, True).
Proof. unfold fstream.example_get_put. untouched_go. Qed.

Lemma example_getline_untouched :
  untouched "input.txt" fstream.example_getline (λ _, True).
Proof. unfold fstream.example_getline. untouched_go. Qed.

Lemma example_seek_tell_untouched :
  untouched "input.txt" fstream.example_seek_tell (λ _, True).
Proof. unfold fstream.example_seek_tell. untouched_go. Qed.

Lemma example_state_untouched :
  untouched "input.txt" fstream.example_state (λ _, True).
Proof. unfold fstream.example_state. untouched_go. Qed.

Lemma example_formatted_io_untouched :
  untouched "input.txt" fstream.example_formatted_io (λ _, True).
Proof. unfold fstream.example_formatted_io. untouched_go. Qed.

Lemma example_flush_untouched :
  untouched "input.txt" fstream.example_flush (λ _, True).
Proof. unfold fstream.example_flush. untouched_go. Qed.

(** What each example reads it has written itself, except input.txt (and
    lines.txt for [example_state], which [example_getline] writes). *)

Lemma welcome_message_indifferent (K : gset string) :
  indifferent K fstream.welcome_message K.
Proof. unfold fstream.welcome_message. indifferent_go. Qed.

Lemma example_ifstream_indifferent (K : gset string) :
  "input.txt" ∈ K → indifferent K fstream.example_ifstream K.
Proof. intros HK. unfold fstream.example_ifstream. indifferent_go. Qed.

Lemma example_ofstream_indifferent (K : gset string) :
  indifferent K fstream.example_ofstream ({["output.txt"]} ∪ K).
Proof. unfold fstream.example_ofstream. indifferent_go. Qed.

Lemma example_fstream_indifferent (K : gset string) :
  indifferent K fstream.example_fstream ({["data.txt"]} ∪ K).
Proof. unfold fstream.example_fstream. indifferent_go. Qed.

Lemma example_open_close_isopen_indifferent (K : gset string) :
  "input.txt" ∈ K → indifferent K fstream.example_open_close_isopen K.
Proof. intros HK. unfold fstream.example_open_close_isopen. indifferent_go. Qed.

Lemma example_read_write_indifferent (K : gset string) :
  indifferent K fstream.example_read_write ({["binary.dat"]} ∪ K).
Proof. unfold fstream.example_read_write. indifferent_go. Qed.

Lemma example_get_put_indifferent (K : gset string) :
  indifferent K fstream.example_get_put ({["chars.txt"]} ∪ K).
Proof. unfold fstream.example_get_put. indifferent_go. Qed.

Lemma example_getline_indifferent (K : gset string) :
  indifferent K fstream.example_getline ({["lines.txt"]} ∪ K).
Proof. unfold fstream.example_getline. indifferent_go. Qed.

Lemma example_seek_tell_indifferent (K : gset string) :
  indifferent K fstream.example_seek_tell ({["seek.txt"]} ∪ K).
Proof. unfold fstream.example_seek_tell. indifferent_go. Qed.

Lemma example_state_indifferent (K : gset string) :
  "lines.txt" ∈ K → indifferent K fstream.example_state K.
Proof. intros HK. unfold fstream.example_state. indifferent_go. Qed.

Lemma example_formatted_io_indifferent (K : gset string) :
  indifferent K fstream.example_formatted_io ({["numbers.txt"]} ∪ K).
Proof. unfold fstream.example_formatted_io. indifferent_go. Qed.

Lemma example_flush_indifferent (K : gset string) :
  indifferent K fstream.example_flush ({["flush.txt"]} ∪ K).
Proof. unfold fstream.example_flush. indifferent_go. Qed.

(** *** The whole program *)

(** input.txt is the same after [main] as before. *)
Lemma main_untouched : untouched "input.txt" fstream.main (λ _, True).
Proof.
  unfold fstream.main.
  eapply untouched_bind; [apply welcome_message_untouched | intros _ _].
  eapply untouched_bind; [apply example_ofstream_untouched | intros _ _].
  eapply untouched_bind; [apply example_ifstream_untouched | intros _ _].
  eapply untouched_bind; [apply example_fstream_untouched | intros _ _].
  eapply untouched_bind; [apply example_open_close_isopen_untouched | intros _ _].
  eapply untouched_bind; [apply example_read_write_untouched | intros _ _].
  eapply untouched_bind; [apply example_get_put_untouched | intros _ _].
  eapply untouched_bind; [apply example_getline_untouched | intros _ _].
  eapply untouched_bind; [apply example_seek_tell_untouched | intros _ _].
  eapply untouched_bind; [apply example_state_untouched | intros _ _].
  eapply untouched_bind; [apply example_formatted_io_untouched | intros _ _].
  eapply untouched_bind; [apply example_flush_untouched | intros _ _].
  by apply untouched_ret.
Qed.

(** input.txt is the only file whose initial contents [main] depends on. *)
Lemma main_indifferent :
  ∃ K', indifferent {["input.txt"]} fstream.main K'.
Proof.
  eexists. unfold fstream.main.
  eapply indifferent_bind; [apply welcome_message_indifferent | intros _].
  eapply indifferent_bind; [apply example_ofstream_indifferent | intros _].
  eapply indifferent_bind;
    [apply example_ifstream_indifferent; set_solver | intros _].
  eapply indifferent_bind; [apply example_fstream_indifferent | intros _].
  eapply indifferent_bind;
    [apply example_open_close_isopen_indifferent; set_solver | intros _].
  eapply indifferent_bind; [apply example_read_write_indifferent | intros _].
  eapply indifferent_bind; [apply example_get_put_indifferent | intros _].
  eapply indifferent_bind; [apply example_getline_indifferent | intros _].
  eapply indifferent_bind; [apply example_seek_tell_indifferent | intros _].
  eapply indifferent_bind;
    [apply example_state_indifferent; set_solver | intros _].
  eapply indifferent_bind; [apply example_formatted_io_indifferent | intros _].
  eapply indifferent_bind; [apply example_flush_indifferent | intros _].
  apply indifferent_ret.
Qed.

(** [main] behaves the same in two directories with the same input.txt. *)
Lemma main_depends_on_input_only (fs fs' : fstream.files) :
  fs !! "input.txt" = fs' !! "input.txt" →
  behaviour (fstream.main fs) = behaviour (fstream.main fs').
Proof.
  intros H. destruct main_indifferent as [K' HK].
  apply (HK fs fs'). intros k Hk. apply elem_of_singleton in Hk. by subst k.
Qed.

(** A run of fstream.cpp behaves on the files an earlier run of it left as
    on the files that run started from. *)
Lemma main_after_main (fs : fstream.files) :
  behaviour (fstream.main (files_after (fstream.main fs)))
  = behaviour (fstream.main fs).
Proof. apply main_depends_on_input_only, main_untouched. Qed.

End examples.

(** ** [std::call_once] under every interleaving *)

Lemma times_started_app t1 t2 :
  mutex.times_started (t1 ++ t2)
  = (mutex.times_started t1 + mutex.times_started t2)%nat.
Proof. unfold mutex.times_started. by rewrite List.filter_app, length_app. Qed.

Lemma step_consistent first s s' :
  mutex.consistent s → mutex.step first s = Some s' → mutex.consistent s'.
Proof.
  destruct s as [f p1 p2 n out]. unfold mutex.consistent, mutex.step. simpl.
  intros [Hout Hflag] Hstep.
  destruct first, f, p1, p2; simpl in Hstep; try discriminate;
    injection Hstep as <-; simpl; rewrite times_started_app; simpl;
    (split; [unfold mutex.times_started at 2; simpl; lia|]);
    try (destruct Hflag as (? & [[? ?]|[? ?]]); discriminate);
    try (destruct Hflag as (? & ? & ?); discriminate);
    try (destruct Hflag as (? & ? & ?); done);
    try (destruct Hflag as (-> & ?); split; [done|]; auto; split; done).
Qed.

Lemma exec_consistent schedule : ∀ s,
  mutex.consistent s → mutex.consistent (mutex.exec schedule s).
Proof.
  induction schedule as [|first schedule IH]; intros s Hs; [done|].
  simpl. apply IH. destruct (mutex.step first s) as [s'|] eqn:E; simpl; [|done].
  by eapply step_consistent.
Qed.

Lemma exec_app schedule rest s :
  mutex.exec (schedule ++ rest) s = mutex.exec rest (mutex.exec schedule s).
Proof. apply foldl_app. Qed.

Lemma started_consistent : mutex.consistent mutex.started.
Proof. done. Qed.

(** Unless both threads have finished, one of them can move, and every move
    brings the threads closer to the end. *)
Lemma step_progress s :
  mutex.consistent s → mutex.joined s = false →
  ∃ first s', mutex.step first s = Some s' ∧
    (mutex.remaining_steps (mutex.t_once1 s')
     + mutex.remaining_steps (mutex.t_once2 s')
     < mutex.remaining_steps (mutex.t_once1 s)
       + mutex.remaining_steps (mutex.t_once2 s))%nat.
Proof.
  destruct s as [f p1 p2 n out]. unfold mutex.consistent, mutex.joined. simpl.
  intros [_ Hflag] Hj.
  destruct f, p1, p2; simpl in *; try discriminate;
    try (destruct Hflag as (? & [[? ?]|[? ?]]); discriminate);
    try (destruct Hflag as (? & ? & ?); discriminate);
    try (destruct Hflag as (? & ? & ?); done);
    first [ by (exists true; eexists; split; [reflexivity | simpl; lia])
          | by (exists false; eexists; split; [reflexivity | simpl; lia]) ].
Qed.

Lemma exec_completes (n : nat) : ∀ s,
  mutex.consistent s →
  (mutex.remaining_steps (mutex.t_once1 s)
   + mutex.remaining_steps (mutex.t_once2 s) ≤ n)%nat →
  ∃ rest, mutex.joined (mutex.exec rest s) = true.
Proof.
  induction n as [|n IH]; intros s Hs Hn.
  - exists []. simpl. unfold mutex.joined.
    destruct (mutex.t_once1 s), (mutex.t_once2 s); simpl in Hn; done || lia.
  - destruct (mutex.joined s) eqn:Hj; [by exists []|].
    destruct (step_progress s Hs Hj) as (first & s' & Hstep & Hlt).
    destruct (IH s') as [rest Hrest]; [by eapply step_consistent | lia |].
    exists (first :: rest). simpl. by rewrite Hstep.
Qed.

(** C8. Whatever the interleaving of [t_once1] and [t_once2],
    [expensive_initialization] is entered at most once, its first line is
    printed as often as it is entered, every interleaving can be continued
    until both threads have finished, and once both have finished it has been
    executed exactly once. *)
Theorem call_once_exactly_once (schedule : list bool) :
  (mutex.executions (mutex.exec schedule mutex.started) ≤ 1)%nat ∧
  mutex.times_started (mutex.output (mutex.exec schedule mutex.started))
    = mutex.executions (mutex.exec schedule mutex.started) ∧
  (mutex.joined (mutex.exec schedule mutex.started) = true →
   mutex.executions (mutex.exec schedule mutex.started) = 1%nat) ∧
  (∃ rest, mutex.joined (mutex.exec (schedule ++ rest) mutex.started) = true).
Proof.
  pose proof (exec_consistent schedule _ started_consistent) as Hc.
  destruct Hc as [Hout Hflag].
  split; [|split; [done|split]].
  - destruct (mutex.flag _); destruct Hflag as [-> _]; lia.
  - unfold mutex.joined. intros Hj.
    destruct (mutex.flag _); destruct Hflag as [? Hpos]; [|done..].
    destruct Hpos as [H1 H2]. rewrite H1 in Hj. done.
  - destruct (exec_completes 10 (mutex.exec schedule mutex.started)) as [rest H].
    + by apply exec_consistent.
    + destruct (mutex.t_once1 _), (mutex.t_once2 _); simpl; lia.
    + exists rest. by rewrite exec_app.
Qed.

Lemma call_once_exactly_once_witness :
  mutex.joined
    (mutex.exec [true; false; false; true; false; true; true; true; false;
                 false; false] mutex.started) = true ∧
  mutex.executions
    (mutex.exec [true; false; false; true; false; true; true; true; false;
                 false; false] mutex.started) = 1%nat.
Proof.
  split; [reflexivity|].
  apply (call_once_exactly_once
           [true; false; false; true; false; true; true; true; false;
            false; false]).
  reflexivity.
Defined.
(** ** Threads: the weight of a program is fuel enough *)

Section fuel.
Context {S : Type}.
Implicit Types (st : threads.state S) (i : threads.instr S)
  (code : list (threads.instr S)).

Lemma weight_pos i : (1 ≤ threads.weight i)%nat.
Proof. destruct i; simpl; lia. Qed.

Lemma weights_cons i code :
  threads.weights (i :: code) = (threads.weight i + threads.weights code)%nat.
Proof. reflexivity. Qed.

Lemma weights_app code1 code2 :
  threads.weights (code1 ++ code2)
  = (threads.weights code1 + threads.weights code2)%nat.
Proof.
  induction code1 as [|i code1 IH]; [done|].
  rewrite <- app_comm_cons, !weights_cons, IH. lia.
Qed.

Lemma weights_nil code : threads.weights code = 0%nat → code = [].
Proof.
  destruct code as [|i code]; [done|]. rewrite weights_cons.
  pose proof (weight_pos i). lia.
Qed.

Lemma sum_list_with_insert {A : Type} (f : A → nat) (l : list A) (t : nat)
    (old new : A) :
  l !! t = Some old →
  (sum_list_with f (<[t := new]> l) + f old = sum_list_with f l + f new)%nat.
Proof.
  revert t. induction l as [|x l IH]; intros [|t] H; simpl in *; try done.
  - injection H as ->. lia.
  - specialize (IH t H). lia.
Qed.

(** Every step uses up some of the weight. *)
Lemma step_remaining (t : nat) st st' :
  threads.step t st = Some st' →
  (threads.remaining st' < threads.remaining st)%nat.
Proof.
  unfold threads.step, threads.remaining.
  destruct (threads.pool st !! t) as [[|i rest]|] eqn:E; try done.
  pose proof (sum_list_with_insert threads.weights _ t _ rest E) as Hrest.
  rewrite weights_cons in Hrest.
  destruct i as [x|f| |r f|body store|h c|c a b]; simpl in Hrest |- *.
  - intros [= <-]. simpl. lia.
  - destruct (f t (threads.shared st)); intros [= <-]; simpl; lia.
  - intros [= <-]. simpl. lia.
  - destruct (r t (threads.shared st)); [|done]. intros [= <-]. simpl. lia.
  - intros [= <-]. simpl. rewrite sum_list_with_app. simpl.
    unfold threads.weights in *. lia.
  - destruct (h (threads.shared st)) as [t'|]; [|done].
    destruct (threads.pool st !! t') as [[|? ?]|]; try done.
    intros [= <-]. simpl. lia.
  - intros [= <-]. simpl.
    pose proof (sum_list_with_insert threads.weights _ t _
                  ((if c t (threads.shared st) then a else b) ++ rest) E) as H.
    rewrite weights_cons, weights_app in H. simpl in H.
    destruct (c t (threads.shared st)); unfold threads.weights in *; lia.
Qed.

Lemma first_enabled_Some (ts : list nat) st st' :
  threads.first_enabled ts st = Some st' → ∃ t, threads.step t st = Some st'.
Proof.
  induction ts as [|t ts IH]; simpl; [done|].
  destruct (threads.step t st) eqn:E; [|done].
  intros [= <-]. by exists t.
Qed.

Lemma first_enabled_None (ts : list nat) st :
  threads.first_enabled ts st = None → ∀ t, t ∈ ts → threads.step t st = None.
Proof.
  induction ts as [|t' ts IH]; simpl; intros H t Ht.
  - by apply elem_of_nil in Ht.
  - destruct (threads.step t' st) eqn:E; [done|].
    apply elem_of_cons in Ht as [->|Ht]; [done|]. by apply IH.
Qed.

(** When the scheduler finds no thread to run, none can move. *)
Lemma schedule_None (preferred : nat) st :
  threads.schedule preferred st = None → ∀ t, threads.step t st = None.
Proof.
  intros H t. destruct (decide (t < length (threads.pool st))%nat) as [Ht|Ht].
  - apply (first_enabled_None _ _ H). apply elem_of_rotate, elem_of_seq. lia.
  - unfold threads.step. by rewrite lookup_ge_None_2 by lia.
Qed.

(** A run that is given the remaining weight as fuel is over when it
    stops. *)
Lemma run_settled (fuel : nat) (choice : nat → nat) (k : nat) st :
  (threads.remaining st ≤ fuel)%nat →
  threads.settled (threads.run fuel choice k st).
Proof.
  revert k st. induction fuel as [|fuel IH]; intros k st Hfuel; simpl.
  - right. right. intros t. unfold threads.step.
    destruct (threads.pool st !! t) as [[|i rest]|] eqn:E; try done.
    exfalso. unfold threads.remaining in Hfuel.
    pose proof (sum_list_with_insert threads.weights _ t _ [] E) as H.
    rewrite weights_cons in H. pose proof (weight_pos i). simpl in H. lia.
  - destruct (threads.returned st) eqn:Hret; simpl; [by left|].
    case_bool_decide as Hend; [by right; left|].
    destruct (threads.schedule (choice k) st) as [st'|] eqn:Hs.
    + apply IH. apply first_enabled_Some in Hs as [t Ht].
      apply step_remaining in Ht. lia.
    + right. right. by apply (schedule_None (choice k)).
Qed.

(** The run of a program is over when [execute] reads off its outcome. *)
Lemma execute_settled (main : list (threads.instr S)) (init : S)
    (choice : nat → nat) :
  threads.settled
    (threads.run (threads.weights main) choice 0
       {| threads.shared := init; threads.pool := [main];
          threads.output := []; threads.ended := None |}).
Proof. apply run_settled. unfold threads.remaining. simpl. lia. Qed.

End fuel.

(** ** Threads: what a program prints does not steer it *)

Section relabel.
Context {S : Type} (g : item → item).
Implicit Types (st : threads.state S) (i : threads.instr S).

Lemma weight_relabel : ∀ i, threads.weight (threads.relabel g i) = threads.weight i.
Proof.
  fix IH 1. intros [x|f| |r f|body store|t c|c a b]; simpl; try reflexivity.
  - f_equal. induction body as [|i body IHb]; simpl; [done|].
    rewrite IH. f_equal. exact IHb.
  - f_equal. f_equal.
    + induction a as [|i a IHa]; simpl; [done|].
      rewrite IH. f_equal. exact IHa.
    + induction b as [|i b IHb]; simpl; [done|].
      rewrite IH. f_equal. exact IHb.
Qed.

Lemma weights_relabel (code : list (threads.instr S)) :
  threads.weights (threads.relabel g <$> code) = threads.weights code.
Proof.
  unfold threads.weights. induction code as [|i code IH]; simpl; [done|].
  rewrite weight_relabel. f_equal. exact IH.
Qed.

Lemma step_relabel (self : nat) st :
  threads.step self (threads.relabel_state g st)
  = threads.relabel_state g <$> threads.step self st.
Proof.
  unfold threads.step. simpl. rewrite list_lookup_fmap.
  destruct (threads.pool st !! self) as [[|i rest]|] eqn:E; simpl; try done.
  destruct i as [x|f| |r f|body store|t c|c a b]; simpl.
  - unfold threads.relabel_state. simpl.
    by rewrite list_fmap_insert, fmap_app.
  - destruct (f self (threads.shared st)); unfold threads.relabel_state; simpl;
      by rewrite list_fmap_insert.
  - unfold threads.relabel_state. simpl. by rewrite list_fmap_insert.
  - destruct (r self (threads.shared st)); [|done].
    unfold threads.relabel_state. simpl. by rewrite list_fmap_insert.
  - unfold threads.relabel_state. simpl.
    by rewrite length_fmap, fmap_app, list_fmap_insert.
  - destruct (t (threads.shared st)) as [t'|]; [|done].
    rewrite list_lookup_fmap.
    destruct (threads.pool st !! t') as [[|? ?]|]; simpl; try done.
    unfold threads.relabel_state. simpl. by rewrite list_fmap_insert.
  - unfold threads.relabel_state. simpl. rewrite list_fmap_insert, fmap_app.
    by destruct (c self (threads.shared st)).
Qed.

Lemma first_enabled_relabel (ts : list nat) st :
  threads.first_enabled ts (threads.relabel_state g st)
  = threads.relabel_state g <$> threads.first_enabled ts st.
Proof.
  induction ts as [|t ts IH]; simpl; [done|].
  rewrite step_relabel. by destruct (threads.step t st).
Qed.

Lemma run_relabel (fuel : nat) (choice : nat → nat) (k : nat) st :
  threads.run fuel choice k (threads.relabel_state g st)
  = threads.relabel_state g (threads.run fuel choice k st).
Proof.
  revert k st. induction fuel as [|fuel IH]; intros k st; simpl; [done|].
  assert (Hret : threads.returned (threads.relabel_state g st)
                 = threads.returned st).
  { unfold threads.returned. simpl. rewrite list_lookup_fmap.
    by destruct (threads.pool st !! 0%nat) as [[|? ?]|]. }
  rewrite Hret.
  destruct (threads.returned st || bool_decide (is_Some (threads.ended st)));
    [done|].
  unfold threads.schedule. simpl. rewrite length_fmap, first_enabled_relabel.
  destruct (threads.first_enabled _ st); simpl; [apply IH|done].
Qed.

(** A program whose operands are relabelled runs as before and prints the
    relabelled operands. *)
Lemma execute_relabel (main : list (threads.instr S)) (init : S)
    (choice : nat → nat) :
  threads.execute (threads.relabel g <$> main) init choice
  = ((threads.execute main init choice).1,
     relabel_event g <$> (threads.execute main init choice).2).
Proof.
  unfold threads.execute. rewrite weights_relabel.
  set (st0 := {| threads.shared := init; threads.pool := [main];
                 threads.output := []; threads.ended := None |}).
  change {| threads.shared := init;
            threads.pool := [threads.relabel g <$> main];
            threads.output := []; threads.ended := None |}
    with (threads.relabel_state g st0).
  rewrite run_relabel.
  set (st := threads.run _ choice 0 st0).
  assert (Hret : threads.returned (threads.relabel_state g st)
                 = threads.returned st).
  { unfold threads.returned. simpl. rewrite list_lookup_fmap.
    by destruct (threads.pool st !! 0%nat) as [[|? ?]|]. }
  rewrite Hret. simpl.
  destruct (threads.ended st); [done|].
  by destruct (threads.returned st).
Qed.

End relabel.
(** ** Runs, the argument vector and the files earlier runs left *)

(** The programs that print thread identifiers print the same without
    them, wherever the platform places the threads; memory.cpp prints the
    same but for the address of its local variable. *)
Lemma thread_main_placement (ids1 ids2 : option nat → nat) (n : nat)
    (choice : nat → nat) :
  without_placement (thread.main ids1 n choice)
  = without_placement (thread.main ids2 n choice).
Proof.
  unfold without_placement, thread.main.
  rewrite <- !execute_relabel. reflexivity.
Qed.

Lemma mutex_main_placement (ids1 ids2 : option nat → nat) (choice : nat → nat) :
  without_placement (mutex_program.main ids1 choice)
  = without_placement (mutex_program.main ids2 choice).
Proof.
  unfold without_placement, mutex_program.main.
  rewrite <- !execute_relabel. reflexivity.
Qed.

Lemma memory_main_placement (address1 address2 : Z) :
  without_placement (memory.main address1)
  = without_placement (memory.main address2).
Proof. reflexivity. Qed.

Section runs.
Context {impl : Implementation} {lib : Library}.

(** Every [main] is declared without parameters. *)
Lemma every_main_void (p : program) (e : environment) (l : placement) :
  ∃ body, entry p e l = main_void body.
Proof. destruct p; eexists; reflexivity. Qed.

(** Every program but fstream.cpp is a console program: its behaviour does
    not depend on the files and it leaves them as they are. *)
Lemma console_run (p : program) (argv : list string) (e : environment)
    (fs fs' : fstream.files) :
  p ≠ fstream_cpp →
  behaviour (run p argv e fs) = behaviour (run p argv e fs') ∧
  files_after (run p argv e fs) = fs.
Proof. destruct p; done. Qed.

Lemma later_run_unaffected (p q : program) (argv_p argv_q : list string)
    (e_p e_q : environment) (fs : fstream.files) :
  behaviour (run q argv_q e_q (files_after (run p argv_p e_p fs)))
  = behaviour (run q argv_q e_q fs).
Proof.
  destruct (decide (q = fstream_cpp)) as [->|Hq]; last first.
  { by apply console_run. }
  destruct (decide (p = fstream_cpp)) as [->|Hp].
  - apply main_after_main.
  - by rewrite (proj2 (console_run p argv_p e_p fs fs Hp)).
Qed.

(** A run depends on the placement of the process only in the addresses and
    thread identifiers it prints. *)
Lemma run_placement (p : program) (argv1 argv2 : list string)
    (e1 e2 : environment) (fs : fstream.files) :
  same_but_placement e1 e2 →
  without_placement (behaviour (run p argv1 e1 fs))
  = without_placement (behaviour (run p argv2 e2 fs)) ∧
  files_after (run p argv1 e1 fs) = files_after (run p argv2 e2 fs).
Proof.
  intros (Hclock & Hrd & Hsched & Hhw & Htime & Hlocal & Hlocale).
  destruct p; unfold run, entry, behaviour, files_after, console_program;
    cbn [fst snd]; rewrite ?Hclock, ?Hrd, ?Hsched, ?Hhw, ?Htime, ?Hlocal,
      ?Hlocale; (split; [|reflexivity]); try reflexivity.
  - exact (mutex_main_placement _ _ _).
  - exact (thread_main_placement _ _ _ _).
Qed.

(** A program that prints no address and no thread identifier does not
    depend on the placement at all. *)
Lemma run_without_placement (p : program) (argv1 argv2 : list string)
    (e : environment) (fs : fstream.files) :
  prints_placement p = false ∨ placement_of e argv1 = placement_of e argv2 →
  run p argv1 e fs = run p argv2 e fs.
Proof.
  intros [Hp|Hl].
  - destruct p; simpl in Hp; try discriminate Hp; reflexivity.
  - unfold run. rewrite Hl.
    by destruct (every_main_void p e (placement_of e argv2)) as [body ->].
Qed.

End runs.

(** C5, the runs on which the claim fails as stated.  memory.cpp prints the
    address of a local variable of [main], and the arguments lie on the
    stack above it: on one and the same platform, from the same (empty) set
    of files, the run with one more argument prints a different address.
    And chrono.cpp prints the reading of the system clock, so two runs that
    are given different argument vectors and the same set of files, one
    second apart, print different text. *)
Lemma argv_runs_differ :
  stdout_of (behaviour (run (impl := reference_implementation)
                          (lib := reference_library) memory_cpp
                          ["memory"] (environment_at 0) ∅)).2
  ≠ stdout_of (behaviour (run (impl := reference_implementation)
                            (lib := reference_library) memory_cpp
                            ["memory"; "--verbose"] (environment_at 0) ∅)).2 ∧
  stdout_of (behaviour (run (impl := reference_implementation)
                          (lib := reference_library) chrono_cpp
                          ["chrono"; "a"] (environment_at 0) ∅)).2
  ≠ stdout_of (behaviour (run (impl := reference_implementation)
                            (lib := reference_library) chrono_cpp
                            ["chrono"; "b"] (environment_at 1000000000) ∅)).2.
Proof. split; by vm_compute. Qed.

(** C5, as amended. No program takes command-line arguments: every [main]
    is declared without parameters, so the argument vector reaches a program
    only through the place the platform gives the process in memory.  Two
    runs of a program that are given different argument vectors and
    otherwise the same inputs (the files, the clock readings, the values of
    the random device, the choices of the thread scheduler, the number of
    hardware threads, the time of day and the locales installed) end the
    same way, leave the same files and print the same on standard output
    and standard error, except for the address that memory.cpp prints and
    the thread identifiers that thread.cpp and mutex.cpp print; these are
    the same too when the platform places both runs alike, and no other
    program prints any. *)
Theorem argv_independence (impl : Implementation) (lib : Library)
    (p : program) (argv1 argv2 : list string) (e : environment)
    (fs : fstream.files) :
  (∀ l, ∃ body, entry p e l = main_void body) ∧
  (prints_placement p = false ∨ placement_of e argv1 = placement_of e argv2 →
   run p argv1 e fs = run p argv2 e fs ∧
   stdout_of (behaviour (run p argv1 e fs)).2
     = stdout_of (behaviour (run p argv2 e fs)).2) ∧
  without_placement (behaviour (run p argv1 e fs))
    = without_placement (behaviour (run p argv2 e fs)) ∧
  files_after (run p argv1 e fs) = files_after (run p argv2 e fs).
Proof.
  split; [intros l; apply every_main_void|].
  split.
  { intros H. by rewrite (run_without_placement p argv1 argv2 e fs H). }
  by apply run_placement.
Qed.

(** C7, the runs on which the claim fails as stated: chrono.cpp run twice in
    succession from the same (empty) set of files, the second run one second
    after the first, prints a different reading of the system clock the
    second time. *)
Lemma second_run_differs_by_clock :
  files_after (run (impl := reference_implementation)
                 (lib := reference_library) chrono_cpp []
                 (environment_at 0) ∅) = ∅ ∧
  stdout_of
    (behaviour (run (impl := reference_implementation)
                  (lib := reference_library) chrono_cpp []
                  (environment_at 1000000000)
                  (files_after (run (impl := reference_implementation)
                                  (lib := reference_library)
                                  chrono_cpp [] (environment_at 0) ∅)))).2
  ≠ stdout_of
      (behaviour (run (impl := reference_implementation)
                    (lib := reference_library) chrono_cpp []
                    (environment_at 0) ∅)).2.
Proof. split; [reflexivity | by vm_compute]. Qed.

(** C7, as amended. No program's behaviour depends on files a previous run
    left behind: a run of any program [q] that starts from the files a run
    of any program [p] left ends and prints exactly as it would have from the
    files that earlier run started from.  In particular a program run twice
    in succession with the same arguments and under the same clock readings,
    random-device values, scheduler choices, number of hardware threads,
    time of day, locales and placement in memory prints the same the second
    time; when only the placement differs, it prints the same except for
    the address memory.cpp prints and the thread identifiers thread.cpp and
    mutex.cpp print.  The file-I/O demonstration, the only program that
    changes files, prints the same on every later run whatever the
    environment. *)
Theorem earlier_runs_unobserved (impl : Implementation) (lib : Library)
    (p q : program) (argv_p argv_q : list string) (e_p e_q : environment)
    (fs : fstream.files) :
  behaviour (run q argv_q e_q (files_after (run p argv_p e_p fs)))
    = behaviour (run q argv_q e_q fs) ∧
  behaviour (run p argv_p e_p (files_after (run p argv_p e_p fs)))
    = behaviour (run p argv_p e_p fs) ∧
  (same_but_placement e_p e_q →
   without_placement
     (behaviour (run p argv_p e_q (files_after (run p argv_p e_p fs))))
   = without_placement (behaviour (run p argv_p e_p fs))) ∧
  behaviour (run fstream_cpp argv_q e_q
               (files_after (run fstream_cpp argv_p e_p fs)))
    = behaviour (run fstream_cpp argv_p e_p fs) ∧
  match p with
  | fstream_cpp => True
  | _ => files_after (run p argv_p e_p fs) = fs
  end.
Proof.
  split; [apply later_run_unaffected|].
  split; [apply later_run_unaffected|].
  split.
  { intros H. rewrite later_run_unaffected.
    symmetry. by apply run_placement. }
  split; [apply main_after_main|].
  destruct p; done.
Qed.

(** ** Sample runs *)

(** fstream.cpp in an empty directory: input.txt cannot be opened, every
    scratch file is written, and the run ends normally. *)
Example fstream_in_empty_directory :
  (fstream.main (impl := reference_implementation) ∅).1.1 = Normal 0 ∧
  stderr_of (fstream.main (impl := reference_implementation) ∅).1.2
    = [OStr "Could not open input.txt"; Endl] ∧
  files_after (fstream.main (impl := reference_implementation) ∅)
    = {[ "output.txt" := line "Hello, file!" +:+ "A" +:+ line "Raw bytes";
         "data.txt" := line "Line 1" +:+ line "Line 2";
         "binary.dat" := fstream.int_to_raw (impl := reference_implementation) 12345;
         "chars.txt" := line "X";
         "lines.txt" := line "First line" +:+ line "Second line";
         "seek.txt" := "abcdZf";
         "numbers.txt" := line "42 3.14";
         "flush.txt" := "This will be flushed." ]}.
Proof. repeat split; by vm_compute. Qed.

(** With an input.txt of two lines, the second one unterminated, both lines
    are read back and nothing goes to [std::cerr]; input.txt is still there
    afterwards. *)
Example fstream_with_input :
  stdout_of (take 12
    (fstream.main (impl := reference_implementation)
       {[ "input.txt" := line "one" +:+ "two" ]}).1.2)
    = [OStr "****************"; Endl; OStr "* #include <fstream> *"; Endl;
       OStr "*** fstream  ***"; Endl; OStr "****************"; Endl;
       OStr "Read line: "; OStr "one"; Endl; OStr "Read line: "] ∧
  stderr_of
    (fstream.main (impl := reference_implementation)
       {[ "input.txt" := line "one" +:+ "two" ]}).1.2 = [] ∧
  files_after
    (fstream.main (impl := reference_implementation)
       {[ "input.txt" := line "one" +:+ "two" ]}) !! "input.txt"
    = Some (line "one" +:+ "two").
Proof. repeat split; by vm_compute. Qed.

(** The state flags [example_state] prints after the read loop: end of file
    reached, and the last [getline] failed. *)
Example state_after_read_loop :
  (fstream.example_state
     {[ "lines.txt" := line "First line" +:+ line "Second line" ]}).1
  = (Normal (),
     cout [OStr "EOF: "; OBool true; OStr ", Good: "; OBool false;
           OStr ", Bad: "; OBool false; OStr ", Fail: "; OBool true; Endl]).
Proof. by vm_compute. Qed.

(** numeric.cpp and algorithm.cpp run to completion and print nothing on
    [std::cerr]. *)
Example numeric_and_algorithm_complete :
  completes_normally numeric.main ∧ stderr_of numeric.main.2 = [] ∧
  completes_normally (algorithm.main (impl := reference_implementation)) ∧
  stderr_of (algorithm.main (impl := reference_implementation)).2 = [].
Proof. repeat split; by vm_compute. Qed.

(** One complete interleaving of the two [call_once] threads. *)
Example call_once_sample_interleaving :
  stdout_of (mutex.output
    (mutex.exec [true; false; false; true; false; true; true; true; false;
                 false; false] mutex.started))
  = [OStr (line "    Expensive initialization started...");
     OStr (line "    Expensive initialization finished.");
     OStr "  Thread "; OThread 1; OStr (line " has finished its task.");
     OStr "  Thread "; OThread 2; OStr (line " has finished its task.")].
Proof. by vm_compute. Qed.

(** memory.cpp, wherever [my_obj] lies.  [strong_ptr] is declared outside
    the block in which it is assigned, so the resource outlives the block:
    the second [weak_ptr.lock()] succeeds, and the resource is destroyed
    when [main] returns. *)
Example memory_cpp_output (address : Z) :
  memory.main address
  = (Normal 0,
     cout [OStr (line "--- Part 1: Smart Pointers ---");
           OStr (line "1. Demonstrating std::unique_ptr:");
           OStr "  - Resource '"; OStr "unique_resource"; OStr (line "' created.");
           OStr "  - Resource '"; OStr "unique_resource";
           OStr (line "' is doing something.");
           OStr "  - Resource '"; OStr "unique_resource";
           OStr (line "' destroyed.");
           OStr (line ("  unique_ptr has gone out of scope." +:+ nl));
           OStr (line "2. Demonstrating std::shared_ptr:");
           OStr "  - Resource '"; OStr "shared_resource"; OStr (line "' created.");
           OStr "  shared_res1 use count: "; OInt 2; OStr nl;
           OStr "  shared_res2 use count: "; OInt 2; OStr nl;
           OStr "  - Resource '"; OStr "shared_resource";
           OStr (line "' destroyed.");
           OStr (line ("  shared_ptrs have gone out of scope." +:+ nl));
           OStr (line "3. Demonstrating std::weak_ptr:");
           OStr "  - Resource '"; OStr "weak_resource"; OStr (line "' created.");
           OStr "  weak_ptr is locked, object still alive. ";
           OStr "  - Resource '"; OStr "weak_resource";
           OStr (line "' is doing something.");
           OStr (line "  strong_ptr has gone out of scope.");
           OStr (line
             "  (This should not be printed) weak_ptr is locked, object still alive.");
           OStr (line "--- Part 2: Low-Level Memory Utilities ---");
           OStr (line "4. Demonstrating std::addressof:");
           OStr "  Address using regular '&': "; OPointer 0; OStr nl;
           OStr "  Address using std::addressof: "; OPointer address;
           OStr (line nl);
           OStr (line "5. Demonstrating std::uninitialized_fill:");
           OStr "  Filled raw memory with: ";
           OInt 10; OStr " "; OInt 10; OStr " "; OInt 10; OStr " ";
           OInt 10; OStr " "; OInt 10; OStr " "; OStr nl;
           OStr "  - Resource '"; OStr "weak_resource";
           OStr (line "' destroyed.")]).
Proof. reflexivity. Qed.

(** The container and function-object demonstrations run to completion and
    print nothing on [std::cerr]. *)
Example containers_complete :
  completes_normally stack.main ∧ stderr_of stack.main.2 = [] ∧
  completes_normally set.main ∧ stderr_of set.main.2 = [] ∧
  completes_normally (unordered_set.main (lib := reference_library)) ∧
  completes_normally functional.main ∧ stderr_of functional.main.2 = [] ∧
  completes_normally (utility.main (lib := reference_library)) ∧
  completes_normally (cmath.main (lib := reference_library)).
Proof. repeat split; by vm_compute. Qed.

(** What set.cpp prints for its set after each change. *)
Example set_cpp_contents :
  omap (λ x, match x with OInt z => Some z | _ => None end) (stdout_of set.main.2)
  = [10; 20; 30;  10; 20; 30; 40;  4;  30;  10; 20; 30; 40;  30;  30;
     1;  10; 20; 40;  3; 2;  2; 3;  50; 60;  0].
Proof. by vm_compute. Qed.

(** sstream.cpp: the stream states and positions the examples report. *)
Example sstream_state_and_positions :
  sstream.example_state_functions
  = (Normal (),
     cout [OStr "After extraction, eof="; OBool false; OStr ", fail=";
           OBool false; OStr ", good="; OBool true; OStr ", bad=";
           OBool false; Endl]) ∧
  sstream.example_seek_and_tell
  = (Normal (),
     cout [OStr "Character at position 2: "; OChar "c"; Endl;
           OStr "Current get position: "; OInt 3; Endl;
           OStr "Buffer after seekp and put: "; OStr "abcdZfg"; Endl;
           OStr "Current put position: "; OInt 5; Endl]) ∧
  sstream.example_clear_function
  = (Normal (),
     cout [OStr "Extraction failed, clearing stream..."; Endl;
           OStr "After clear, extracted: "; OInt 123; Endl]) ∧
  sstream.example_chaining
  = (Normal (),
     cout [OStr "Chained extraction: x="; OInt 1; OStr ", y="; OInt 2;
           OStr ", z="; OInt 3; Endl]).
Proof. repeat split; by vm_compute. Qed.

(** iomanip.cpp on a system without the locale en_US.UTF-8: the exception
    of the [std::locale] constructor leaves [main]; the heading of
    [demonstrate_put_money] is the last thing printed. *)
Example iomanip_without_locale :
  (iomanip.main (lib := reference_library) (λ _, false) 0 (λ _, None)).1
  = Thrown (runtime_error (locale_failure (Library := reference_library)
                             "en_US.UTF-8")) ∧
  last (stdout_of
          (iomanip.main (lib := reference_library) (λ _, false) 0 (λ _, None)).2)
  = Some Endl ∧
  last (List.filter (λ x, match x with Endl => false | _ => true end)
          (stdout_of
             (iomanip.main (lib := reference_library) (λ _, false) 0
                (λ _, None)).2))
  = Some (OStr "--- put_money (C++11+) ---").
Proof. repeat split; by vm_compute. Qed.

(** thread.cpp with two hardware threads, under a scheduler that lets the
    main thread run whenever it can: the workers run while [main] waits in
    [join], the detached worker while [main] waits for the pool. *)
Example thread_cpp_main_first :
  thread.main (thread_id (placement_of (environment_at 0) [])) 2 (λ _, 0%nat)
  = (Normal 0,
     cout [OStr (line "--- Part 1: Thread Creation and Management ---");
           OStr "  Main thread ID: "; OThread 1; OStr nl;
           OStr "  Worker thread t1 ID: "; OThread 2; OStr nl;
           OStr "  Is t1 joinable? "; Boolalpha; OBool true; OStr nl;
           OStr (line "  Waiting for worker thread t1 to finish...");
           OStr "  Worker thread "; OInt 101; OStr (line " started.");
           OStr "  Worker thread "; OInt 101; OStr (line " finished.");
           OStr (line
             "  Worker thread t1 has been joined. Main thread can continue.");
           OStr "  Is t1 joinable after join? "; Boolalpha; OBool false;
           OStr (line nl);
           OStr (line "--- Part 2: Detaching a Thread ---");
           OStr (line "  Detaching thread t2...");
           OStr "  Is t2 joinable after detach? "; Boolalpha; OBool false;
           OStr nl;
           OStr (line
             "  Main thread is not waiting for t2 to finish and will now exit.");
           OStr (line ("  Main thread exiting." +:+ nl));
           OStr (line "--- Part 3: Other Functions ---");
           OStr "  Hardware concurrency is: "; OInt 2; OStr nl;
           OStr (line
             "  Using this to launch a pool of threads for a parallel task...");
           OStr (line
             "  Detached worker thread started. It will run independently.");
           OStr (line "  Detached worker thread finished its task.");
           OStr "  Worker thread "; OInt 0; OStr (line " started.");
           OStr "  Worker thread "; OInt 0; OStr (line " finished.");
           OStr "  Worker thread "; OInt 1; OStr (line " started.");
           OStr "  Worker thread "; OInt 1; OStr (line " finished.");
           OStr (line ("  All threads in the pool have been joined." +:+ nl))]).
Proof. by vm_compute. Qed.

(** mutex.cpp under two schedulers: the one that goes round the threads
    loses increments of the unprotected counter, the one that lets each
    thread run to its end does not; the protected counter reaches 2000
    under both. *)
Example mutex_cpp_counters :
  omap (λ x, match x with OInt z => Some z | _ => None end)
    (stdout_of (mutex_program.main
                  (thread_id (placement_of (environment_at 0) [])) (λ k, k)).2)
  = [1500; 2000] ∧
  omap (λ x, match x with OInt z => Some z | _ => None end)
    (stdout_of (mutex_program.main
                  (thread_id (placement_of (environment_at 0) []))
                  (λ _, 0%nat)).2)
  = [2000; 2000] ∧
  completes_normally
    (mutex_program.main (thread_id (placement_of (environment_at 0) []))
       (λ k, k)).
Proof. repeat split; by vm_compute. Qed.

(** future.cpp where [std::async] starts threads, under the scheduler that
    lets the main thread run whenever it can: the run is complete and the
    results arrive. *)
Example future_cpp_main_first :
  completes_normally (future_program.main (lib := reference_library) (λ _, 0%nat)) ∧
  omap (λ x, match x with OInt z => Some z | OWhat e => Some (-1) | _ => None end)
    (stdout_of (future_program.main (lib := reference_library) (λ _, 0%nat)).2)
  = [30; 100; 42; -1; 300; 1; 1; 3000; 2; 2; 3000] ∧
  omap (λ x, match x with OBool b => Some b | _ => None end)
    (stdout_of (future_program.main (lib := reference_library) (λ _, 0%nat)).2)
  = [false; true].
Proof. repeat split; by vm_compute. Qed.
(** ** fstream.cpp, example by example *)


Lemma substring_all (s : string) : substring 0 (String.length s) s = s.
Proof. induction s as [|c s IH]; simpl; congruence. Qed.

Lemma substring_drop (d : string) : ∀ p n,
  substring (p + n) (String.length d - (p + n)) d
  = substring n (String.length (substring p (String.length d - p) d) - n)
      (substring p (String.length d - p) d).
Proof.
  induction d as [|c d IH]; intros p n.
  - by destruct p, n.
  - destruct p as [|p].
    + rewrite Nat.sub_0_r, substring_all. done.
    + cbn [Nat.add String.length Nat.sub substring]. apply IH.
Qed.

Lemma remaining_advance s n :
  fstream.remaining (fstream.advance s n)
  = substring n (String.length (fstream.remaining s) - n) (fstream.remaining s).
Proof. unfold fstream.remaining. simpl. apply substring_drop. Qed.

Lemma split_line_Some (cs : string) : ∀ l rest,
  fstream.split_line cs = (l, Some rest) →
  substring (String.length l + 1) (String.length cs - (String.length l + 1)) cs = rest
  ∧ text_lines cs = l :: text_lines rest.
Proof.
  induction cs as [|c cs IH]; intros l rest; simpl; [done|].
  destruct (Ascii.eqb c _).
  - intros [= <- <-]. simpl. by rewrite Nat.sub_0_r, substring_all.
  - destruct (fstream.split_line cs) as [l' [rest'|]] eqn:E; [|done].
    intros [= <- <-]. destruct (IH _ _ eq_refl) as [H1 H2]. simpl.
    rewrite H1, H2. done.
Qed.

Lemma split_line_None (cs : string) : ∀ l,
  fstream.split_line cs = (l, None) →
  l = cs ∧ text_lines cs = if bool_decide (l = EmptyString) then [] else [l].
Proof.
  induction cs as [|c cs IH]; intros l; simpl.
  - by intros [= <-].
  - destruct (Ascii.eqb c _); [done|].
    destruct (fstream.split_line cs) as [l' [rest'|]] eqn:E; [done|].
    intros [= <-]. destruct (IH _ eq_refl) as [-> H2]. split; [done|].
    rewrite H2. rewrite (bool_decide_eq_false_2 (String c cs = EmptyString)) by done.
    by case_bool_decide; subst.
Qed.

Lemma good_flags s :
  fstream.good s = true →
  fstream.eofbit s = false ∧ fstream.failbit s = false ∧ fstream.badbit s = false.
Proof.
  unfold fstream.good. destruct (fstream.eofbit s), (fstream.failbit s),
    (fstream.badbit s); simpl; done.
Qed.

Lemma while_getline_lines body (n : nat) : ∀ s,
  String.length (fstream.remaining s) = n → fstream.good s = true →
  fstream.while_getline s body
  = (read_to_end s, text_lines (fstream.remaining s) ≫= body).
Proof.
  induction (lt_wf n) as [n _ IH]. intros s Hn Hgood.
  destruct (good_flags s Hgood) as (He & Hf & Hb).
  rewrite while_getline_unfold. unfold fstream.getline. rewrite Hgood.
  destruct (fstream.split_line (fstream.remaining s)) as [l [rest|]] eqn:E.
  - pose proof (split_line_length _ _ _ E) as Hlen.
    destruct (split_line_Some _ _ _ E) as [Hrest Hlines].
    assert (Hrem : fstream.remaining (fstream.advance s (String.length l + 1)) = rest).
    { by rewrite remaining_advance. }
    replace (fstream.fail (fstream.advance s (String.length l + 1))) with false
      by (unfold fstream.fail; simpl; by rewrite Hf, Hb).
    rewrite (IH (String.length rest)); [| lia | by rewrite Hrem | done].
    rewrite Hrem, Hlines, bind_cons. f_equal.
    unfold read_to_end. simpl. rewrite Hrem. f_equal. lia.
  - destruct (split_line_None _ _ E) as [-> Hlines]. rewrite Hlines.
    case_bool_decide as Hl.
    + unfold read_to_end, fstream.set_eof_fail, fstream.fail. simpl.
      rewrite Hb. done.
    + unfold fstream.fail at 1. cbn [fstream.failbit fstream.badbit fstream.advance].
      rewrite Hf, Hb. cbn [orb].
      rewrite while_getline_unfold. unfold fstream.getline, fstream.good.
      cbn [fstream.eofbit orb negb]. unfold fstream.fail, fstream.set_fail.
      cbn [fstream.failbit orb]. unfold read_to_end. simpl. done.
Qed.

(** A freshly opened stream reads the whole file. *)
Lemma remaining_opened path w contents :
  fstream.remaining (fstream.Stream path w true contents 0 false false false)
  = contents.
Proof. unfold fstream.remaining. simpl. by rewrite Nat.sub_0_r, substring_all. Qed.

Lemma read_loop_opened path w contents body :
  fstream.while_getline (fstream.Stream path w true contents 0 false false false) body
  = (fstream.Stream path w true contents (String.length contents) true true false,
     text_lines contents ≫= body).
Proof.
  erewrite while_getline_lines; [|done..].
  unfold read_to_end. by rewrite remaining_opened.
Qed.

Lemma read_loop_not_opened path body :
  fstream.while_getline (fstream.not_opened path) body
  = (fstream.not_opened path, []).
Proof. reflexivity. Qed.

Lemma example_ifstream_result (fs : fstream.files) :
  fstream.example_ifstream fs
  = (Normal (),
     match fs !! "input.txt" with
     | Some contents =>
         text_lines contents ≫= λ l, cout [OStr "Read line: "; OStr l; Endl]
     | None => cerr [OStr "Could not open input.txt"; Endl]
     end,
     fs).
Proof.
  unfold fstream.example_ifstream, mbind, fstream.IO_bind, fstream.ifstream.
  destruct (fs !! "input.txt") as [contents|]; [|reflexivity].
  cbn [fstream.is_open]. rewrite read_loop_opened.
  unfold fstream.out, fstream.close, fstream.flush, mbind, fstream.IO_bind,
    mret, fstream.IO_ret. simpl. by rewrite !app_nil_r.
Qed.

Lemma example_state_result (fs : fstream.files) :
  fstream.example_state fs
  = (Normal (),
     cout [OStr "EOF: "; OBool (bool_decide (is_Some (fs !! "lines.txt")));
           OStr ", Good: "; OBool false; OStr ", Bad: "; OBool false;
           OStr ", Fail: "; OBool true; Endl],
     fs).
Proof.
  unfold fstream.example_state, mbind, fstream.IO_bind, fstream.ifstream.
  destruct (fs !! "lines.txt") as [contents|].
  - rewrite read_loop_opened. reflexivity.
  - rewrite read_loop_not_opened. reflexivity.
Qed.


Lemma string_app_cons c s rest : String c s +:+ rest = String c (s +:+ rest).
Proof. reflexivity. Qed.

Lemma string_app_nil_r (s : string) : s +:+ EmptyString = s.
Proof. induction s as [|c s IH]; [done|]. rewrite string_app_cons. by rewrite IH. Qed.

Lemma overwrite_fresh (cs : string) : fstream.overwrite 0 cs EmptyString = cs.
Proof.
  unfold fstream.overwrite.
  assert (H : ∀ n m, substring n m EmptyString = EmptyString)
    by (by intros [|n] [|m]).
  rewrite !H. cbn [Nat.sub replicate string_of_list_ascii String.length].
  change (EmptyString +:+ EmptyString +:+ cs +:+ EmptyString)
    with (cs +:+ EmptyString).
  apply string_app_nil_r.
Qed.

Ltac unfold_example :=
  unfold fstream.example_ofstream, fstream.example_fstream,
    fstream.example_get_put, fstream.example_getline, fstream.example_seek_tell,
    fstream.example_flush, fstream.example_formatted_io.

(* Evaluates the reads from a stream whose contents are known. *)
Ltac eval_reads :=
  repeat match goal with
  | |- context [fstream.while_getline ?s ?b] =>
      let v := eval vm_compute in (fstream.while_getline s b) in
      change (fstream.while_getline s b) with v
  | |- context [fstream.while_get ?s ?b] =>
      let v := eval vm_compute in (fstream.while_get s b) in
      change (fstream.while_get s b) with v
  | |- context [fstream.getline ?s ?l] =>
      let v := eval vm_compute in (fstream.getline s l) in
      change (fstream.getline s l) with v
  | |- context [fstream.get ?s] =>
      let v := eval vm_compute in (fstream.get s) in
      change (fstream.get s) with v
  | |- context [fstream.read ?s ?n] =>
      let v := eval vm_compute in (fstream.read s n) in
      change (fstream.read s n) with v
  | |- context [fstream.extract_int ?s] =>
      let v := eval vm_compute in (fstream.extract_int s) in
      change (fstream.extract_int s) with v
  end.

Ltac run_example :=
  repeat progress
    (unfold mbind, fstream.IO_bind, fstream.ofstream, fstream.fstream_trunc,
       fstream.ifstream, fstream.fstream_in_out, fstream.endl, fstream.close,
       fstream.flush, fstream.out, fstream.initialised, mret, fstream.IO_ret;
     cbn -[fstream.while_getline fstream.while_get fstream.getline fstream.get
           fstream.read fstream.extract_int fstream.raw_into_int
           fstream.overwrite];
     rewrite ?lookup_insert_eq, ?insert_insert_eq, ?overwrite_fresh,
       ?read_loop_opened;
     eval_reads).

Lemma example_ofstream_result (fs : fstream.files) :
  fstream.example_ofstream fs
  = (Normal (), [],
     <["output.txt" := line "Hello, file!" +:+ "A" +:+ line "Raw bytes"]> fs).
Proof. unfold_example. run_example. reflexivity. Qed.

Lemma example_fstream_result (fs : fstream.files) :
  fstream.example_fstream fs
  = (Normal (),
     cout [OStr "fstream read: "; OStr "Line 1"; Endl;
           OStr "fstream read: "; OStr "Line 2"; Endl],
     <["data.txt" := line "Line 1" +:+ line "Line 2"]> fs).
Proof. unfold_example. run_example. reflexivity. Qed.

Lemma example_get_put_result (fs : fstream.files) :
  fstream.example_get_put fs
  = (Normal (),
     cout [OStr "Character read: "; OChar "X"; Endl;
           OStr "Character read: "; OChar (ascii_of_nat 10); Endl],
     <["chars.txt" := line "X"]> fs).
Proof. unfold_example. run_example. reflexivity. Qed.

Lemma example_getline_result (fs : fstream.files) :
  fstream.example_getline fs
  = (Normal (),
     cout [OStr "Line: "; OStr "First line"; Endl;
           OStr "Line: "; OStr "Second line"; Endl],
     <["lines.txt" := line "First line" +:+ line "Second line"]> fs).
Proof. unfold_example. run_example. reflexivity. Qed.

Lemma example_seek_tell_result (fs : fstream.files) :
  fstream.example_seek_tell fs
  = (Normal (),
     cout [OStr "Character at position 2: "; OChar "c"; Endl;
           OStr "Current get pointer: "; OInt 3; Endl;
           OStr "Modified line: "; OStr "abcdZf"; Endl],
     <["seek.txt" := "abcdZf"]> fs).
Proof. unfold_example. run_example. reflexivity. Qed.

Lemma example_flush_result (fs : fstream.files) :
  fstream.example_flush fs
  = (Normal (), [], <["flush.txt" := "This will be flushed."]> fs).
Proof. unfold_example. run_example. reflexivity. Qed.

Lemma example_formatted_io_result (impl : Implementation) (fs : fstream.files) :
  double_to_chars Double.literal_3_14 = "3.14" →
  double_from_chars ("3.14" +:+ nl) = Some (Double.literal_3_14, nl) →
  fstream.example_formatted_io fs
  = (Normal (),
     cout [OStr "Read numbers: "; OInt 42; OStr ", ";
           ODouble Double.literal_3_14; Endl],
     <["numbers.txt" := line "42 3.14"]> fs).
Proof.
  intros Hto Hfrom. unfold fstream.example_formatted_io. rewrite Hto.
  unfold fstream.extract_double.
  run_example.
  replace (double_from_chars _) with (Some (Double.literal_3_14, nl))
    by (symmetry; exact Hfrom).
  run_example. reflexivity.
Qed.

Lemma example_open_close_isopen_result (fs : fstream.files) :
  fstream.example_open_close_isopen fs
  = (Normal (),
     if bool_decide (is_Some (fs !! "input.txt"))
     then cout [OStr "File opened successfully!"; Endl; OStr "File closed."; Endl]
     else [],
     fs).
Proof.
  unfold fstream.example_open_close_isopen, mbind, fstream.IO_bind,
    fstream.ifstream.
  destruct (fs !! "input.txt") as [contents|]; reflexivity.
Qed.

Lemma welcome_message_result (fs : fstream.files) :
  fstream.welcome_message fs
  = (Normal (),
     cout [OStr "****************"; Endl; OStr "* #include <fstream> *"; Endl;
           OStr "*** fstream  ***"; Endl; OStr "****************"; Endl],
     fs).
Proof. reflexivity. Qed.


Lemma IO_bind_normal {A B : Type} (m : fstream.IO A) (k : A → fstream.IO B)
    (fs fs' : fstream.files) (a : A) (t : list event) :
  m fs = (Normal a, t, fs') →
  (m ≫= k) fs = (let '(r, t', fs'') := k a fs' in (r, t ++ t', fs'')).
Proof. intros H. unfold mbind, fstream.IO_bind. by rewrite H. Qed.

Lemma read_write_of_result (impl : Implementation) (number : Z)
    (fs : fstream.files) :
  Int.in_range number = true →
  read_write_of number fs
  = (Normal (), cout [OStr "Recovered number: "; OInt number; Endl],
     <["binary.dat" := fstream.int_to_raw number]> fs).
Proof.
  intros Hn. pose proof (raw_round_trip impl number 0 Hn) as Hrt.
  unfold read_write_of.
  assert (Hlen : ∃ b0 b1 b2 b3, fstream.int_to_raw number
            = String b0 (String b1 (String b2 (String b3 EmptyString)))).
  { unfold fstream.int_to_raw. destruct big_endian; by do 4 eexists. }
  destruct Hlen as (b0 & b1 & b2 & b3 & Hraw). rewrite Hraw in *.
  run_example. rewrite Hrt. reflexivity.
Qed.

Lemma main_result (impl : Implementation) (fs : fstream.files) :
  double_to_chars Double.literal_3_14 = "3.14" →
  double_from_chars ("3.14" +:+ nl) = Some (Double.literal_3_14, nl) →
  fstream.main fs
  = (Normal 0, expected_output (fs !! "input.txt"), expected_files fs).
Proof.
  intros Hto Hfrom. unfold fstream.main.
  rewrite (IO_bind_normal _ _ _ _ _ _ (welcome_message_result _)).
  rewrite (IO_bind_normal _ _ _ _ _ _ (example_ofstream_result _)).
  rewrite (IO_bind_normal _ _ _ _ _ _ (example_ifstream_result _)).
  rewrite (IO_bind_normal _ _ _ _ _ _ (example_fstream_result _)).
  rewrite (IO_bind_normal _ _ _ _ _ _ (example_open_close_isopen_result _)).
  rewrite (IO_bind_normal _ _ _ _ _ _
             (read_write_of_result impl 12345 _ eq_refl)).
  rewrite (IO_bind_normal _ _ _ _ _ _ (example_get_put_result _)).
  rewrite (IO_bind_normal _ _ _ _ _ _ (example_getline_result _)).
  rewrite (IO_bind_normal _ _ _ _ _ _ (example_seek_tell_result _)).
  rewrite (IO_bind_normal _ _ _ _ _ _ (example_state_result _)).
  rewrite (IO_bind_normal _ _ _ _ _ _
             (example_formatted_io_result impl _ Hto Hfrom)).
  rewrite (IO_bind_normal _ _ _ _ _ _ (example_flush_result _)).
  cbv beta iota zeta delta [mret fstream.IO_ret].
  rewrite !lookup_insert_ne by done. rewrite lookup_insert_eq.
  destruct (fs !! "input.txt") as [contents|]; reflexivity.
Qed.


(** ** Formatted numbers *)


Lemma digits_stop rest acc :
  fstream.starts_with_digit rest = false → fstream.digits rest acc = (acc, rest).
Proof.
  destruct rest as [|c rest]; [done|]. simpl.
  destruct (Ascii.is_nat c) eqn:E; [|done].
  intros H. apply bool_decide_eq_false in H. destruct H. by eexists.
Qed.

Lemma digits_uint_acc (d : Decimal.uint) : ∀ (p : positive) rest,
  fstream.starts_with_digit rest = false →
  fstream.digits (NilEmpty.string_of_uint d +:+ rest) (Z.pos p)
  = (Z.pos (Pos.of_uint_acc d p), rest).
Proof.
  induction d as [|d IH|d IH|d IH|d IH|d IH|d IH|d IH|d IH|d IH|d IH];
    intros p rest Hrest;
    cbn [NilEmpty.string_of_uint Pos.of_uint_acc];
    [by apply digits_stop|..];
    rewrite string_app_cons; cbn [fstream.digits Ascii.is_nat];
    (etrans; [|by apply IH]); f_equal; lia.
Qed.

Lemma digits_uint (d : Decimal.uint) : ∀ rest,
  fstream.starts_with_digit rest = false →
  fstream.digits (NilEmpty.string_of_uint d +:+ rest) 0
  = (Z.of_N (Pos.of_uint d), rest).
Proof.
  induction d as [|d IH|d IH|d IH|d IH|d IH|d IH|d IH|d IH|d IH|d IH];
    intros rest Hrest;
    cbn [NilEmpty.string_of_uint Pos.of_uint];
    [by apply digits_stop|..];
    rewrite string_app_cons; cbn [fstream.digits Ascii.is_nat];
    [by apply IH|..];
    by apply (digits_uint_acc d).
Qed.

Lemma uint_head_digit (d : Decimal.uint) rest :
  d ≠ Decimal.Nil →
  fstream.starts_with_digit (NilEmpty.string_of_uint d +:+ rest) = true ∧
  fstream.skip_space (NilEmpty.string_of_uint d +:+ rest)
    = NilEmpty.string_of_uint d +:+ rest ∧
  fstream.signed_digits (NilEmpty.string_of_uint d +:+ rest)
    = Some (fstream.digits (NilEmpty.string_of_uint d +:+ rest) 0).
Proof. destruct d; done. Qed.

Lemma signed_digits_int (n : Z) (rest : string) :
  fstream.starts_with_digit rest = false →
  fstream.signed_digits (fstream.int_to_chars n +:+ rest) = Some (n, rest) ∧
  fstream.skip_space (fstream.int_to_chars n +:+ rest)
    = fstream.int_to_chars n +:+ rest ∧
  fstream.int_to_chars n +:+ rest ≠ EmptyString.
Proof.
  intros Hrest. unfold fstream.int_to_chars.
  destruct n as [|p|p]; cbn [Z.to_int NilZero.string_of_int].
  - cbn. rewrite string_app_cons. cbn. by rewrite digits_stop.
  - pose proof (DecimalPos.Unsigned.to_uint_nonnil p) as Hnil.
    pose proof (DecimalPos.Unsigned.of_to p) as Hp.
    unfold NilZero.string_of_uint.
    destruct (Pos.to_uint p) eqn:E; [done|..];
      rewrite <- E in *; clear E;
      destruct (uint_head_digit (Pos.to_uint p) rest Hnil) as (H1 & H2 & H3);
      (split; [|split; [done|]]).
    all: try (rewrite H3, digits_uint, Hp by done; done).
    all: intros H; rewrite H in H1; done.
  - pose proof (DecimalPos.Unsigned.to_uint_nonnil p) as Hnil.
    pose proof (DecimalPos.Unsigned.of_to p) as Hp.
    unfold NilZero.string_of_uint.
    destruct (Pos.to_uint p) eqn:E; [done|..];
      rewrite <- E in *; clear E;
      destruct (uint_head_digit (Pos.to_uint p) rest Hnil) as (H1 & H2 & H3);
      rewrite string_app_cons; (split; [|split; [done|done]]).
    all: cbn [fstream.signed_digits]; rewrite H1, digits_uint, Hp by done; done.
Qed.

Lemma string_length_app (a b : string) :
  String.length (a +:+ b) = (String.length a + String.length b)%nat.
Proof. induction a as [|c a IH]; [done|]. rewrite string_app_cons. simpl. by rewrite IH. Qed.

Lemma substring_app_drop (a b : string) :
  substring (String.length a) (String.length b) (a +:+ b) = b.
Proof.
  induction a as [|c a IH]; [apply substring_all|].
  rewrite string_app_cons. simpl. apply IH.
Qed.


(** ** Lines written and read back *)

Lemma string_app_assoc (a b c : string) : (a +:+ b) +:+ c = a +:+ (b +:+ c).
Proof.
  induction a as [|x a IH]; [done|]. rewrite !string_app_cons. by rewrite IH.
Qed.

Lemma text_lines_line (l text : string) :
  ascii_of_nat 10 ∉ list_ascii_of_string l →
  text_lines (line l +:+ text) = l :: text_lines text.
Proof.
  unfold line, nl. induction l as [|c l IH]; intros Hl.
  - reflexivity.
  - rewrite !string_app_cons. cbn [text_lines].
    cbn [list_ascii_of_string] in Hl. apply not_elem_of_cons in Hl as [Hc Hl].
    destruct (Ascii.eqb c (ascii_of_nat 10)) eqn:E.
    { apply Ascii.eqb_eq in E. by subst c. }
    by rewrite (IH Hl).
Qed.

Lemma text_lines_join (ls : list string) :
  Forall (λ l, ascii_of_nat 10 ∉ list_ascii_of_string l) ls →
  text_lines (join_lines ls) = ls.
Proof.
  induction 1 as [|l ls Hl _ IH]; [done|].
  unfold join_lines. cbn [foldr]. rewrite text_lines_line by done.
  by rewrite <- IH at 2.
Qed.


(** ** Properties of fstream.cpp *)

(** X1. [example_ifstream] prints every line of input.txt once and in
    order, a last line that lacks its newline included, and nothing on
    [std::cerr]; when there is no input.txt it prints nothing but the
    complaint on [std::cerr].  Either way it leaves every file as it was. *)
Theorem example_ifstream_reads_every_line (fs : fstream.files) :
  fstream.example_ifstream fs
  = (Normal (),
     match fs !! "input.txt" with
     | Some contents =>
         text_lines contents ≫= λ l, cout [OStr "Read line: "; OStr l; Endl]
     | None => cerr [OStr "Could not open input.txt"; Endl]
     end,
     fs).
Proof. apply example_ifstream_result. Qed.

(** X2. Whatever lines.txt holds, after its read loop [example_state]
    reports that the stream is neither good nor bad and that the last read
    failed; it reports the end of the file exactly when lines.txt exists (a
    stream that could not be opened never reaches it).  No file changes. *)
Theorem example_state_reports_end_of_file (fs : fstream.files) :
  fstream.example_state fs
  = (Normal (),
     cout [OStr "EOF: "; OBool (bool_decide (is_Some (fs !! "lines.txt")));
           OStr ", Good: "; OBool false; OStr ", Bad: "; OBool false;
           OStr ", Fail: "; OBool true; Endl],
     fs).
Proof. apply example_state_result. Qed.

(** X3. The whole of fstream.cpp, from any directory: on an implementation
    that writes the [double] 3.14 as the characters 3.14 and reads them back
    as that [double], [main] returns 0, prints [expected_output] (which
    depends on the contents of input.txt only) and leaves the directory with
    its eight scratch files rewritten and every other file as it was. *)
Theorem fstream_main_behaviour (impl : Implementation) (fs : fstream.files) :
  double_to_chars Double.literal_3_14 = "3.14" →
  double_from_chars ("3.14" +:+ nl) = Some (Double.literal_3_14, nl) →
  fstream.main fs
  = (Normal 0, expected_output (fs !! "input.txt"), expected_files fs).
Proof. apply main_result. Qed.

Lemma fstream_main_behaviour_witness :
  fstream.main (impl := reference_implementation)
    {[ "input.txt" := line "one" +:+ "two" ]}
  = (Normal 0, expected_output (Some (line "one" +:+ "two")),
     expected_files (impl := reference_implementation)
       {[ "input.txt" := line "one" +:+ "two" ]}).
Proof.
  exact (fstream_main_behaviour reference_implementation
           {[ "input.txt" := line "one" +:+ "two" ]} eq_refl eq_refl).
Defined.

(** X4. fstream.cpp never creates, changes or removes a file other than its
    eight scratch files, on any implementation and however the run ends; in
    particular input.txt is only read. *)
Theorem fstream_main_frame (impl : Implementation) (fs : fstream.files)
    (p : string) :
  p ∉ ["output.txt"; "data.txt"; "binary.dat"; "chars.txt"; "lines.txt";
       "seek.txt"; "numbers.txt"; "flush.txt"] →
  files_after (fstream.main fs) !! p = fs !! p.
Proof.
  intros Hp.
  assert (H1 : "output.txt" ≠ p) by (intros <-; apply Hp; set_solver).
  assert (H2 : "data.txt" ≠ p) by (intros <-; apply Hp; set_solver).
  assert (H3 : "binary.dat" ≠ p) by (intros <-; apply Hp; set_solver).
  assert (H4 : "chars.txt" ≠ p) by (intros <-; apply Hp; set_solver).
  assert (H5 : "lines.txt" ≠ p) by (intros <-; apply Hp; set_solver).
  assert (H6 : "seek.txt" ≠ p) by (intros <-; apply Hp; set_solver).
  assert (H7 : "numbers.txt" ≠ p) by (intros <-; apply Hp; set_solver).
  assert (H8 : "flush.txt" ≠ p) by (intros <-; apply Hp; set_solver).
  clear Hp.
  assert (H : untouched p fstream.main (λ _, True)); [|apply H].
  unfold fstream.main.
  repeat lazymatch goal with
  | |- untouched _ (?m ≫= _) _ =>
      apply (untouched_bind p m _ (λ _, True));
        [ unfold fstream.welcome_message, fstream.example_ofstream,
            fstream.example_ifstream, fstream.example_fstream,
            fstream.example_open_close_isopen, fstream.example_read_write,
            fstream.example_get_put, fstream.example_getline,
            fstream.example_seek_tell, fstream.example_state,
            fstream.example_formatted_io, fstream.example_flush;
          untouched_go
        | intros _ _ ]
  end.
  by apply untouched_ret.
Qed.

Lemma fstream_main_frame_witness :
  files_after (fstream.main (impl := reference_implementation)
                 {[ "notes.md" := "keep" ]}) !! "notes.md"
  = ({[ "notes.md" := "keep" ]} : fstream.files) !! "notes.md".
Proof.
  apply (fstream_main_frame reference_implementation _ "notes.md").
  intros H. repeat (apply elem_of_cons in H as [H|H]; [discriminate|]).
  by apply elem_of_nil in H.
Defined.

(** X5. Running fstream.cpp a second time leaves the directory exactly as
    the first run left it: nothing accumulates from run to run. *)
Theorem fstream_second_run_same_files (impl : Implementation)
    (fs : fstream.files) :
  double_to_chars Double.literal_3_14 = "3.14" →
  double_from_chars ("3.14" +:+ nl) = Some (Double.literal_3_14, nl) →
  files_after (fstream.main (files_after (fstream.main fs)))
  = files_after (fstream.main fs).
Proof.
  intros Hto Hfrom. rewrite !(main_result impl _ Hto Hfrom).
  unfold files_after, expected_files, scratch_files. cbn [snd foldl fst].
  apply map_eq. intros k. rewrite !lookup_insert.
  repeat case_decide; try done; congruence.
Qed.

Lemma fstream_second_run_same_files_witness :
  files_after (fstream.main (impl := reference_implementation)
    (files_after (fstream.main (impl := reference_implementation) ∅)))
  = files_after (fstream.main (impl := reference_implementation) ∅).
Proof.
  exact (fstream_second_run_same_files reference_implementation ∅
           eq_refl eq_refl).
Defined.

(** X6. The binary round trip of [example_read_write] works for every
    [int], not only for 12345: with any [int] in place of the literal, on
    either byte order and whatever binary.dat held before, the value written
    with [write] is the value [read] recovers, and binary.dat ends up holding
    its four bytes. *)
Theorem binary_round_trip_every_int (impl : Implementation) (number : Z)
    (fs : fstream.files) :
  Int.in_range number = true →
  read_write_of number fs
  = (Normal (), cout [OStr "Recovered number: "; OInt number; Endl],
     <["binary.dat" := fstream.int_to_raw number]> fs) ∧
  fstream.example_read_write = read_write_of 12345.
Proof. intros Hn. split; [by apply read_write_of_result | reflexivity]. Qed.

Lemma binary_round_trip_every_int_witness :
  read_write_of (impl := reference_implementation) (-2147483648) ∅
  = (Normal (), cout [OStr "Recovered number: "; OInt (-2147483648); Endl],
     <["binary.dat" := fstream.int_to_raw (impl := reference_implementation)
                         (-2147483648)]> ∅).
Proof.
  exact (proj1 (binary_round_trip_every_int reference_implementation
                  (-2147483648) ∅ eq_refl)).
Defined.

(** X7. Formatted output and input of an [int] are inverse: the characters
    [operator<<] writes for any [int], followed by anything that does not
    start with a digit, are read back by [operator>>] as the same [int]; the
    stream is left at the first character after the number and has not
    failed.  [example_formatted_io] does this with 42 and a space. *)
Theorem formatted_int_round_trip (n : Z) (path rest : string) :
  Int.in_range n = true → fstream.starts_with_digit rest = false →
  let s := fstream.Stream path false true (fstream.int_to_chars n +:+ rest)
             0 false false false in
  (fstream.extract_int s).2 = Some n ∧
  fstream.remaining (fstream.extract_int s).1 = rest ∧
  fstream.fail (fstream.extract_int s).1 = false.
Proof.
  intros Hn Hrest s.
  destruct (signed_digits_int n rest Hrest) as (Hsd & Hsk & Hne).
  assert (Hrs : fstream.remaining s = fstream.int_to_chars n +:+ rest)
    by apply remaining_opened.
  assert (He : fstream.extract_int s = (fstream.after s rest, Some n)).
  { unfold fstream.extract_int. replace (fstream.good s) with true by done.
    cbv zeta. rewrite Hrs, Hsk, bool_decide_eq_false_2, Hsd, Hn; done. }
  rewrite He. cbn [fst snd]. split; [done|].
  assert (Hrem : fstream.remaining
            (fstream.advance s
               (String.length (fstream.remaining s) - String.length rest)) = rest).
  { rewrite remaining_advance, Hrs, string_length_app.
    replace (String.length (fstream.int_to_chars n) + String.length rest
             - String.length rest)%nat
      with (String.length (fstream.int_to_chars n)) by lia.
    replace (String.length (fstream.int_to_chars n) + String.length rest
             - String.length (fstream.int_to_chars n))%nat
      with (String.length rest) by lia.
    apply substring_app_drop. }
  unfold fstream.after. case_bool_decide; (split; [exact Hrem | done]).
Qed.

Lemma formatted_int_round_trip_witness :
  (fstream.extract_int
     (fstream.Stream "numbers.txt" false true
        (fstream.int_to_chars (-1207) +:+ " 3.14") 0 false false false)).2
  = Some (-1207).
Proof.
  exact (proj1 (formatted_int_round_trip (-1207) "numbers.txt" " 3.14"
                  eq_refl eq_refl)).
Defined.

(** X8. [example_getline] with any text in place of its literal: the loop
    prints exactly the lines of the text just written, whatever lines.txt
    held before, and lines.txt ends up holding the text.  Lines written with
    a newline after each are read back unchanged. *)
Theorem written_lines_read_back (text : string) (fs : fstream.files) :
  getline_of text fs
  = (Normal (),
     text_lines text ≫= (λ l, cout [OStr "Line: "; OStr l; Endl]),
     <["lines.txt" := text]> fs) ∧
  (∀ ls, Forall (λ l, ascii_of_nat 10 ∉ list_ascii_of_string l) ls →
         text_lines (join_lines ls) = ls) ∧
  fstream.example_getline = getline_of (join_lines ["First line"; "Second line"]).
Proof.
  split; [|split; [apply text_lines_join | reflexivity]].
  unfold getline_of. run_example. by rewrite !app_nil_r.
Qed.

(** ** The shared counter of mutex.cpp *)

Lemma counter_rounds : Z.of_nat counter.rounds = 1000.
Proof. reflexivity. Qed.

(** One step of a thread that takes the lock keeps the state consistent;
    [other] is the thread that does not move. *)
Lemma counter_thread_step_consistent (c : Z) (m : bool)
    (th other : counter.thread) (c' : Z) (m' : bool) (th' : counter.thread)
    (o' : bool) :
  c = Z.of_nat (counter.increments th + counter.increments other) →
  counter.thread_ok c th → counter.thread_ok c other →
  m = counter.in_critical_section th || counter.in_critical_section other →
  counter.in_critical_section th && counter.in_critical_section other = false →
  counter.thread_step true c m th false = Some (c', m', th', o') →
  o' = false ∧
  c' = Z.of_nat (counter.increments th' + counter.increments other) ∧
  counter.thread_ok c' th' ∧ counter.thread_ok c' other ∧
  m' = counter.in_critical_section th' || counter.in_critical_section other ∧
  counter.in_critical_section th' && counter.in_critical_section other = false.
Proof.
  pose proof counter_rounds as Hr.
  destruct th as [i p], other as [j q].
  unfold counter.thread_step, counter.thread_ok, counter.increments,
    counter.in_critical_section.
  cbn [counter.i counter.at_].
  intros Hc H1 H2 Hm Hx Hstep.
  destruct p as [| |v| |].
  - (* at the loop test *)
    case_bool_decide as Hi.
    + destruct m; [done|]. injection Hstep as <- <- <- <-. cbn [counter.i counter.at_].
      symmetry in Hm. apply orb_false_iff in Hm as [_ Hq]. rewrite Hq.
      repeat split; try done; try lia; destruct q; try done; simpl in *; lia.
    + injection Hstep as <- <- <- <-. cbn [counter.i counter.at_].
      repeat split; try done; try lia.
  - (* inside: the load *)
    injection Hstep as <- <- <- <-. cbn [counter.i counter.at_]. repeat split; try done; try lia.
  - (* loaded: the store *)
    destruct H1 as [Hi ->].
    assert (Hq : match q with
                 | counter.Inside | counter.Loaded _ | counter.Stored => true
                 | _ => false
                 end = false) by (by destruct q).
    unfold Int.add in Hstep. rewrite checked_in_range in Hstep.
    2: { apply in_range_spec. unfold Int.INT_MIN, Int.INT_MAX.
         destruct q; try done; simpl in *; lia. }
    injection Hstep as <- <- <- <-. cbn [counter.i counter.at_].
    repeat split; try done; try lia; destruct q; try done; simpl in *; lia.
  - (* stored: the lock_guard is destroyed, [++i] *)
    injection Hstep as <- <- <- <-. cbn [counter.i counter.at_].
    assert (Hq : match q with
                 | counter.Inside | counter.Loaded _ | counter.Stored => true
                 | _ => false
                 end = false) by (by destruct q).
    rewrite Hq.
    repeat split; try done; try lia; destruct q; try done; simpl in *; lia.
  - done.
Qed.

Lemma counter_step_consistent first s s' :
  counter.consistent s → counter.step true first s = Some s' →
  counter.consistent s'.
Proof.
  destruct s as [c m th1 th2 o]. unfold counter.consistent, counter.step.
  cbn [counter.shared_counter counter.counter_mutex counter.t1 counter.t2
       counter.overflowed].
  intros (-> & Hc & H1 & H2 & Hm & Hx) Hstep. destruct first.
  - destruct (counter.thread_step true c m th1 false)
      as [[[[c' m'] th'] o']|] eqn:E; [|done].
    injection Hstep as <-.
    cbn [counter.shared_counter counter.counter_mutex counter.t1 counter.t2
         counter.overflowed].
    by apply (counter_thread_step_consistent c m th1 th2).
  - destruct (counter.thread_step true c m th2 false)
      as [[[[c' m'] th'] o']|] eqn:E; [|done].
    injection Hstep as <-.
    cbn [counter.shared_counter counter.counter_mutex counter.t1 counter.t2
         counter.overflowed].
    destruct (counter_thread_step_consistent c m th2 th1 c' m' th' o')
      as (Ho & Hc' & H2' & H1' & Hm' & Hx'); try done.
    + rewrite Hc. f_equal. lia.
    + rewrite Hm. apply orb_comm.
    + rewrite <- Hx. apply andb_comm.
    + repeat split; try done.
      * rewrite Hc'. f_equal. lia.
      * rewrite Hm'. apply orb_comm.
      * rewrite <- Hx'. apply andb_comm.
Qed.

Lemma counter_exec_consistent schedule : ∀ s,
  counter.consistent s → counter.consistent (counter.exec true schedule s).
Proof.
  induction schedule as [|first schedule IH]; intros s Hs; [done|].
  unfold counter.exec. cbn [foldl]. apply IH.
  destruct (counter.step true first s) as [s'|] eqn:E; [|done].
  by eapply counter_step_consistent.
Qed.

Lemma counter_started_consistent : counter.consistent counter.started.
Proof. unfold counter.consistent. cbn. repeat split; lia. Qed.

(** X9. mutex.cpp, the loop with [std::lock_guard]: under every schedule of
    the two threads no increment overflows, the two threads are never both
    between the construction and the destruction of their [lock_guard],
    [shared_counter] holds exactly the increments completed so far, and once
    both threads have finished it is 2000. *)
Theorem lock_guard_counts_every_increment (schedule : list bool) :
  let s := counter.exec true schedule counter.started in
  counter.overflowed s = false ∧
  counter.in_critical_section (counter.t1 s)
    && counter.in_critical_section (counter.t2 s) = false ∧
  counter.shared_counter s
    = Z.of_nat (counter.increments (counter.t1 s)
                + counter.increments (counter.t2 s)) ∧
  (counter.joined s = true → counter.shared_counter s = 2000).
Proof.
  intros s.
  destruct (counter_exec_consistent schedule _ counter_started_consistent)
    as (Ho & Hc & H1 & H2 & Hm & Hx). fold s in Ho, Hc, H1, H2, Hm, Hx.
  repeat split; try done.
  pose proof counter_rounds as Hr.
  unfold counter.joined. intros Hj. rewrite Hc.
  unfold counter.thread_ok, counter.increments in *.
  destruct (counter.at_ (counter.t1 s)), (counter.at_ (counter.t2 s)); try done.
  lia.
Qed.

Lemma lock_guard_counts_every_increment_witness :
  counter.joined
    (counter.exec true (replicate 4001 true ++ replicate 4001 false)
       counter.started) = true ∧
  counter.shared_counter
    (counter.exec true (replicate 4001 true ++ replicate 4001 false)
       counter.started) = 2000.
Proof.
  assert (H : counter.joined
    (counter.exec true (replicate 4001 true ++ replicate 4001 false)
       counter.started) = true) by (by vm_compute).
  split; [exact H|].
  exact (proj2 (proj2 (proj2 (lock_guard_counts_every_increment
           (replicate 4001 true ++ replicate 4001 false)))) H).
Defined.

(** X10. mutex.cpp, the loop without a lock: when the loads and stores of
    the two threads interleave, increments are lost.  There is a schedule
    after which both threads have finished their 1000 rounds and
    [shared_counter] is 1000 instead of 2000. *)
Theorem unlocked_increments_can_be_lost :
  ∃ schedule,
    counter.joined (counter.exec false schedule counter.started) = true ∧
    counter.overflowed (counter.exec false schedule counter.started) = false ∧
    counter.shared_counter (counter.exec false schedule counter.started) = 1000.
Proof.
  exists ([true; true] ++ replicate 4001 false ++ replicate 3999 true).
  by vm_compute.
Qed.
(** ** The helper functions and the library calls, for every input *)

Lemma rem_2_even (n : Z) : Z.rem n 2 = 0 ↔ Z.Even n.
Proof.
  split.
  - intros H. exists (Z.quot n 2). pose proof (Z.quot_rem' n 2). lia.
  - intros [k ->]. rewrite Z.mul_comm. by apply Z.rem_mul.
Qed.

Lemma rem_2_odd (n : Z) : Z.rem n 2 ≠ 0 ↔ Z.Odd n.
Proof.
  rewrite rem_2_even. split.
  - intros H. by destruct (Z.Even_or_Odd n).
  - intros Ho He. by apply (Z.Even_Odd_False n).
Qed.

(** X11. optional.cpp, [find_first_even]: the returned optional holds the
    first even number of the vector (every number before it is odd); it is
    empty exactly when every number is odd.  This holds for negative numbers
    too, where the remainder [num % 2] is negative or zero. *)
Theorem find_first_even_first_even (numbers : list Z) :
  match optional.find_first_even numbers with
  | Some num =>
      ∃ before after,
        numbers = before ++ num :: after ∧ Z.Even num ∧ Forall Z.Odd before
  | None => Forall Z.Odd numbers
  end.
Proof.
  induction numbers as [|num numbers IH]; cbn [optional.find_first_even].
  - constructor.
  - case_bool_decide as E.
    + exists [], numbers. by rewrite <- rem_2_even.
    + apply rem_2_odd in E. destruct (optional.find_first_even numbers) as [x|].
      * destruct IH as (before & after & -> & Hx & Hb).
        exists (num :: before), after. by repeat constructor.
      * by constructor.
Qed.

Lemma isEven_Even (n : Z) :
  algorithm.isEven n = true ↔ Z.Even n.
Proof. unfold algorithm.isEven. rewrite bool_decide_eq_true. apply rem_2_even. Qed.

Lemma isEven_Odd (n : Z) :
  algorithm.isEven n = false ↔ Z.Odd n.
Proof. unfold algorithm.isEven. rewrite bool_decide_eq_false. apply rem_2_odd. Qed.

(** X12. algorithm.cpp, [isEven]: it is true exactly of the multiples of two,
    negative ones included.  So [std::find_if] with [isEven] stops at the
    first even element (or at the end when all are odd), and
    [std::count_if] with [isEven] counts the even elements. *)
Theorem isEven_finds_first_even (range : list Z) :
  (∀ n, algorithm.isEven n = true ↔ ∃ k, n = 2 * k) ∧
  (algorithm.find_if range algorithm.isEven ≤ length range)%nat ∧
  Forall Z.Odd (take (algorithm.find_if range algorithm.isEven) range) ∧
  (algorithm.find_if range algorithm.isEven ≠ length range →
   ∃ x, range !! algorithm.find_if range algorithm.isEven = Some x ∧ Z.Even x) ∧
  algorithm.count_if range algorithm.isEven = length (List.filter Z.even range).
Proof.
  split; [apply isEven_Even|].
  induction range as [|x range IH]; cbn [algorithm.find_if].
  { split; [simpl; lia|]. split; [constructor|]. split; [done|done]. }
  destruct IH as (Hle & Hodd & Hfound & Hcount).
  unfold algorithm.count_if in *. cbn [List.filter].
  assert (Hx : Z.even x = algorithm.isEven x).
  { apply eq_true_iff_eq. by rewrite Z.even_spec, isEven_Even. }
  rewrite Hx. destruct (algorithm.isEven x) eqn:E.
  - apply isEven_Even in E.
    split; [simpl; lia|]. split; [constructor|].
    split; [intros _; by exists x|].
    simpl. by rewrite Hcount.
  - apply isEven_Odd in E.
    split; [simpl; lia|]. split; [by constructor|].
    split; [|done].
    intros H. apply Hfound. simpl in H. lia.
Qed.

(** X13. algorithm.cpp, [std::min_element] and [std::max_element]: on a
    non-empty range they point at elements of the range that bound every
    element from below and from above; only on an empty range do they
    return the end iterator, which [main] would dereference. *)
Theorem min_max_element_bounds (range : list Z) :
  match algorithm.min_element range, algorithm.max_element range with
  | Some lo, Some hi =>
      lo ∈ range ∧ hi ∈ range ∧ Forall (λ x, lo ≤ x ≤ hi) range
  | None, None => range = []
  | _, _ => False
  end.
Proof.
  induction range as [|x range IH]; [done|].
  cbn [algorithm.min_element algorithm.max_element].
  destruct (algorithm.min_element range) as [lo|],
    (algorithm.max_element range) as [hi|]; try done.
  - destruct IH as (Hlo & Hhi & Hall).
    repeat case_bool_decide; (split; [|split]);
      try (constructor; [lia|]); try set_solver;
      eapply Forall_impl; try exact Hall; simpl; intros; lia.
  - subst range. repeat split; try set_solver. by repeat constructor.
Qed.

Lemma math_sum_cons (x : Z) (v : list Z) : math_sum (x :: v) = x + math_sum v.
Proof. reflexivity. Qed.

Lemma partial_sum_loop_prefix_sums rest : ∀ value out (i : nat),
  length out = (S i + length rest)%nat →
  (∀ j : nat, (1 ≤ j ≤ length rest)%nat →
     Int.in_range (value + math_sum (take j rest)) = true) →
  ∃ out', std.partial_sum_loop rest value out i = Some out' ∧
    length out' = length out ∧
    (∀ j : nat, (j ≤ i)%nat → out' !! j = out !! j) ∧
    (∀ j : nat, (j < length rest)%nat →
       out' !! (S i + j)%nat = Some (value + math_sum (take (S j) rest))).
Proof.
  induction rest as [|x rest IH]; intros value out i Hlen Hin;
    cbn [std.partial_sum_loop].
  { exists out. split; [done|]. split; [done|]. split; [done|].
    intros j Hj. simpl in Hj. lia. }
  cbn [length] in Hlen, Hin.
  assert (Hx : Int.add value x = Some (value + x)).
  { apply checked_in_range. specialize (Hin 1%nat).
    cbn [take] in Hin. rewrite math_sum_cons in Hin.
    replace (value + x) with (value + (x + math_sum [])); [apply Hin; lia|].
    unfold math_sum. simpl. lia. }
  rewrite Hx. cbn [mbind option_bind].
  destruct (IH (value + x) (<[S i := value + x]> out) (S i)) as
    (out' & Hrun & Hlen' & Hkeep & Hsums).
  { rewrite length_insert. lia. }
  { intros j Hj. specialize (Hin (S j)). cbn [take] in Hin.
    rewrite math_sum_cons in Hin.
    replace (value + x + math_sum (take j rest))
      with (value + (x + math_sum (take j rest))) by lia.
    apply Hin. lia. }
  exists out'. split; [done|]. split; [by rewrite Hlen', length_insert|].
  split.
  - intros j Hj. rewrite Hkeep by lia. apply list_lookup_insert_ne. lia.
  - intros [|j] Hj.
    + rewrite Nat.add_0_r, Hkeep by lia.
      rewrite list_lookup_insert_eq by lia.
      cbn [take]. rewrite math_sum_cons. unfold math_sum. simpl.
      do 2 f_equal. lia.
    + replace (S i + S j)%nat with (S (S i) + j)%nat by lia.
      rewrite Hsums by (cbn [length] in Hj; lia).
      cbn [take]. rewrite (math_sum_cons x). f_equal. lia.
Qed.

(** X14. numeric.cpp, [std::partial_sum] into a vector of the same size:
    when the running totals fit in an [int], the result has the size of the
    input and its element at every index [k] is the sum of the first [k + 1]
    elements of the input. *)
Theorem partial_sum_running_totals (v : list Z) :
  totals_in_range v →
  ∃ totals, numeric.partialSumVec v = Some totals ∧
    length totals = length v ∧
    ∀ k : nat, (k < length v)%nat →
      totals !! k = Some (math_sum (take (S k) v)).
Proof.
  intros Hv. unfold numeric.partialSumVec, std.partial_sum.
  destruct v as [|x rest].
  { exists []. split; [done|]. split; [done|]. intros k Hk. simpl in Hk. lia. }
  destruct (partial_sum_loop_prefix_sums rest x
              (<[0%nat := x]> (replicate (length (x :: rest)) 0)) 0)
    as (out' & Hrun & Hlen & Hkeep & Hsums).
  { by rewrite length_insert, length_replicate. }
  { intros j Hj. specialize (Hv (S j)). cbn [take length] in Hv.
    rewrite math_sum_cons in Hv. apply Hv. lia. }
  exists out'. split; [done|].
  split; [by rewrite Hlen, length_insert, length_replicate|].
  intros [|k] Hk.
  - rewrite Hkeep by lia. cbn [take]. rewrite math_sum_cons.
    unfold math_sum. simpl. f_equal. lia.
  - change (S k) with (1 + k)%nat at 1. rewrite (Hsums k) by (cbn [length] in Hk; lia).
    cbn [take]. by rewrite (math_sum_cons x).
Qed.

Lemma partial_sum_running_totals_witness :
  ∃ totals, numeric.partialSumVec [3; -1; 4; 1; -5] = Some totals ∧
    length totals = 5%nat ∧
    ∀ k : nat, (k < 5)%nat →
      totals !! k = Some (math_sum (take (S k) [3; -1; 4; 1; -5])).
Proof.
  apply (partial_sum_running_totals [3; -1; 4; 1; -5]).
  intros k Hk. do 6 (destruct k as [|k]; [reflexivity|]). simpl in Hk. lia.
Defined.

(** X15. numeric.cpp, [std::iota]: it fills the vector with [value],
    [value + 1], ... - provided the increment after the last element does
    not overflow; filling up to [INT_MAX] inclusive is already undefined. *)
Theorem iota_fills_until_overflow (out : list Z) (value : Z) :
  Int.in_range value = true →
  std.iota out value
  = if bool_decide (value + Z.of_nat (length out) ≤ Int.INT_MAX)
    then Some ((λ k : nat, value + Z.of_nat k) <$> seq 0 (length out))
    else None.
Proof.
  revert value. induction out as [|x out IH]; intros value Hv.
  { apply in_range_spec in Hv. cbn. rewrite bool_decide_eq_true_2 by lia. done. }
  cbn [std.iota length]. unfold Int.add, Int.checked.
  destruct (Int.in_range (value + 1)) eqn:E.
  - cbn [mbind option_bind]. rewrite (IH _ E).
    apply in_range_spec in E.
    case_bool_decide as H1; case_bool_decide as H2; try lia; [|done].
    cbn [mbind option_bind seq fmap list_fmap]. do 2 f_equal; [lia|].
    rewrite <- fmap_S_seq, <- list_fmap_compose. apply list_fmap_ext.
    intros _ k _. simpl. lia.
  - cbn [mbind option_bind]. apply in_range_spec in Hv.
    assert (¬ (Int.INT_MIN ≤ value + 1 ≤ Int.INT_MAX)) as Hn.
    { intros H%in_range_spec. congruence. }
    rewrite bool_decide_eq_false_2; [done|]. lia.
Qed.

Lemma iota_fills_until_overflow_witness :
  std.iota (replicate 5 0) 10 = Some [10; 11; 12; 13; 14] ∧
  std.iota [0] 2147483647 = None.
Proof.
  split.
  - exact (iota_fills_until_overflow (replicate 5 0) 10 eq_refl).
  - exact (iota_fills_until_overflow [0] 2147483647 eq_refl).
Defined.

(** X16. The checked accessors of the five container demonstrations, against
    the contents of the container.  In vector.cpp and array.cpp [at(i)] and
    [operator[]] both return the [i]-th element when there is one; past the
    end [at] throws [std::out_of_range] and [operator[]] is undefined.  In
    string_view.cpp [at(pos)] of a view of a whole string returns the
    character at [pos] of that string, and throws past its end.  In map.cpp
    and unordered_map.cpp, whose entries have distinct keys, [at(key)]
    returns the value stored with the key, and throws when no entry has the
    key.  An exception thrown by [at] inside a [try] block is the one the
    [std::out_of_range] handler receives, whatever the block does after the
    access. *)
Theorem at_checks_every_access :
  (* vector.cpp and array.cpp: an index *)
  (∀ (v : vector.vec) (i : nat),
     match vector.elems v !! i with
     | Some x => (i < vector.size v)%nat ∧
                 vector.at_ v i = mret x ∧ vector.subscript v i = mret x
     | None => (vector.size v ≤ i)%nat ∧
               vector.at_ v i = throw out_of_range ∧
               vector.subscript v i = undefined
     end) ∧
  (∀ (a : list Z) (i : nat),
     match a !! i with
     | Some x => (i < array.size a)%nat ∧
                 array.at_ a i = mret x ∧ array.subscript a i = mret x
     | None => (array.size a ≤ i)%nat ∧
               array.at_ a i = throw out_of_range ∧
               array.subscript a i = undefined
     end) ∧
  (* string_view.cpp: a position in a view of a whole string *)
  (∀ (s : string) (pos : nat),
     match String.get pos s with
     | Some c => (pos < String.length s)%nat ∧
                 string_view.at_ (string_view.of_string s) pos = mret c
     | None => (String.length s ≤ pos)%nat ∧
               string_view.at_ (string_view.of_string s) pos = throw out_of_range
     end) ∧
  (* map.cpp and unordered_map.cpp: a key *)
  (∀ (m : list (string * Z)) (key : string),
     NoDup m.*1 →
     (∀ x, (key, x) ∈ m → map.at_ m key = mret x) ∧
     (key ∉ m.*1 → map.at_ m key = throw out_of_range)) ∧
  (∀ (m : list (string * Z)) (key : string),
     NoDup m.*1 →
     (∀ x, (key, x) ∈ m → unordered_map.at_ m key = mret x) ∧
     (key ∉ m.*1 → unordered_map.at_ m key = throw out_of_range)) ∧
  (* whatever follows the access in the [try] block, the handler for
     [std::out_of_range] receives the exception *)
  (∀ (A : Type) (k : Z → M A) (v : vector.vec) (i : nat),
     (vector.size v ≤ i)%nat →
     caught (vector.at_ v i ≫= k) is_out_of_range = Some out_of_range).
Proof.
  assert (Hget : ∀ (s : string) (pos : nat),
            match String.get pos s with
            | Some _ => (pos < String.length s)%nat
            | None => (String.length s ≤ pos)%nat
            end).
  { induction s as [|c s IH]; intros [|pos]; simpl; try lia.
    specialize (IH pos). destruct (String.get pos s); lia. }
  assert (Hfind : ∀ (m : list (string * Z)) key,
            NoDup m.*1 →
            (∀ x, (key, x) ∈ m → map.find m key = Some (key, x)) ∧
            (key ∉ m.*1 → map.find m key = None)).
  { induction m as [|[k v] m IH]; intros key Hm; simpl.
    - split; [|done]. intros x Hx. by apply elem_of_nil in Hx.
    - apply NoDup_cons in Hm as [Hk Hm]. destruct (IH key Hm) as [IH1 IH2].
      destruct (String.eqb k key) eqn:E.
      + apply String.eqb_eq in E. subst k. split.
        * intros x Hx. apply elem_of_cons in Hx as [[= ->]|Hx]; [done|].
          exfalso. apply Hk. apply (list_elem_of_fmap_2 fst _ _ Hx).
        * intros Hn. exfalso. apply Hn. by left.
      + apply String.eqb_neq in E. split.
        * intros x Hx. apply elem_of_cons in Hx as [[= ? ?]|Hx]; [congruence|].
          by apply IH1.
        * intros Hn. apply IH2. intros Hin. apply Hn. by right. }
  assert (Hufind : ∀ (m : list (string * Z)) key,
            NoDup m.*1 →
            (∀ x, (key, x) ∈ m → unordered_map.find m key = Some (key, x)) ∧
            (key ∉ m.*1 → unordered_map.find m key = None)).
  { induction m as [|[k v] m IH]; intros key Hm; simpl.
    - split; [|done]. intros x Hx. by apply elem_of_nil in Hx.
    - apply NoDup_cons in Hm as [Hk Hm]. destruct (IH key Hm) as [IH1 IH2].
      destruct (String.eqb k key) eqn:E.
      + apply String.eqb_eq in E. subst k. split.
        * intros x Hx. apply elem_of_cons in Hx as [[= ->]|Hx]; [done|].
          exfalso. apply Hk. apply (list_elem_of_fmap_2 fst _ _ Hx).
        * intros Hn. exfalso. apply Hn. by left.
      + apply String.eqb_neq in E. split.
        * intros x Hx. apply elem_of_cons in Hx as [[= ? ?]|Hx]; [congruence|].
          by apply IH1.
        * intros Hn. apply IH2. intros Hin. apply Hn. by right. }
  split; [|split; [|split; [|split; [|split]]]].
  - intros v i. unfold vector.at_, vector.subscript, vector.size.
    destruct (vector.elems v !! i) as [x|] eqn:E.
    + split; [|done]. by apply lookup_lt_Some in E.
    + split; [|done]. by apply lookup_ge_None in E.
  - intros a i. unfold array.at_, array.subscript, array.size.
    destruct (a !! i) as [x|] eqn:E.
    + split; [|done]. by apply lookup_lt_Some in E.
    + split; [|done]. by apply lookup_ge_None in E.
  - intros s pos. unfold string_view.at_, string_view.of_string. simpl.
    specialize (Hget s pos). destruct (String.get pos s) as [c|] eqn:E.
    + split; [done|]. by rewrite bool_decide_eq_false_2 by lia.
    + split; [done|]. by rewrite bool_decide_eq_true_2 by lia.
  - intros m key Hm. destruct (Hfind m key Hm) as [H1 H2]. unfold map.at_. split.
    + intros x Hx. by rewrite (H1 x Hx).
    + intros Hn. by rewrite (H2 Hn).
  - intros m key Hm. destruct (Hufind m key Hm) as [H1 H2].
    unfold unordered_map.at_. split.
    + intros x Hx. by rewrite (H1 x Hx).
    + intros Hn. by rewrite (H2 Hn).
  - intros A k v i Hi. unfold vector.at_, vector.size in *.
    rewrite lookup_ge_None_2 by lia. done.
Qed.
